(* ===== verification/_CoqProject ===== *)
-Q . S2P
Prelude.v
Text.v
Calendar.v
Quote.v
World.v
Hash.v
Sha256.v
Config.v
Signer.v
Request.v
Planner.v
Xml.v
Numeric.v
Dict.v
Parser.v
Threads.v
Dispatch.v
Client.v
