(* ===== verification/Prelude.v ===== *)
(** * awis-py: a verification development

    The program is a client library for the Alexa Web Information Service.
    It exists twice in the repository: [src/awis.py] (the first version,
    which hands its requests to grequests) and [src/awis/awis.py] (the
    packaged version, which sends them from a thread pool).  Both build HTTP
    GET requests signed with AWS Signature Version 4, cut a traffic-history
    query of [search_range] days into sub-queries of at most 31 days, send
    them and parse the XML answers.  [src/setup.py] is packaging metadata.

    ** The parts of the program and the files that model them

    In every file that models code, [Module Pkg] holds the definitions of
    [src/awis/awis.py] and [Module Legacy] those of [src/awis.py], under the
    names of the source; each [Pkg] exports the [Pkg] of the file before, so
    a file reads like the class it models.

    - [Config]: the module constants and the client object.  [Pkg.AWIS] and
      [Legacy.AWIS] are records of the attributes [__init__] sets;
      [Pkg.getattr] is attribute lookup on a client (instance attributes,
      then the names the class body binds, [__init__] included, then the
      attributes every object inherits, else [AttributeError]).
    - [Signer]: [get_signature_key], [sha256] and [hmac_sha256], over the
      hash interface [HashFn] of [Hash]; [signing_key] is the key derivation
      as the AWS documentation states it.
    - [Request]: [amz_date], [date_stamp], [create_request] and, in the
      first version, [request].  A method that reads the clock or sends a
      request is a computation in the monad [io] of [World]; the pure
      function [signed_request] is the specification of the request builder.
    - [Planner]: [traffic_history] up to its list of queries:
      [Pkg.search_start] is lines 119-129 (the checks and the first day),
      [Pkg.build_queries] lines 131-142 with the [for] loop
      [Pkg.query_loop]; [Legacy.request_loop] is the loop of the first
      version, which calls [create_request] at each turn.  [plan] is the
      specification of the loop: the span and the first day of each
      sub-query, as numbers.
    - [Parser]: [parse_traffic_history] ([Pkg.parse_data] is the body of
      its [for] loop, [Pkg.data_loop] the loop), [parse_url_info] and
      [parse_response].  The list of named tuples of the package is a list
      of records [Pkg.TrafficHistory]; the [dict] of the first version is
      the insertion-ordered dictionary of [Dict] with records
      [Legacy.entry] as values.
    - [Dispatch]: [Pkg.bulk_request], the pool of eight workers on the
      threads [Pkg.create_request_task] (the call of [create_request] that
      [apply_async] submits: its two readings of the clock and the sending
      of the request are its atomic actions); [Legacy.send_requests], the
      call of [grequests.map], and [Legacy.exception_handler].
    - [Client]: [url_info] and [traffic_history] of both versions, whole:
      [Pkg.traffic_history] is the queries of the planner, [bulk_request],
      the parser on each answer and the chaining of the lists;
      [Legacy.traffic_history] is the requests of the planner,
      [grequests.map] and [Legacy.update_loop], the merging of the dicts.
      [response_groups] is an [iterable]: a sequence, which gives its items
      at every iteration, or an iterator, which gives them once.  The call
      of the value of an attribute ([self.request(...)] in [url_info] of
      the package) is the interface [PyCall]; the theorems assume nothing
      of it.

    The library code the sources call is modelled as far as the program
    depends on it, from the documentation and the behaviour of CPython 3:

    - [Text]: [str] and [bytes], [str.encode], [bytes.hex], the decimal
      rendering of an [int] in an f-string;
    - [Calendar]: [datetime.date] (proleptic Gregorian ordinals, [date +
      timedelta], comparison), [strftime] for the formats used, [strptime]
      for [%Y%m%d] with the alternatives of its regular expression in the
      order a backtracking matcher tries them, [utcfromtimestamp];
    - [Quote]: [urllib.parse.quote] with its default safe characters, and
      as a reference the canonical query string of Signature Version 4
      ([sigv4_query]: parameters sorted by name, names and values
      URI-encoded by [uri_encode]);
    - [Hash], [Sha256]: HMAC (RFC 2104) over any hash function, and SHA-256
      (FIPS 180-4) on 32-bit words kept in [Z] and masked after each
      addition, so that the signer runs on published test vectors;
    - [World]: the clock ([time.time], [datetime.utcnow], [date.today]),
      the network ([requests.get]) and the scheduler of threads as a
      record: the time of the next reading, the steps the clock makes after
      each reading, the offset of local time, the requests sent, the answer
      of the network as a function of the requests sent before, and the
      choices the scheduler will make;
    - [Xml]: the element tree of lxml ([tag], [text], children, [iter],
      [find] and [findall] with paths of qualified tags); the parser of
      XML itself is the interface [XmlParser] of [Parser], which the
      theorems take as a parameter;
    - [Numeric]: [int()] and [float()] of a text (white space, sign,
      underscores, the decimal grammar, [inf] and [nan]), with [float] as
      binary64 rounded to nearest even ([SpecFloat]);
    - [Dict]: the insertion-ordered [dict] with item assignment and
      [update], and the finite map it stands for;
    - [Threads]: threads as sequences of atomic actions on the world, and
      the pool of [multiprocessing.pool.ThreadPool] ([apply_async] on each
      thread, then [get] on each result in order): [pool_loop] runs it
      under the scheduler of the world, [pool_step] is its step relation.
      [Dispatch] has [grequests.map] on top of it (every request in its
      own greenlet, then the handler on each request that failed).

    ** What the theorems show

    - [Calendar]: [toordinal] and [ord2ymd] are inverse on the dates of the
      years 1 to 9999; date comparison is comparison of ordinals; adding
      days is adding to the ordinal, with [OverflowError] outside the range;
      [strftime('%Y%m%d')] is injective on dates.
    - [Quote]: [unquote (quote s) = s], so [quote] is injective; its output
      holds only characters that are safe in a URL; [quote] and the URI
      encoding of the service agree on a string exactly when it holds no
      slash ([quote_uri_encode]).
    - [Hash], [Sha256]: sizes of digests and HMACs; the padding of SHA-256
      fills whole blocks; test vectors of FIPS 180-4 and RFC 4231.
    - [Signer]: the signing key is the key derivation of the
      specification; the test vector of the AWS documentation.
    - [Request]: [create_request] refines [signed_request]
      ([run_create_request], [create_request_spec]): it reads the clock
      twice, sends exactly the specified request and returns the answer of
      the network; the two readings give one date when they fall on the
      same day, and in every world in which midnight passes between them
      the request has a time stamp and a credential scope of different
      days ([create_request_rollover]); the request goes to the host of
      [SERVICE_HOST] while the signature is over the host of the region,
      and the two differ whatever the region ([create_request_host]); the
      first version returns, unsent, the request of the packaged version
      in the default region.
    - [Planner]: the method up to its queries returns the rendered plan in
      every world ([traffic_history_queries_spec]): once the checks pass
      the loop never raises; the queries lie before the day of the last
      check; they divide the days of the search when [search_range] is no
      multiple of 31, and when it is the last query asks for no day
      ([build_queries_multiple_of_31]) and the queries end 31 days before
      the end of the search ([build_queries_multiple_of_31_days]); the
      checks reject a range below 1 without reading the clock, and every
      call with the default arguments while the day does not change
      ([search_start_default_raises]); the query that is signed is the
      canonical query string of Signature Version 4 exactly when the URL
      holds no slash ([canonical_query_sigv4]); the first version runs the
      same checks and signs the same queries.
    - [Config]: the constants of the two versions agree; the endpoint of a
      packaged client is never [SERVICE_HOST]; [valid_response_groups] and
      [request] do not resolve on a packaged client.
    - [Xml], [Numeric], [Dict]: what [find] and [iter] return is in the
      tree; [int(str(n)) = n], also with white space around; the values
      of [float] on texts with known roundings; a [dict] has no key twice
      and is the finite map of its items, [update] is the union that
      prefers the new items.
    - [Parser]: on the document of the service for a list of days the
      parser returns the records of the days, in order
      ([parse_history_document]); the first version returns the dict of
      the same records ([parse_traffic_history_legacy]); an answer without
      [Data] element gives the empty list ([parse_no_data]); which
      exception a missing or empty element raises.
    - [Threads]: the loop refines the step relation ([pool_loop_steps]);
      never more threads at work than workers ([pool_bound]), and as many
      as the workers or the threads allow can be ([pool_fill]); the results
      are results of the threads in their order, an exception is the
      exception of a thread ([pool_results], [pool_exception]), under an
      invariant of the world that the threads keep; the loop ends under
      every scheduler ([pool_loop_total]); under the scheduler that takes
      the first thread it is the sequential run ([pool_loop_sequential]).
    - [Dispatch]: the same for [bulk_request]: termination within its
      fuel; at most eight calls in flight in every state of the pool, and
      a state with eight of them ([bulk_request_in_flight]); answers in
      the order of the queries, each the answer of the network to a signed
      request for its query ([bulk_request_results]); an exception is the
      exception of the thread of one query ([bulk_request_exception]), and
      a query the network fails on makes the batch fail
      ([bulk_request_failing]); the requests sent are signed requests for
      the queries, no more than the queries and as many on success
      ([bulk_request_sends]), also in the states the pool reaches after
      the caller has left, where each query has no more requests than
      places in the list ([bulk_request_pool_sends]); sequential
      refinement to [create_request] on each query; in the first version a
      failed request ends in the [TypeError] of the handler call
      ([send_requests_failure]).
    - [Client]: [traffic_history] end to end under every scheduler
      ([traffic_history_correct]): with a clock that does not fail and a
      service that answers each query of the plan with the document of its
      days, the result is the records of the days in the order of the plan;
      the same for the first version, whose dict has each date once with
      the entry of the last record of the date
      ([traffic_history_legacy_correct]); a query of the plan the network
      fails on makes [traffic_history] raise, whatever the other answers
      ([traffic_history_request_error]), with the [TypeError] of the
      handler call in the first version
      ([traffic_history_legacy_failure]); [url_info] of the package always
      raises [AttributeError]; [url_info] of the first version sends one signed
      request for valid groups, raises [NameError] for a list with an
      invalid group and checks nothing when the groups come as an iterator
      ([url_info_iterator_unchecked]).

    The theorems that are instances at concrete inputs (named [_witness])
    apply a theorem to an example and evaluate its hypotheses.

    ** Bounds and fuel

    Integers are [Z] throughout, since Python integers do not overflow; the
    32-bit words of SHA-256 are masked explicitly.  The loops of the planner
    recurse on the list of indices [range(num_requests)], so they need no
    fuel.  [chunks] in [Sha256] takes the length of its input as fuel, which
    is more than the number of blocks.  The only bounds are those of
    Python's [datetime]: years 1 to 9999 (ordinals 1 to 3652059) and
    [timedelta]s of at most 999999999 days; the theorems state them as
    hypotheses where a result depends on them, and the refinement of
    [traffic_history] derives them from the checks of the method.

    The loop of the pool takes fuel, one unit for each step of the pool
    (a thread starts, or a thread makes one action).  A thread of
    [create_request] makes three actions, so [bulk_request] gives the pool
    [4 * n + 1] steps for [n] queries; [bulk_request_total] proves that
    this is enough under every scheduler, so the exception that stands for
    a pool out of fuel is never raised.  The greenlets of [grequests.map]
    make one action each and get [2 * n + 1] steps.  The scheduler is a
    list of numbers in the world, read modulo the number of threads that
    can move; when the list is used up it takes the first thread.  The
    theorems on [bulk_request] hold for every such list.

    ** What is not modelled

    - The parser of XML (lxml): the theorems hold for every parser, and
      the round trip is stated on the tree the parser returns.
    - The sending of a request and the arrival of its answer as two
      events: [requests.get] is one atomic action of its thread, whose
      answer depends on the requests sent before.
    - What happens after [bulk_request] has returned: the computation
      [Pkg.bulk_request] ends when the caller has its answers or its
      exception, and the world it returns is the world of that moment.
      The workers of a [ThreadPool] finish the calls they have in flight;
      these later steps are steps of the relation [pool_step], and the
      bounds on the requests sent and on the threads at work are proved
      for every state the relation reaches, not for the returned world
      only.
    - [requests.session()]: the session [bulk_request] creates is passed
      to [create_request], which never uses it; creating it has no effect
      in the model.
    - [grequests]: [Legacy.send_requests] is the call of [grequests.map]
      over a model of that library (one greenlet for each request, then
      the handler on each request that failed, with two arguments).
    - [warnings.warn] in the handler: the handler is called with two
      arguments and takes none, so its body is never reached.
    - Time zones other than a fixed offset of local time; sub-second
      precision of the clock (no format in use renders it); [str]s whose
      characters are not single bytes are taken as their UTF-8 encoding.

    ** Conventions

    - A Python [str] is modelled by its UTF-8 encoding, a Rocq [string]
      (a sequence of bytes); [s.encode('utf-8')] is then the identity on
      the bytes.  A [bytes] value is a [list Z] of numbers in [0, 256).
    - A function that can raise returns [result A]: [Ok a] or [Raise e],
      where [e] records the exception class and its message.
    - This file holds the exceptions, the [result] monad with stdpp's
      [x ← m; k] notation, the tactics and the hint databases ([awis],
      [awis_simpl]) of the development, and lemmas on lists the components
      share.
*)

From Stdlib Require Export ZArith Lia String Ascii List.
From stdpp Require Export base tactics option list numbers strings.

Open Scope Z_scope.

(** ** Definitions *)

(** *** Exceptions *)

(** The exception classes the sources raise themselves ([ValueError],
    [NameError], [SearchRangeError]) and the ones the library calls they make
    can raise. *)
Inductive exn_class : Type :=
  | ValueError
  | NameError
  | AttributeError
  | TypeError
  | OverflowError
  | SearchRangeError
  | XMLSyntaxError
  | RequestException
  | RuntimeError
  | IndexError.

(** An exception: its class and its message. *)
Record exn : Type := Exn { exn_cls : exn_class; exn_msg : string }.

#[export] Instance exn_class_eq_dec : EqDecision exn_class.
Proof. solve_decision. Defined.

#[export] Instance exn_eq_dec : EqDecision exn.
Proof. solve_decision. Defined.

(** *** The error monad *)

Inductive result (A : Type) : Type :=
  | Ok (a : A)
  | Raise (e : exn).

Arguments Ok {A} a.
Arguments Raise {A} e.

#[export] Instance result_eq_dec `{EqDecision A} : EqDecision (result A).
Proof. solve_decision. Defined.

#[export] Instance result_ret : MRet result := @Ok.

#[export] Instance result_bind : MBind result := λ A B f m,
  match m with Ok a => f a | Raise e => Raise e end.

#[export] Instance result_fmap : FMap result := λ A B f m,
  match m with Ok a => Ok (f a) | Raise e => Raise e end.

(** [raise cls msg] is Python's [raise cls(msg)]. *)
Definition raise {A : Type} (cls : exn_class) (msg : string) : result A :=
  Raise (Exn cls msg).

(** [is_ok r] and [raises cls r]: the two outcomes, as decidable tests. *)
Definition is_ok {A : Type} (r : result A) : bool :=
  match r with Ok _ => true | Raise _ => false end.

Definition raises {A : Type} (cls : exn_class) (r : result A) : bool :=
  match r with Ok _ => false | Raise e => bool_decide (exn_cls e = cls) end.

(** [mapM f l]: the results of [f] on the elements of [l], in order, or the
    first exception. *)
Fixpoint mapM_result {A B : Type} (f : A → result B) (l : list A) : result (list B) :=
  match l with
  | [] => Ok []
  | x :: l' => y ← f x; ys ← mapM_result f l'; mret (y :: ys)
  end.

(** *** Hint databases and tactics *)

Create HintDb awis discriminated.
Create Rewrite HintDb awis_simpl.

(** *** Lemmas on lists shared by the components *)

(** Sums of lists of integers. *)
Definition sumZ (l : list Z) : Z := foldr Z.add 0 l.

(** ** Theorems *)

(** *** Hint databases and tactics *)

(** Monad laws of [result], as rewrite rules. *)
Lemma result_bind_ok {A B : Type} (f : A → result B) (a : A) :
  (Ok a ≫= f) = f a.
Proof. reflexivity. Qed.

Lemma result_bind_raise {A B : Type} (f : A → result B) (e : exn) :
  (Raise e ≫= f) = Raise e.
Proof. reflexivity. Qed.

Lemma result_bind_ret {A : Type} (m : result A) : (m ≫= mret) = m.
Proof. by destruct m. Qed.

Lemma result_bind_assoc {A B C : Type} (m : result A) (f : A → result B) (g : B → result C) :
  ((m ≫= f) ≫= g) = (m ≫= λ a, f a ≫= g).
Proof. by destruct m. Qed.

Lemma result_bind_inv {A B : Type} (m : result A) (f : A → result B) (b : B) :
  (m ≫= f) = Ok b → ∃ a, m = Ok a ∧ f a = Ok b.
Proof. destruct m as [a|e]; [by exists a | done]. Qed.

Lemma result_fmap_ok {A B : Type} (f : A → B) (a : A) : f <$> Ok a = Ok (f a).
Proof. reflexivity. Qed.

#[export] Hint Rewrite @result_bind_ok @result_bind_raise @result_bind_ret
  @result_fmap_ok : awis_simpl.

Lemma is_ok_true {A : Type} (r : result A) : is_ok r = true ↔ ∃ a, r = Ok a.
Proof. destruct r; split; intros H; try done; [by eexists | by destruct H]. Qed.

Lemma raises_true {A : Type} (cls : exn_class) (r : result A) :
  raises cls r = true ↔ ∃ msg, r = Raise (Exn cls msg).
Proof.
  destruct r as [a|[c m]]; simpl; split; try done.
  - by intros [? ?].
  - intros ->%bool_decide_eq_true. by eexists.
  - intros [msg [= -> ->]]. by apply bool_decide_eq_true.
Qed.

(** [inv_result]: split every hypothesis [(m ≫= f) = Ok b] into the two runs
    it stands for, and discard the impossible ones. *)
Ltac inv_result :=
  repeat match goal with
  | H : (_ ≫= _) = Ok _ |- _ =>
      apply result_bind_inv in H; destruct H as (? & ? & H)
  | H : mret _ = Ok _ |- _ => injection H as H
  | H : Ok _ = Ok _ |- _ => injection H as H
  | H : Raise _ = Ok _ |- _ => discriminate H
  | H : Ok _ = Raise _ |- _ => discriminate H
  | H : raise _ _ = Ok _ |- _ => discriminate H
  end.

(** [case_test]: case analysis on the test of the first [if] of the goal,
    with the fact it decides in the context. *)
Ltac case_test :=
  match goal with
  | |- context [if decide ?P then _ else _] => destruct (decide P)
  | |- context [if bool_decide ?P then _ else _] => case_bool_decide
  | |- context [if ?b then _ else _] =>
      let E := fresh "E" in destruct b eqn:E
  end.

(** [Z_range_forall]: a decidable property of the integers of a range holds
    when it is computed to hold on each; used as
    [revert n; apply (Z_range_forall _ lo len); vm_compute; reflexivity]. *)
Lemma Z_range_forall (P : Z → Prop) `{!∀ x, Decision (P x)} (lo len : Z) :
  bool_decide (Forall P (seqZ lo len)) = true → ∀ n, lo ≤ n < lo + len → P n.
Proof. intros HF%bool_decide_eq_true n Hn. by apply (Forall_seqZ P lo len). Qed.

Ltac by_range lo len :=
  let n := fresh "n" in
  let Hn := fresh "Hn" in
  intros n Hn; pattern n;
  apply (Z_range_forall _ lo len); [vm_compute; reflexivity | lia].

(** *** Lemmas on lists shared by the components *)

Lemma mapM_result_length {A B : Type} (f : A → result B) (l : list A) (r : list B) :
  mapM_result f l = Ok r → length r = length l.
Proof.
  revert r. induction l as [|x l IH]; intros r H; simpl in H; inv_result.
  - by subst.
  - subst. simpl. f_equal. eauto.
Qed.

Lemma mapM_result_total {A B : Type} (f : A → result B) (g : A → B) (l : list A) :
  (∀ x, x ∈ l → f x = Ok (g x)) → mapM_result f l = Ok (g <$> l).
Proof.
  induction l as [|x l IH]; intros H; [done|]. simpl.
  rewrite H by left. simpl. rewrite IH; [done|].
  intros y Hy. apply H. by right.
Qed.

Lemma mapM_result_Ok {A B : Type} (f : A → result B) (l : list A) (r : list B) :
  mapM_result f l = Ok r → Forall2 (λ x y, f x = Ok y) l r.
Proof.
  revert r. induction l as [|x l IH]; intros r H; simpl in H; inv_result; subst.
  - constructor.
  - constructor; eauto.
Qed.

Lemma mapM_result_Raise {A B : Type} (f : A → result B) (l : list A) (e : exn) :
  mapM_result f l = Raise e → ∃ x, x ∈ l ∧ f x = Raise e.
Proof.
  induction l as [|x l IH]; intros H; simpl in H; [done|].
  destruct (f x) as [y|e'] eqn:E; simpl in H.
  - destruct (mapM_result f l) as [ys|e'']; simpl in H; [done|]. injection H as ->.
    destruct IH as (x' & Hx' & Hf); [done|]. exists x'. split; [by right | done].
  - injection H as ->. exists x. split; [by left | done].
Qed.

Lemma mapM_result_Forall2 {A B C : Type} (f : B → result C) (g : A → C) (l : list A)
    (k : list B) :
  Forall2 (λ x y, f y = Ok (g x)) l k → mapM_result f k = Ok (g <$> l).
Proof.
  induction 1 as [|x y l k Hxy HF IH]; [done|]. cbn [mapM_result fmap list_fmap].
  rewrite Hxy, IH. done.
Qed.

Lemma Forall_forall_in {A : Type} (l : list A) : Forall (λ x, x ∈ l) l.
Proof. by apply Forall_forall. Qed.

(** A relation on two lists, with a property of the elements of the first. *)
Lemma Forall2_and_l {A B : Type} (R : A → B → Prop) (P : A → Prop) (l : list A)
    (k : list B) :
  Forall2 R l k → Forall P l → Forall2 (λ x y, R x y ∧ P x) l k.
Proof.
  induction 1 as [|x y l k HR HF IH]; intros HP; [constructor|].
  apply Forall_cons_1 in HP as [Hx HP]. constructor; auto.
Qed.

Lemma sumZ_app (l1 l2 : list Z) : sumZ (l1 ++ l2) = sumZ l1 + sumZ l2.
Proof. induction l1 as [|x l1 IH]; simpl; [done | rewrite IH; lia]. Qed.

Lemma sumZ_replicate (n : nat) (x : Z) : sumZ (replicate n x) = Z.of_nat n * x.
Proof. induction n as [|n IH]; [done|]. simpl replicate. simpl sumZ. rewrite IH. lia. Qed.

#[export] Hint Rewrite sumZ_app sumZ_replicate : awis_simpl.
