(* ===== verification/Text.v ===== *)
(** * Text: Python's strings, bytes, decimal and hexadecimal rendering

    The primitives of Python text the sources use: concatenation (f-strings),
    [str.encode], [str(int)] inside an f-string, the zero-padded fields of
    [strftime], [bytes.hex] and [str.join].  A [str] is its UTF-8 encoding (a
    [string]); a [bytes] value is a [list Z] of numbers in [0, 256). *)

From Stdlib Require Import DecimalString DecimalZ DecimalPos.
From S2P Require Import Prelude.

(** ** Definitions *)

(** *** Strings as lists of characters *)

Abbreviation chars := list_ascii_of_string.
Abbreviation text := string_of_list_ascii.

(** [join sep l] is Python's [sep.join(l)]. *)
Definition join (sep : string) (l : list string) : string := String.concat sep l.

(** *** Bytes *)

Definition is_byte (b : Z) : Prop := 0 ≤ b < 256.

#[export] Instance is_byte_dec (b : Z) : Decision (is_byte b).
Proof. unfold is_byte. apply _. Defined.

Definition byte_of_char (c : ascii) : Z := Z.of_N (N_of_ascii c).
Definition char_of_byte (b : Z) : ascii := ascii_of_N (Z.to_N b).

(** [encode s] is [s.encode('utf-8')]: the bytes of the string. *)
Definition encode (s : string) : list Z := byte_of_char <$> chars s.

(** [decode b] is the string of the bytes [b]. *)
Definition decode (b : list Z) : string := text (char_of_byte <$> b).

(** *** Decimal rendering *)

(** [str_of_int n] is Python's [str(n)] for an [int], which is what an
    f-string field [{n}] renders. *)
Definition str_of_int (n : Z) : string := NilZero.string_of_int (Z.to_int n).

(** [digit d] is the character of the decimal digit [d]. *)
Definition digit (d : Z) : ascii := char_of_byte (48 + d).

(** [pad2 n] is the two-digit, zero-padded rendering of [0 <= n < 100]:
    the [%m], [%d], [%H], [%M] and [%S] fields of [strftime]. *)
Definition pad2 (n : Z) : string :=
  String (digit (n / 10)) (String (digit (n mod 10)) EmptyString).

(** [is_digit c]: [c] is one of the characters 0 to 9. *)
Definition is_digit (c : ascii) : bool :=
  let b := byte_of_char c in (48 <=? b) && (b <=? 57).

(** [digit_val c] is the value of the decimal digit [c]. *)
Definition digit_val (c : ascii) : Z := byte_of_char c - 48.

(** [nat_of_digits acc l]: the number the digits [l] write after [acc]. *)
Fixpoint nat_of_digits (acc : Z) (l : list ascii) : Z :=
  match l with
  | [] => acc
  | c :: l' => nat_of_digits (10 * acc + digit_val c) l'
  end.

(** *** Hexadecimal rendering *)

(** [hex_digit n] is the lower-case hexadecimal digit of [0 <= n < 16];
    [HEX_digit n] the upper-case one. *)
Definition hex_digit (n : Z) : ascii :=
  char_of_byte (if n <? 10 then 48 + n else 87 + n).

Definition HEX_digit (n : Z) : ascii :=
  char_of_byte (if n <? 10 then 48 + n else 55 + n).

(** [unhex_digit c] is the value of a hexadecimal digit of either case. *)
Definition unhex_digit (c : ascii) : option Z :=
  let n := byte_of_char c in
  if (48 <=? n) && (n <=? 57) then Some (n - 48)
  else if (97 <=? n) && (n <=? 102) then Some (n - 87)
  else if (65 <=? n) && (n <=? 70) then Some (n - 55)
  else None.

(** [hex b] is Python's [b.hex()]: two lower-case digits per byte. *)
Fixpoint hex (b : list Z) : string :=
  match b with
  | [] => EmptyString
  | x :: b' => String (hex_digit (x / 16)) (String (hex_digit (x mod 16)) (hex b'))
  end.

(** [unhex s] is [bytes.fromhex(s)] on a string of hexadecimal digits. *)
Fixpoint unhex (s : string) : option (list Z) :=
  match s with
  | EmptyString => Some []
  | String c (String d s') =>
      h ← unhex_digit c; l ← unhex_digit d; b ← unhex s'; Some (16 * h + l :: b)
  | String _ EmptyString => None
  end.

(** [is_hex_lower c]: [c] is a digit or one of a to f. *)
Definition is_hex_lower (c : ascii) : bool :=
  let n := byte_of_char c in
  ((48 <=? n) && (n <=? 57)) || ((97 <=? n) && (n <=? 102)).

(** ** Theorems *)

(** *** Strings as lists of characters *)

Lemma chars_app (s t : string) : chars (s +:+ t) = chars s ++ chars t.
Proof. induction s as [|c s IH]; simpl; [done | by rewrite IH]. Qed.

Lemma text_app (l k : list ascii) : text (l ++ k) = text l +:+ text k.
Proof. induction l as [|c l IH]; simpl; [done | by rewrite IH]. Qed.

Lemma chars_inj (s t : string) : chars s = chars t → s = t.
Proof.
  intros H. rewrite <- (string_of_list_ascii_of_string s),
    <- (string_of_list_ascii_of_string t). by rewrite H.
Qed.

Lemma string_app_assoc (s t u : string) : (s +:+ t) +:+ u = s +:+ (t +:+ u).
Proof. apply chars_inj. rewrite !chars_app. by rewrite <- app_assoc. Qed.

Lemma string_app_nil_r (s : string) : s +:+ "" = s.
Proof. apply chars_inj. rewrite chars_app. apply app_nil_r. Qed.

Lemma string_length_chars (s : string) : String.length s = length (chars s).
Proof. induction s as [|c s IH]; simpl; [done | by rewrite IH]. Qed.

Lemma string_length_app (s t : string) :
  String.length (s +:+ t) = (String.length s + String.length t)%nat.
Proof. by rewrite !string_length_chars, chars_app, length_app. Qed.

(** Cancellation on the right, for strings of equal length on the left. *)
Lemma string_app_inj_length (s1 s2 t1 t2 : string) :
  String.length s1 = String.length s2 →
  s1 +:+ t1 = s2 +:+ t2 → s1 = s2 ∧ t1 = t2.
Proof.
  revert s2. induction s1 as [|c s1 IH]; intros [|d s2] Hl H; simplify_eq/=; [done|].
  destruct (IH s2) as [-> ->]; auto.
Qed.

#[export] Hint Rewrite chars_app text_app string_app_assoc string_app_nil_r
  string_length_app string_of_list_ascii_of_string
  list_ascii_of_string_of_list_ascii : awis_simpl.

(** [string_eq]: two concatenations of the same pieces are equal, however
    they are bracketed and wherever their literals are cut. *)
Ltac string_eq :=
  apply chars_inj;
  repeat (progress (repeat rewrite chars_app; simpl; repeat rewrite <- app_assoc));
  reflexivity.

(** *** Bytes *)

Lemma byte_of_char_range (c : ascii) : is_byte (byte_of_char c).
Proof. unfold is_byte, byte_of_char. pose proof (N_ascii_bounded c). lia. Qed.

Lemma char_of_byte_of_char (c : ascii) : char_of_byte (byte_of_char c) = c.
Proof. unfold char_of_byte, byte_of_char. rewrite N2Z.id. apply ascii_N_embedding. Qed.

Lemma byte_of_char_of_byte (b : Z) : is_byte b → byte_of_char (char_of_byte b) = b.
Proof.
  intros [? ?]. unfold char_of_byte, byte_of_char.
  rewrite N_ascii_embedding by lia. lia.
Qed.

Lemma encode_bytes (s : string) : Forall is_byte (encode s).
Proof. apply Forall_fmap, Forall_true, byte_of_char_range. Qed.

Lemma encode_app (s t : string) : encode (s +:+ t) = encode s ++ encode t.
Proof. unfold encode. by rewrite chars_app, fmap_app. Qed.

Lemma encode_length (s : string) : length (encode s) = String.length s.
Proof. unfold encode. by rewrite length_fmap, string_length_chars. Qed.

Lemma decode_encode (s : string) : decode (encode s) = s.
Proof.
  unfold decode, encode. rewrite <- list_fmap_compose.
  rewrite (list_fmap_ext _ id) by (intros; apply char_of_byte_of_char).
  rewrite list_fmap_id. apply string_of_list_ascii_of_string.
Qed.

Lemma encode_decode (b : list Z) : Forall is_byte b → encode (decode b) = b.
Proof.
  intros Hb. unfold decode, encode. rewrite list_ascii_of_string_of_list_ascii.
  rewrite <- list_fmap_compose. rewrite <- (list_fmap_id b) at 2.
  apply Forall_fmap_ext_1. eapply Forall_impl; [done|].
  intros x Hx. by apply byte_of_char_of_byte.
Qed.

Lemma encode_inj (s t : string) : encode s = encode t → s = t.
Proof. intros H. by rewrite <- (decode_encode s), H, decode_encode. Qed.

#[export] Hint Resolve encode_bytes byte_of_char_range : awis.
#[export] Hint Rewrite encode_app encode_length decode_encode : awis_simpl.

(** *** Decimal rendering *)

Lemma to_int_not_nil (n : Z) :
  Z.to_int n ≠ Decimal.Pos Decimal.Nil ∧ Z.to_int n ≠ Decimal.Neg Decimal.Nil.
Proof.
  destruct n as [|p|p]; simpl; split; try done; intros [= H];
    by pose proof (DecimalPos.Unsigned.to_uint_nonnil p).
Qed.

(** Round trip of the decimal rendering, through the Standard Library's
    reader. *)
Lemma int_of_str_of_int (n : Z) :
  Z.of_int <$> NilZero.int_of_string (str_of_int n) = Some n.
Proof.
  unfold str_of_int. destruct (to_int_not_nil n) as [H1 H2].
  rewrite NilZero.isi by done. simpl. f_equal. apply DecimalZ.of_to.
Qed.

Lemma str_of_int_inj (n m : Z) : str_of_int n = str_of_int m → n = m.
Proof.
  intros H. assert (Some n = Some m) as [= ->]; [|done].
  by rewrite <- (int_of_str_of_int n), H, int_of_str_of_int.
Qed.

Lemma is_digit_digit (d : Z) : 0 ≤ d < 10 → is_digit (digit d) = true.
Proof. revert d. by_range 0 10. Qed.

Lemma digit_val_digit (d : Z) : 0 ≤ d < 10 → digit_val (digit d) = d.
Proof. revert d. by_range 0 10. Qed.

Lemma digit_inj (d e : Z) : 0 ≤ d < 10 → 0 ≤ e < 10 → digit d = digit e → d = e.
Proof. intros Hd He H. by rewrite <- (digit_val_digit d), H, digit_val_digit. Qed.

Lemma pad2_length (n : Z) : String.length (pad2 n) = 2%nat.
Proof. reflexivity. Qed.

Lemma pad2_value (n : Z) : 0 ≤ n < 100 → nat_of_digits 0 (chars (pad2 n)) = n.
Proof.
  intros Hn. simpl. rewrite !digit_val_digit; Z.div_mod_to_equations; lia.
Qed.

Lemma pad2_inj (n m : Z) : 0 ≤ n < 100 → 0 ≤ m < 100 → pad2 n = pad2 m → n = m.
Proof. intros Hn Hm H. by rewrite <- (pad2_value n), H, pad2_value. Qed.

Lemma pad2_digits (n : Z) : 0 ≤ n < 100 → forallb is_digit (chars (pad2 n)) = true.
Proof.
  intros Hn. simpl. rewrite !is_digit_digit; [done | |];
    Z.div_mod_to_equations; lia.
Qed.

(** From 10 on, padding adds nothing: [pad2] is [str]. *)
Lemma pad2_str_of_int (n : Z) : 10 ≤ n < 100 → pad2 n = str_of_int n.
Proof. revert n. by_range 10 90. Qed.

(** A year of four digits is rendered on four characters. *)
Lemma str_of_int_length_4 (n : Z) :
  1000 ≤ n < 10000 → String.length (str_of_int n) = 4%nat.
Proof. revert n. by_range 1000 9000. Qed.

(** *** Hexadecimal rendering *)

Lemma unhex_hex_digit (n : Z) : 0 ≤ n < 16 → unhex_digit (hex_digit n) = Some n.
Proof. revert n. by_range 0 16. Qed.

Lemma unhex_HEX_digit (n : Z) : 0 ≤ n < 16 → unhex_digit (HEX_digit n) = Some n.
Proof. revert n. by_range 0 16. Qed.

Lemma byte_nibbles (x : Z) :
  is_byte x → 0 ≤ x / 16 < 16 ∧ 0 ≤ x mod 16 < 16 ∧ 16 * (x / 16) + x mod 16 = x.
Proof. unfold is_byte. intros. Z.div_mod_to_equations. lia. Qed.

Lemma hex_length (b : list Z) : String.length (hex b) = (2 * length b)%nat.
Proof. induction b as [|x b IH]; simpl; [done | rewrite IH; lia]. Qed.

Lemma hex_app (b c : list Z) : hex (b ++ c) = hex b +:+ hex c.
Proof. induction b as [|x b IH]; simpl; [done | by rewrite IH]. Qed.

(** Round trip: the bytes are recovered from their hexadecimal rendering. *)
Lemma unhex_hex (b : list Z) : Forall is_byte b → unhex (hex b) = Some b.
Proof.
  induction 1 as [|x b Hx Hb IH]; [done|]. simpl.
  destruct (byte_nibbles x Hx) as (Hh & Hl & Hv).
  rewrite !unhex_hex_digit, IH by done. simpl. by rewrite Hv.
Qed.

Lemma hex_inj (b c : list Z) : Forall is_byte b → Forall is_byte c → hex b = hex c → b = c.
Proof.
  intros Hb Hc H. assert (Some b = Some c) as [= ->]; [|done].
  by rewrite <- (unhex_hex b), <- (unhex_hex c), H.
Qed.

Lemma hex_digit_lower (n : Z) : 0 ≤ n < 16 → is_hex_lower (hex_digit n) = true.
Proof. revert n. by_range 0 16. Qed.

Lemma hex_chars (b : list Z) :
  Forall is_byte b → forallb is_hex_lower (chars (hex b)) = true.
Proof.
  induction 1 as [|x b Hx Hb IH]; [done|]. simpl.
  destruct (byte_nibbles x Hx) as (Hh & Hl & _).
  by rewrite !hex_digit_lower, IH.
Qed.

#[export] Hint Rewrite hex_length hex_app : awis_simpl.
