(* ===== verification/Calendar.v ===== *)
(** * Calendar: the part of Python's [datetime] the sources use

    [datetime.date] values, their ordinals in the proleptic Gregorian
    calendar (day 1 is 0001-01-01), [timedelta] days, date arithmetic with
    its [OverflowError], comparison, and [strftime] with the formats
    [%Y%m%d] and [%Y%m%dT%H%M%SZ].  The definitions follow CPython's
    [datetime] module ([_ymd2ord], [_ord2ymd], [date.__add__]); they are
    library code, not code of the repository.

    The theorems: [ymd2ord] and [ord2ymd] are inverse of each other on valid
    dates, so that date arithmetic is arithmetic on ordinals; comparison of
    dates is comparison of ordinals; [strftime] is injective on dates of
    four-digit years. *)

From S2P Require Import Prelude Text.

(** ** Definitions *)

(** *** Dates *)

Record date : Type := Date { year : Z; month : Z; day : Z }.

#[export] Instance date_eq_dec : EqDecision date.
Proof. solve_decision. Defined.

Definition MINYEAR : Z := 1.
Definition MAXYEAR : Z := 9999.
(** [date.max.toordinal()] *)
Definition MAXORDINAL : Z := 3652059.

Definition DAYS_IN_MONTH : list Z :=
  [-1; 31; 28; 31; 30; 31; 30; 31; 31; 30; 31; 30; 31].

Definition DAYS_BEFORE_MONTH : list Z :=
  [-1; 0; 31; 59; 90; 120; 151; 181; 212; 243; 273; 304; 334].

Definition is_leap (y : Z) : bool :=
  (y mod 4 =? 0) && (negb (y mod 100 =? 0) || (y mod 400 =? 0)).

Definition days_before_year (y : Z) : Z :=
  let y' := y - 1 in y' * 365 + y' / 4 - y' / 100 + y' / 400.

Definition days_in_month (y m : Z) : Z :=
  if (m =? 2) && is_leap y then 29 else nth (Z.to_nat m) DAYS_IN_MONTH 0.

Definition days_before_month (y m : Z) : Z :=
  nth (Z.to_nat m) DAYS_BEFORE_MONTH 0 + (if (2 <? m) && is_leap y then 1 else 0).

(** [ymd2ord y m d]: the ordinal of a date, 0001-01-01 being day 1. *)
Definition ymd2ord (y m d : Z) : Z :=
  days_before_year y + days_before_month y m + d.

(** [month_day leapyear n]: the month and the day of the month of the day
    number [n] (from 0) of a year: an estimate of the month, corrected when
    it is too large. *)
Definition month_day (leapyear : bool) (n : Z) : Z * Z :=
  let m := Z.shiftr (n + 50) 5 in
  let preceding :=
    nth (Z.to_nat m) DAYS_BEFORE_MONTH 0 + (if (2 <? m) && leapyear then 1 else 0) in
  if n <? preceding then
    let m := m - 1 in
    let preceding :=
      preceding - (nth (Z.to_nat m) DAYS_IN_MONTH 0
                   + (if (m =? 2) && leapyear then 1 else 0)) in
    (m, n - preceding + 1)
  else (m, n - preceding + 1).

(** [ord2ymd n]: the date of ordinal [n], by the cycles of 400, 100, 4 and
    1 years. *)
Definition ord2ymd (n : Z) : date :=
  let n := n - 1 in
  let n400 := n / 146097 in
  let n := n mod 146097 in
  let n100 := n / 36524 in
  let n := n mod 36524 in
  let n4 := n / 1461 in
  let n := n mod 1461 in
  let n1 := n / 365 in
  let n := n mod 365 in
  let y := n400 * 400 + 1 + n100 * 100 + n4 * 4 + n1 in
  if (n1 =? 4) || (n100 =? 4) then Date (y - 1) 12 31
  else
    let leapyear := (n1 =? 3) && (negb (n4 =? 24) || (n100 =? 3)) in
    let md := month_day leapyear n in
    Date y md.1 md.2.

(** [valid_date d]: what the constructor [date(y, m, d)] accepts. *)
Definition valid_date (d : date) : Prop :=
  MINYEAR ≤ year d ≤ MAXYEAR ∧ 1 ≤ month d ≤ 12 ∧
  1 ≤ day d ≤ days_in_month (year d) (month d).

#[export] Instance valid_date_dec (d : date) : Decision (valid_date d).
Proof. unfold valid_date. apply _. Defined.

(** [date(y, m, d)]: the constructor, with its [ValueError]s. *)
Definition mk_date (y m d : Z) : result date :=
  if negb ((MINYEAR <=? y) && (y <=? MAXYEAR)) then
    raise ValueError ("year " +:+ str_of_int y +:+ " is out of range")
  else if negb ((1 <=? m) && (m <=? 12)) then
    raise ValueError "month must be in 1..12"
  else if negb ((1 <=? d) && (d <=? days_in_month y m)) then
    raise ValueError "day is out of range for month"
  else Ok (Date y m d).

Definition toordinal (d : date) : Z := ymd2ord (year d) (month d) (day d).

(** [date.fromordinal(n)] *)
Definition fromordinal (n : Z) : result date :=
  if n <? 1 then raise ValueError "ordinal must be >= 1"
  else if MAXORDINAL <? n then
    raise ValueError ("year " +:+ str_of_int (year (ord2ymd n)) +:+ " is out of range")
  else Ok (ord2ymd n).

(** *** Durations and date arithmetic *)

(** [timedelta(days)]: a duration in days; its magnitude is bounded. *)
Definition timedelta (days : Z) : result Z :=
  if 999999999 <? Z.abs days then
    raise OverflowError
      ("days=" +:+ str_of_int days +:+ "; must have magnitude <= 999999999")
  else Ok days.

(** [d + delta] for a [timedelta] of [delta] days. *)
Definition date_add (d : date) (delta : Z) : result date :=
  let o := toordinal d + delta in
  if (0 <? o) && (o <=? MAXORDINAL) then Ok (ord2ymd o)
  else raise OverflowError "date value out of range".

(** [d - delta] for a [timedelta] of [delta] days. *)
Definition date_sub (d : date) (delta : Z) : result date := date_add d (- delta).

(** [a >= b] for dates: the comparison of the tuples (year, month, day). *)
Definition date_ge (a b : date) : bool :=
  if year a =? year b then
    if month a =? month b then day b <=? day a else month b <? month a
  else year b <? year a.

(** *** Rendering *)

(** [d.strftime('%Y%m%d')].  The C library renders [%Y] without padding,
    so a year below 1000 gives fewer than four digits. *)
Definition strftime_Ymd (d : date) : string :=
  str_of_int (year d) +:+ pad2 (month d) +:+ pad2 (day d).

(** A [datetime]: a date and a time of day, to the second (the formats used
    render no finer field). *)
Record datetime : Type :=
  DateTime { dt_date : date; hour : Z; minute : Z; second : Z }.

(** [t.strftime('%Y%m%dT%H%M%SZ')] *)
Definition strftime_amz (t : datetime) : string :=
  strftime_Ymd (dt_date t) +:+ "T" +:+ pad2 (hour t) +:+ pad2 (minute t)
  +:+ pad2 (second t) +:+ "Z".

(** [datetime.utcfromtimestamp(s)] for a whole number of seconds since the
    epoch (1970-01-01, ordinal 719163). *)
Definition EPOCH_ORDINAL : Z := 719163.

Definition utcfromtimestamp (s : Z) : result datetime :=
  let days := s / 86400 in
  let secs := s mod 86400 in
  d ← fromordinal (EPOCH_ORDINAL + days);
  Ok (DateTime d (secs / 3600) (secs mod 3600 / 60) (secs mod 60)).

(** [directive c t]: what [strftime] writes for the conversion [%c].  The
    conversions the sources use are [%Y], [%m], [%d], [%H], [%M] and [%S];
    [%%] is a percent sign, and any other conversion is left as it stands. *)
Definition directive (c : ascii) (t : datetime) : string :=
  if Ascii.eqb c "Y" then str_of_int (year (dt_date t))
  else if Ascii.eqb c "m" then pad2 (month (dt_date t))
  else if Ascii.eqb c "d" then pad2 (day (dt_date t))
  else if Ascii.eqb c "H" then pad2 (hour t)
  else if Ascii.eqb c "M" then pad2 (minute t)
  else if Ascii.eqb c "S" then pad2 (second t)
  else if Ascii.eqb c "%" then "%"
  else String "%" (String c EmptyString).

Fixpoint strftime_chars (fmt : list ascii) (t : datetime) : string :=
  match fmt with
  | [] => EmptyString
  | c :: fmt' =>
      match fmt' with
      | c' :: fmt'' =>
          if Ascii.eqb c "%" then directive c' t +:+ strftime_chars fmt'' t
          else String c (strftime_chars fmt' t)
      | [] => String c EmptyString
      end
  end.

(** [t.strftime(fmt)] for a [datetime] *)
Definition strftime (fmt : string) (t : datetime) : string :=
  strftime_chars (chars fmt) t.

(** [d.strftime(fmt)] for a [date]: the time of day is midnight. *)
Definition date_strftime (fmt : string) (d : date) : string :=
  strftime fmt (DateTime d 0 0 0).

(** *** Parsing *)

(** [in_range lo hi c]: [c] is a digit with a value from [lo] to [hi]. *)
Definition in_range (lo hi : Z) (c : ascii) : bool :=
  is_digit c && (lo <=? digit_val c) && (digit_val c <=? hi).

(** [re_Y l]: the ways [l] starts with the pattern of [%Y], four digits,
    each with the year read and the rest of [l]. *)
Definition re_Y (l : list ascii) : list (Z * list ascii) :=
  match l with
  | a :: b :: c :: d :: r =>
      if forallb is_digit [a; b; c; d] then [(nat_of_digits 0 [a; b; c; d], r)] else []
  | _ => []
  end.

(** [re_m l]: the ways [l] starts with the pattern of [%m], the
    alternatives [1[0-2]], [0[1-9]] and [[1-9]] in this order. *)
Definition re_m (l : list ascii) : list (Z * list ascii) :=
  match l with
  | a :: b :: r =>
      (if in_range 1 1 a && in_range 0 2 b then [(10 + digit_val b, r)] else [])
      ++ (if in_range 0 0 a && in_range 1 9 b then [(digit_val b, r)] else [])
  | _ => []
  end
  ++ match l with
     | a :: r => if in_range 1 9 a then [(digit_val a, r)] else []
     | _ => []
     end.

(** [re_d l]: the ways [l] starts with the pattern of [%d], the
    alternatives [3[01]], [[12]\d], [0[1-9]], [[1-9]] and a space before
    [[1-9]], in this order. *)
Definition re_d (l : list ascii) : list (Z * list ascii) :=
  match l with
  | a :: b :: r =>
      (if in_range 3 3 a && in_range 0 1 b then [(30 + digit_val b, r)] else [])
      ++ (if in_range 1 2 a && is_digit b then [(10 * digit_val a + digit_val b, r)] else [])
      ++ (if in_range 0 0 a && in_range 1 9 b then [(digit_val b, r)] else [])
  | _ => []
  end
  ++ match l with
     | a :: r => if in_range 1 9 a then [(digit_val a, r)] else []
     | _ => []
     end
  ++ match l with
     | a :: b :: r =>
         if Ascii.eqb a " " && in_range 1 9 b then [(digit_val b, r)] else []
     | _ => []
     end.

(** [re_Ymd l]: the matches of the pattern of the format [%Y%m%d] at the
    start of [l], in the order a backtracking matcher finds them. *)
Definition re_Ymd (l : list ascii) : list (Z * Z * Z * list ascii) :=
  '(y, r1) ← re_Y l; '(m, r2) ← re_m r1; '(d, r3) ← re_d r2; [(y, m, d, r3)].

(** [datetime.datetime.strptime(s, '%Y%m%d').date()]: the first match of
    the pattern must use up the string, and the fields must make a date. *)
Definition strptime_Ymd (s : string) : result date :=
  match re_Ymd (chars s) with
  | [] => raise ValueError ("time data '" +:+ s +:+ "' does not match format '%Y%m%d'")
  | (y, m, d, r) :: _ =>
      match r with
      | [] => mk_date y m d
      | _ => raise ValueError ("unconverted data remains: " +:+ text r)
      end
  end.

(** *** The days of a year *)

Definition year_length (leap : bool) : Z := if leap then 366 else 365.

(** Tables indexed by the leap flag, for the enumerations below. *)
Definition dim (leap : bool) (m : Z) : Z :=
  if (m =? 2) && leap then 29 else nth (Z.to_nat m) DAYS_IN_MONTH 0.
Definition dbm (leap : bool) (m : Z) : Z :=
  nth (Z.to_nat m) DAYS_BEFORE_MONTH 0 + (if (2 <? m) && leap then 1 else 0).

Definition month_day_ok (leap : bool) (n : Z) : Prop :=
  let md := month_day leap n in
  1 ≤ md.1 ≤ 12 ∧ 1 ≤ md.2 ≤ dim leap md.1 ∧ dbm leap md.1 + md.2 = n + 1.

#[local] Instance month_day_ok_dec leap n : Decision (month_day_ok leap n).
Proof. unfold month_day_ok. apply _. Defined.

(** The months of a year follow each other without gap. *)
Definition months_ordered (leap : bool) (m1 : Z) : Prop :=
  Forall (λ m2, m1 < m2 → dbm leap m1 + dim leap m1 ≤ dbm leap m2) (seqZ 1 12).

(** *** Order *)

(** [date_lt a b]: the strict order of the tuples (year, month, day). *)
Definition date_lt (a b : date) : Prop :=
  year a < year b ∨ (year a = year b ∧
    (month a < month b ∨ (month a = month b ∧ day a < day b))).

(** ** Theorems *)

(** *** The days of a year *)

Lemma days_in_month_dim (y m : Z) : days_in_month y m = dim (is_leap y) m.
Proof. reflexivity. Qed.
Lemma days_before_month_dbm (y m : Z) : days_before_month y m = dbm (is_leap y) m.
Proof. reflexivity. Qed.

Lemma month_day_spec (leap : bool) (n : Z) :
  0 ≤ n < year_length leap → month_day_ok leap n.
Proof. unfold year_length. destruct leap; revert n; [by_range 0 366 | by_range 0 365]. Qed.

Lemma months_ordered_spec (leap : bool) (m1 m2 : Z) :
  1 ≤ m1 ≤ 12 → 1 ≤ m2 ≤ 12 → m1 < m2 → dbm leap m1 + dim leap m1 ≤ dbm leap m2.
Proof.
  intros H1 H2. assert (months_ordered leap m1) as H.
  { revert m1 H1. destruct leap; by_range 1 12. }
  apply (proj1 (Forall_seqZ _ _ _) H). lia.
Qed.

Lemma month_end_bound (leap : bool) (m : Z) :
  1 ≤ m ≤ 12 →
  0 ≤ dbm leap m ∧ 28 ≤ dim leap m ≤ 31 ∧ dbm leap m + dim leap m ≤ year_length leap.
Proof. unfold year_length. revert m. destruct leap; by_range 1 12. Qed.

Lemma days_before_year_succ (y : Z) :
  days_before_year (y + 1) = days_before_year y + year_length (is_leap y).
Proof.
  unfold days_before_year, is_leap, year_length.
  repeat match goal with |- context [?x =? ?y] => destruct (Z.eqb_spec x y) end; simpl;
    Z.div_mod_to_equations; lia.
Qed.

Lemma days_before_year_mono (y1 y2 : Z) :
  y1 ≤ y2 → days_before_year y1 ≤ days_before_year y2.
Proof. intros H. unfold days_before_year. Z.div_mod_to_equations. lia. Qed.

(** *** The cycles of 400, 100, 4 and 1 years *)

Lemma days_before_year_cycles (a b c e : Z) :
  0 ≤ b ≤ 3 → 0 ≤ c ≤ 24 → 0 ≤ e ≤ 3 →
  days_before_year (a * 400 + 1 + b * 100 + c * 4 + e)
  = a * 146097 + b * 36524 + c * 1461 + e * 365.
Proof. intros. unfold days_before_year. Z.div_mod_to_equations. lia. Qed.

Ltac case_eqb :=
  repeat match goal with
  | |- context [?x =? ?y] => destruct (Z.eqb_spec x y)
  end.

Lemma is_leap_cycles (a b c e : Z) :
  0 ≤ b ≤ 3 → 0 ≤ c ≤ 24 → 0 ≤ e ≤ 3 →
  is_leap (a * 400 + 1 + b * 100 + c * 4 + e)
  = (e =? 3) && (negb (c =? 24) || (b =? 3)).
Proof.
  intros Hb Hc He. unfold is_leap. case_eqb; simpl; try done;
    exfalso; Z.div_mod_to_equations; lia.
Qed.

Lemma cycles_bounds (n : Z) :
  let r1 := n mod 146097 in let b := r1 / 36524 in let r2 := r1 mod 36524 in
  let c := r2 / 1461 in let r3 := r2 mod 1461 in let e := r3 / 365 in
  let r := r3 mod 365 in
  0 ≤ b ≤ 4 ∧ 0 ≤ c ≤ 24 ∧ 0 ≤ e ≤ 4 ∧ 0 ≤ r < 365 ∧
  n = n / 146097 * 146097 + b * 36524 + c * 1461 + e * 365 + r ∧
  (b = 4 → c = 0 ∧ e = 0 ∧ r = 0) ∧ (e = 4 → r = 0 ∧ c ≤ 23).
Proof. intros. subst r1 b r2 c r3 e r. Z.div_mod_to_equations. lia. Qed.

(** The last day of a leap year, which the cycles count as day 0 of a
    fifth year (or of a fifth century). *)
Lemma year_end_ordinal (a b c e : Z) :
  (b = 4 ∧ c = 0 ∧ e = 0) ∨ (0 ≤ b ≤ 3 ∧ 0 ≤ c ≤ 23 ∧ e = 4) →
  ymd2ord (a * 400 + 1 + b * 100 + c * 4 + e - 1) 12 31
  = a * 146097 + b * 36524 + c * 1461 + e * 365 + 1.
Proof.
  intros H. unfold ymd2ord, days_before_month, days_before_year.
  assert (is_leap (a * 400 + 1 + b * 100 + c * 4 + e - 1) = true) as ->.
  { unfold is_leap. case_eqb; simpl; try done; exfalso; Z.div_mod_to_equations; lia. }
  simpl. Z.div_mod_to_equations. lia.
Qed.

Ltac ord2ymd_cycles n :=
  unfold ord2ymd;
  let H := fresh "H" in
  pose proof (cycles_bounds (n - 1)) as H; cbv zeta in H |- *;
  set (a := (n - 1) / 146097) in *;
  set (b := (n - 1) mod 146097 / 36524) in *;
  set (c := (n - 1) mod 146097 mod 36524 / 1461) in *;
  set (e := (n - 1) mod 146097 mod 36524 mod 1461 / 365) in *;
  set (r := (n - 1) mod 146097 mod 36524 mod 1461 mod 365) in *;
  destruct H as (Hb & Hc & He & Hr & Hn & Hb4 & He4);
  destruct (Z.eqb_spec e 4) as [He'|He'], (Z.eqb_spec b 4) as [Hb'|Hb'];
  cbn [orb].

(** [toordinal] is a left inverse of [ord2ymd]. *)
Theorem toordinal_ord2ymd (n : Z) : toordinal (ord2ymd n) = n.
Proof.
  ord2ymd_cycles n; unfold toordinal; cbn [year month day];
    try (rewrite year_end_ordinal; lia).
  rewrite <- (is_leap_cycles a b c e) by lia.
  set (y := a * 400 + 1 + b * 100 + c * 4 + e).
  destruct (month_day_spec (is_leap y) r) as (_ & _ & Hmd);
    [unfold year_length; destruct (is_leap y); lia|].
  unfold ymd2ord. rewrite days_before_month_dbm. subst y.
  rewrite days_before_year_cycles by lia. lia.
Qed.

(** The dates of the ordinals from 1 to [MAXORDINAL] are valid. *)
Theorem ord2ymd_valid (n : Z) : 1 ≤ n ≤ MAXORDINAL → valid_date (ord2ymd n).
Proof.
  unfold MAXORDINAL. intros Hrange. unfold valid_date, MINYEAR, MAXYEAR.
  ord2ymd_cycles n; cbn [year month day].
  1-3: split; [lia|]; split; [lia|]; rewrite days_in_month_dim;
    split; [done|]; unfold dim; simpl; lia.
  rewrite days_in_month_dim, <- (is_leap_cycles a b c e) by lia.
  set (y := a * 400 + 1 + b * 100 + c * 4 + e).
  destruct (month_day_spec (is_leap y) r) as (Hm & Hd & _);
    [unfold year_length; destruct (is_leap y); lia|].
  split; [subst y; lia | done].
Qed.

(** *** Order *)

(** The ordinal of a valid date lies in the days of its year. *)
Lemma toordinal_year_bounds (d : date) :
  valid_date d →
  days_before_year (year d) < toordinal d ≤ days_before_year (year d + 1).
Proof.
  intros (_ & Hm & Hd). unfold toordinal, ymd2ord.
  rewrite days_before_year_succ, days_before_month_dbm.
  rewrite days_in_month_dim in Hd.
  pose proof (month_end_bound (is_leap (year d)) (month d) Hm). lia.
Qed.

Lemma toordinal_range (d : date) : valid_date d → 1 ≤ toordinal d ≤ MAXORDINAL.
Proof.
  intros Hv. pose proof (toordinal_year_bounds d Hv) as H.
  destruct Hv as ((Hy1 & Hy2) & _). unfold MINYEAR, MAXYEAR in *.
  pose proof (days_before_year_mono 1 (year d) Hy1).
  pose proof (days_before_year_mono (year d + 1) 10000 ltac:(lia)).
  change (days_before_year 1) with 0 in *.
  change (days_before_year 10000) with MAXORDINAL in *. lia.
Qed.

Lemma toordinal_lt (a b : date) :
  valid_date a → valid_date b → date_lt a b → toordinal a < toordinal b.
Proof.
  intros Ha Hb [Hy | [Hy [Hm | [Hm Hd]]]].
  - pose proof (toordinal_year_bounds a Ha). pose proof (toordinal_year_bounds b Hb).
    pose proof (days_before_year_mono (year a + 1) (year b) ltac:(lia)). lia.
  - destruct Ha as (_ & Hma & Hda), Hb as (_ & Hmb & Hdb).
    unfold toordinal, ymd2ord. rewrite !days_before_month_dbm.
    rewrite days_in_month_dim in Hda. rewrite Hy in *.
    pose proof (months_ordered_spec (is_leap (year b)) _ _ Hma Hmb Hm). lia.
  - unfold toordinal, ymd2ord. rewrite Hy, Hm. lia.
Qed.

Lemma date_lt_trichotomy (a b : date) : date_lt a b ∨ a = b ∨ date_lt b a.
Proof.
  destruct a as [y1 m1 d1], b as [y2 m2 d2]. unfold date_lt. simpl.
  destruct (Z.lt_trichotomy y1 y2) as [?|[->|?]]; [lia| |lia].
  destruct (Z.lt_trichotomy m1 m2) as [?|[->|?]]; [lia| |lia].
  destruct (Z.lt_trichotomy d1 d2) as [?|[->|?]]; [lia| |lia]. auto.
Qed.

Lemma toordinal_inj (a b : date) :
  valid_date a → valid_date b → toordinal a = toordinal b → a = b.
Proof.
  intros Ha Hb H. destruct (date_lt_trichotomy a b) as [Hlt|[->|Hlt]]; [|done|];
    apply toordinal_lt in Hlt; auto; lia.
Qed.

(** [ord2ymd] is a left inverse of [toordinal] on valid dates. *)
Theorem ord2ymd_toordinal (d : date) : valid_date d → ord2ymd (toordinal d) = d.
Proof.
  intros Hd. apply toordinal_inj; [|done|apply toordinal_ord2ymd].
  by apply ord2ymd_valid, toordinal_range.
Qed.

(** The comparison of valid dates is the comparison of their ordinals. *)
Theorem date_ge_toordinal (a b : date) :
  valid_date a → valid_date b → date_ge a b = (toordinal b <=? toordinal a).
Proof.
  intros Ha Hb. destruct (date_lt_trichotomy a b) as [Hlt|[->|Hlt]].
  - pose proof (toordinal_lt a b Ha Hb Hlt). unfold date_ge, date_lt in *.
    case_eqb; lia.
  - unfold date_ge. rewrite !Z.eqb_refl. lia.
  - pose proof (toordinal_lt b a Hb Ha Hlt). unfold date_ge, date_lt in *.
    case_eqb; lia.
Qed.

(** *** Arithmetic on dates is arithmetic on ordinals *)

Lemma date_add_ok (d : date) (k : Z) :
  valid_date d → 1 ≤ toordinal d + k ≤ MAXORDINAL →
  ∃ d', date_add d k = Ok d' ∧ valid_date d' ∧ toordinal d' = toordinal d + k.
Proof.
  intros Hd Hk. exists (ord2ymd (toordinal d + k)). unfold date_add.
  rewrite (proj2 (andb_true_iff _ _)) by lia.
  split; [done|]. split; [by apply ord2ymd_valid | apply toordinal_ord2ymd].
Qed.

Lemma date_add_inv (d d' : date) (k : Z) :
  date_add d k = Ok d' →
  1 ≤ toordinal d + k ≤ MAXORDINAL ∧ valid_date d' ∧ toordinal d' = toordinal d + k.
Proof.
  unfold date_add. case_test; intros H; [|done].
  apply andb_true_iff in E as [? ?]. injection H as <-.
  split; [lia|]. split; [apply ord2ymd_valid; lia | apply toordinal_ord2ymd].
Qed.

Lemma date_add_overflow (d : date) (k : Z) :
  ¬ (1 ≤ toordinal d + k ≤ MAXORDINAL) →
  date_add d k = raise OverflowError "date value out of range".
Proof.
  intros Hk. unfold date_add. rewrite (proj2 (andb_false_iff _ _)); [done|]. lia.
Qed.

(** A [timedelta] of at most 999999999 days is accepted. *)
Lemma timedelta_small (k : Z) : Z.abs k ≤ 999999999 → timedelta k = Ok k.
Proof. intros Hk. unfold timedelta. by rewrite (proj2 (Z.ltb_ge _ _)). Qed.

Lemma date_add_0 (d : date) : valid_date d → date_add d 0 = Ok d.
Proof.
  intros Hd. destruct (date_add_ok d 0 Hd) as (d' & -> & Hd' & Ho).
  - pose proof (toordinal_range d Hd). lia.
  - f_equal. apply toordinal_inj; [done..|lia].
Qed.

(** What the constructor and the parser return is a date; subtraction. *)
Lemma mk_date_valid y m d dt : mk_date y m d = Ok dt → valid_date dt.
Proof.
  unfold mk_date. repeat case_test; intros Hd; simplify_eq.
  repeat match goal with
  | E : negb _ = false |- _ => apply negb_false_iff, andb_true_iff in E as [? ?] end.
  unfold valid_date. simpl. lia.
Qed.

Lemma strptime_Ymd_valid s d : strptime_Ymd s = Ok d → valid_date d.
Proof.
  unfold strptime_Ymd. destruct (re_Ymd _) as [|[[[y m] d'] [|]] ?]; try done.
  apply mk_date_valid.
Qed.

Lemma date_sub_inv (d d' : date) (k : Z) :
  date_sub d k = Ok d' →
  1 ≤ toordinal d - k ≤ MAXORDINAL ∧ valid_date d' ∧ toordinal d' = toordinal d - k.
Proof. intros H%date_add_inv. by replace (toordinal d - k) with (toordinal d + - k) by lia. Qed.

Lemma timedelta_inv k k' : timedelta k = Ok k' → k' = k.
Proof. unfold timedelta. case_test; by intros [=]. Qed.

Lemma date_sub_ok (d : date) (k : Z) :
  valid_date d → 1 ≤ toordinal d - k ≤ MAXORDINAL →
  date_sub d k = Ok (ord2ymd (toordinal d - k)).
Proof.
  intros Hd Hk. unfold date_sub, date_add.
  replace (toordinal d + - k) with (toordinal d - k) by lia.
  by rewrite (proj2 (andb_true_iff _ _)) by lia.
Qed.

Lemma date_add_ord (d : date) (k : Z) :
  valid_date d → 1 ≤ toordinal d + k ≤ MAXORDINAL →
  date_add d k = Ok (ord2ymd (toordinal d + k)).
Proof.
  intros Hd Hk. unfold date_add.
  by rewrite (proj2 (andb_true_iff _ _)) by lia.
Qed.

(** The checks after the first day is known: the shift of a reverse search
    and the comparison with today. *)
(** ** Rendering is injective *)

Lemma strftime_Ymd_length (d : date) :
  String.length (strftime_Ymd d) = (String.length (str_of_int (year d)) + 4)%nat.
Proof. unfold strftime_Ymd. by rewrite !string_length_app, !pad2_length. Qed.

Theorem strftime_Ymd_inj (a b : date) :
  valid_date a → valid_date b → strftime_Ymd a = strftime_Ymd b → a = b.
Proof.
  intros (_ & Hma & Hda) (_ & Hmb & Hdb) H.
  pose proof (f_equal String.length H) as Hl. rewrite !strftime_Ymd_length in Hl.
  unfold strftime_Ymd in H.
  apply string_app_inj_length in H as [Hy H]; [|lia].
  apply string_app_inj_length in H as [Hm Hd]; [|done].
  pose proof (month_end_bound (is_leap (year a)) (month a) Hma).
  pose proof (month_end_bound (is_leap (year b)) (month b) Hmb).
  rewrite days_in_month_dim in Hda, Hdb.
  apply str_of_int_inj in Hy. apply pad2_inj in Hm; [|lia..].
  apply pad2_inj in Hd; [|lia..].
  destruct a, b; simpl in *; congruence.
Qed.

(** A date of a year from 1000 on is rendered on eight digits. *)
Lemma strftime_Ymd_length_8 (d : date) :
  1000 ≤ year d ≤ MAXYEAR → String.length (strftime_Ymd d) = 8%nat.
Proof.
  unfold MAXYEAR. intros Hy.
  rewrite strftime_Ymd_length, str_of_int_length_4; [done | lia].
Qed.

(** The two formats of the sources. *)
Lemma strftime_Ymd_format (t : datetime) :
  strftime "%Y%m%d" t = strftime_Ymd (dt_date t).
Proof. unfold strftime, strftime_Ymd. simpl. by rewrite string_app_nil_r. Qed.

Lemma date_strftime_Ymd (d : date) : date_strftime "%Y%m%d" d = strftime_Ymd d.
Proof. apply strftime_Ymd_format. Qed.

Lemma strftime_amz_format (t : datetime) :
  strftime "%Y%m%dT%H%M%SZ" t = strftime_amz t.
Proof.
  unfold strftime, strftime_amz, strftime_Ymd. simpl.
  by rewrite !string_app_assoc.
Qed.

(** The time stamp of a request starts with the date stamp of its day. *)
Lemma strftime_amz_prefix (t : datetime) :
  ∃ rest, strftime_amz t = strftime_Ymd (dt_date t) +:+ rest ∧ String.length rest = 8%nat.
Proof. eexists. split; [reflexivity | done]. Qed.

#[export] Hint Resolve ord2ymd_valid toordinal_range : awis.
#[export] Hint Rewrite strftime_Ymd_format date_strftime_Ymd strftime_amz_format : awis_simpl.
#[export] Hint Rewrite toordinal_ord2ymd : awis_simpl.
