(* ===== verification/Quote.v ===== *)
(** * Quote: percent-encoding, as [urllib.parse.quote] does it

    [quote(s)] with the default [safe='/']: the UTF-8 bytes of [s], each
    kept when it is a letter, a digit or one of [_.-~/], and written
    [%XX] (upper-case hexadecimal) otherwise.  The library's fast path for a
    string of safe characters returns the same string as the general path,
    so one definition models both.  [unquote] is the inverse reading.

    The theorems: the output holds only URL-safe characters; [unquote] undoes
    [quote], so [quote] is injective; [quote] is the identity exactly on the
    strings of safe characters; its length bounds. *)

From Stdlib Require Import DecimalString.
From S2P Require Import Prelude Text.

(** ** Definitions *)

(** [always_safe b]: the byte is in [_ALWAYS_SAFE], the letters, the digits
    and [_.-~]. *)
Definition always_safe (b : Z) : bool :=
  ((65 <=? b) && (b <=? 90)) || ((97 <=? b) && (b <=? 122))
  || ((48 <=? b) && (b <=? 57))
  || (b =? 95) || (b =? 46) || (b =? 45) || (b =? 126).

(** [is_safe b]: the byte is kept by [quote] with [safe='/']. *)
Definition is_safe (b : Z) : bool := always_safe b || (b =? 47).

(** [quoter b]: the characters that stand for the byte [b]. *)
Definition quoter (b : Z) : list ascii :=
  if is_safe b then [char_of_byte b]
  else ["%"%char; HEX_digit (b / 16); HEX_digit (b mod 16)].

(** [quote s] is [urllib.parse.quote(s)]. *)
Definition quote (s : string) : string :=
  text (mbind quoter (encode s)).

(** [unquote_chars l]: the characters [l] with every [%XX] of two
    hexadecimal digits replaced by the byte it writes; a [%] that is not
    followed by two hexadecimal digits stands for itself. *)
Fixpoint unquote_chars (l : list ascii) : list ascii :=
  match l with
  | [] => []
  | c :: l' =>
      match l' with
      | h :: d :: l'' =>
          match (if Ascii.eqb c "%" then
                   x ← unhex_digit h; y ← unhex_digit d; Some (16 * x + y)
                 else None) with
          | Some b => char_of_byte b :: unquote_chars l''
          | None => c :: unquote_chars l'
          end
      | _ => c :: unquote_chars l'
      end
  end.

(** [unquote s] is [urllib.parse.unquote(s)] on the bytes of [s]. *)
Definition unquote (s : string) : string := text (unquote_chars (chars s)).

(** [is_url_char c]: a safe character, a percent sign or an upper-case
    hexadecimal digit. *)
Definition is_url_char (c : ascii) : bool :=
  is_safe (byte_of_char c) || Ascii.eqb c "%".

(** *** The reference: the canonical query string of Signature Version 4

    The service recomputes the signature from the request it receives.  Its
    canonical query string lists the parameters sorted by name (by character
    code), each name and each value URI-encoded, as [name=value] joined by
    [&].  The URI encoding keeps the unreserved characters only (letters,
    digits, [-], [_], [.] and [~]): the slash of a value is written [%2F]. *)

(** [uri_encode_byte b]: the characters that stand for the byte [b]. *)
Definition uri_encode_byte (b : Z) : list ascii :=
  if always_safe b then [char_of_byte b]
  else ["%"%char; HEX_digit (b / 16); HEX_digit (b mod 16)].

(** [uri_encode s] is the URI encoding of a parameter name or value. *)
Definition uri_encode (s : string) : string :=
  text (mbind uri_encode_byte (encode s)).

(** [insert_param p l] puts the parameter [p] at its place in the sorted
    list [l]. *)
Fixpoint insert_param (p : string * string) (l : list (string * string)) :
    list (string * string) :=
  match l with
  | [] => [p]
  | q :: l' => if String.leb p.1 q.1 then p :: l else q :: insert_param p l'
  end.

(** [sort_params l]: the parameters in the order of their names. *)
Definition sort_params (l : list (string * string)) : list (string * string) :=
  foldr insert_param [] l.

(** [sigv4_query params] is the canonical query string of the parameters. *)
Definition sigv4_query (params : list (string * string)) : string :=
  join "&" ((λ p, uri_encode p.1 +:+ "=" +:+ uri_encode p.2) <$> sort_params params).

(** ** Theorems *)

Lemma is_safe_byte (b : Z) : is_safe b = true → is_byte b ∧ b ≠ 37.
Proof. unfold is_safe, always_safe, is_byte. lia. Qed.

Lemma is_safe_char_of_byte (b : Z) :
  is_safe b = true → is_safe (byte_of_char (char_of_byte b)) = true.
Proof. intros H. by rewrite byte_of_char_of_byte by by apply is_safe_byte. Qed.

Lemma HEX_digit_url_char (n : Z) : 0 ≤ n < 16 → is_url_char (HEX_digit n) = true.
Proof. revert n. by_range 0 16. Qed.

Lemma quoter_url_chars (b : Z) : is_byte b → forallb is_url_char (quoter b) = true.
Proof.
  intros Hb. unfold quoter. destruct (is_safe b) eqn:E; simpl.
  - unfold is_url_char. by rewrite is_safe_char_of_byte.
  - destruct (byte_nibbles b Hb) as (? & ? & _). by rewrite !HEX_digit_url_char.
Qed.

Lemma quoter_length (b : Z) : (1 ≤ length (quoter b) ≤ 3)%nat.
Proof. unfold quoter. destruct (is_safe b); simpl; lia. Qed.

Lemma unquote_chars_cons_ne (c : ascii) (l : list ascii) :
  c ≠ "%"%char → unquote_chars (c :: l) = c :: unquote_chars l.
Proof.
  intros Hc%Ascii.eqb_neq. destruct l as [|h [|d l]]; simpl; by rewrite ?Hc.
Qed.

Lemma safe_char_not_percent (b : Z) : is_safe b = true → char_of_byte b ≠ "%"%char.
Proof.
  intros H Hc. destruct (is_safe_byte b H) as [Hb Hne]. apply Hne.
  by rewrite <- (byte_of_char_of_byte b), Hc.
Qed.

Lemma unquote_chars_quoter (b : Z) (l : list ascii) :
  is_byte b → unquote_chars (quoter b ++ l) = char_of_byte b :: unquote_chars l.
Proof.
  intros Hb. unfold quoter. destruct (is_safe b) eqn:E.
  - by apply unquote_chars_cons_ne, safe_char_not_percent.
  - destruct (byte_nibbles b Hb) as (Hh & Hl & Hv). cbn [app unquote_chars].
    rewrite Ascii.eqb_refl, !unhex_HEX_digit by done. simpl. by rewrite Hv.
Qed.

Lemma unquote_chars_quote (bs : list Z) :
  Forall is_byte bs → unquote_chars (mbind quoter bs) = char_of_byte <$> bs.
Proof.
  induction 1 as [|b bs Hb _ IH]; [done|].
  rewrite bind_cons, unquote_chars_quoter, IH by done. done.
Qed.

(** Round trip: [unquote] undoes [quote]. *)
Theorem unquote_quote (s : string) : unquote (quote s) = s.
Proof.
  unfold unquote, quote. rewrite list_ascii_of_string_of_list_ascii.
  rewrite unquote_chars_quote by apply encode_bytes. apply decode_encode.
Qed.

Corollary quote_inj (s t : string) : quote s = quote t → s = t.
Proof. intros H. by rewrite <- (unquote_quote s), H, unquote_quote. Qed.

(** The output of [quote] holds URL characters only. *)
Theorem quote_url_chars (s : string) : forallb is_url_char (chars (quote s)) = true.
Proof.
  unfold quote. rewrite list_ascii_of_string_of_list_ascii.
  pose proof (encode_bytes s) as Hb. induction Hb as [|b bs Hb _ IH]; [done|].
  rewrite bind_cons, forallb_app, quoter_url_chars, IH; done.
Qed.

Lemma quote_app (s t : string) : quote (s +:+ t) = quote s +:+ quote t.
Proof. unfold quote. by rewrite encode_app, bind_app, text_app. Qed.

(** A string of safe characters is its own quotation (the fast path of the
    library). *)
Lemma quote_safe (s : string) :
  forallb is_safe (encode s) = true → quote s = s.
Proof.
  intros H. unfold quote. rewrite <- (decode_encode s) at 2. unfold decode. f_equal.
  induction (encode s) as [|b bs IH]; [done|]. simpl in H.
  apply andb_true_iff in H as [Hb Hbs]. rewrite bind_cons, fmap_cons, <- IH by done.
  unfold quoter. by rewrite Hb.
Qed.

Lemma quote_length (s : string) :
  (String.length s ≤ String.length (quote s) ≤ 3 * String.length s)%nat.
Proof.
  unfold quote. rewrite <- (encode_length s), string_length_chars,
    list_ascii_of_string_of_list_ascii.
  induction (encode s) as [|b bs IH]; [simpl; lia|].
  rewrite bind_cons, length_app. pose proof (quoter_length b). simpl. lia.
Qed.

Lemma quote_empty : quote "" = "".
Proof. reflexivity. Qed.

(** *** Against the URI encoding of Signature Version 4 *)

Lemma uri_encode_safe (s : string) :
  forallb always_safe (encode s) = true → uri_encode s = s.
Proof.
  intros H. unfold uri_encode. rewrite <- (decode_encode s) at 2. unfold decode. f_equal.
  induction (encode s) as [|b bs IH]; [done|]. simpl in H.
  apply andb_true_iff in H as [Hb Hbs]. rewrite bind_cons, fmap_cons, <- IH by done.
  unfold uri_encode_byte. by rewrite Hb.
Qed.

(** Decimal numbers and the fields of a date hold unreserved characters
    only. *)
Lemma string_of_uint_unreserved (d : Decimal.uint) :
  forallb always_safe (encode (DecimalString.NilZero.string_of_uint d)) = true.
Proof. destruct d; try done; simpl; induction d; done. Qed.

Lemma str_of_int_unreserved (n : Z) : forallb always_safe (encode (str_of_int n)) = true.
Proof.
  unfold str_of_int. destruct (Z.to_int n) as [d|d]; [apply string_of_uint_unreserved|].
  apply (string_of_uint_unreserved d).
Qed.

Lemma pad2_unreserved (n : Z) : 0 ≤ n < 100 → forallb always_safe (encode (pad2 n)) = true.
Proof. revert n. by_range 0 100. Qed.

(** The two encoders part on the slash, and on nothing else. *)
Lemma quoter_uri_encode_byte (b : Z) : b ≠ 47 → quoter b = uri_encode_byte b.
Proof.
  intros Hb. unfold quoter, uri_encode_byte, is_safe.
  apply Z.eqb_neq in Hb. by rewrite Hb, orb_false_r.
Qed.

Lemma quote_bytes_uri_encode (bs : list Z) :
  mbind quoter bs = mbind uri_encode_byte bs ↔ 47 ∉ bs.
Proof.
  induction bs as [|b bs IH]; [split; [intros _; apply not_elem_of_nil | done]|].
  rewrite !bind_cons, not_elem_of_cons. destruct (decide (b = 47)) as [->|Hb].
  - split; [done | by intros []].
  - rewrite quoter_uri_encode_byte by done. rewrite <- IH.
    split; [intros ?%app_inv_head; by split | by intros [_ ->]].
Qed.

(** [quote] writes a parameter value as the service does exactly when the
    value holds no slash. *)
Theorem quote_uri_encode (s : string) : quote s = uri_encode s ↔ 47 ∉ encode s.
Proof.
  rewrite <- quote_bytes_uri_encode. unfold quote, uri_encode. split; [|by intros ->].
  intros H. by rewrite <- (list_ascii_of_string_of_list_ascii (mbind quoter _)), H,
    list_ascii_of_string_of_list_ascii.
Qed.

#[export] Hint Rewrite quote_app unquote_quote : awis_simpl.
