(* ===== verification/World.v ===== *)
(** * World: the clock and the network, and the monad of the code that uses
    them

    The sources read the system clock ([datetime.datetime.utcnow()],
    [datetime.date.today()]) and send HTTP GET requests ([requests.get]).
    The world holds what these calls observe and change: the time of the next
    clock reading and how far the clock moves after each reading, the offset
    of local time, the requests sent so far, and the network, a function from
    the requests sent before and the request sent to its outcome.

    [io A] is the type of a computation that may read and change the world
    and returns an [A] or raises; a raised exception keeps the changes made
    before it. *)

From stdpp Require Import gmap.
From S2P Require Import Prelude Text Calendar.

(** ** Definitions *)

(** An HTTP GET request as [requests.get(url, headers=...)] receives it. *)
Record http_request : Type :=
  HttpRequest { req_url : string; req_headers : gmap string string }.

(** The part of a [requests.Response] the sources read: the status and
    [content], the bytes of the body. *)
Record http_response : Type :=
  HttpResponse { resp_status : Z; resp_content : list Z }.

#[export] Instance http_request_eq_dec : EqDecision http_request.
Proof. solve_decision. Defined.

#[export] Instance http_response_eq_dec : EqDecision http_response.
Proof. solve_decision. Defined.

Record World : Type := {
  (** POSIX time, in seconds, of the next reading of the clock *)
  w_clock : Z;
  (** seconds by which the clock advances after each reading, in order;
      the clock stands still when the list is used up *)
  w_ticks : list Z;
  (** offset of local time from UTC, in seconds *)
  w_utcoff : Z;
  (** the requests sent, latest first *)
  w_sent : list http_request;
  (** the network: the outcome of a request, given the requests sent before *)
  w_net : list http_request → http_request → result http_response;
  (** the scheduler: which of the threads that can make a step makes the
      next one, for each step in order; the first of them when the list is
      used up *)
  w_sched : list nat
}.

(** [clock_ok w]: time does not run backwards. *)
Definition clock_ok (w : World) : Prop := Forall (λ t, 0 ≤ t) (w_ticks w).

Record io (A : Type) : Type := IO { run : World → result A * World }.

Arguments IO {A} _.
Arguments run {A} _ _.

#[export] Instance io_ret : MRet io := λ A a, IO (λ w, (Ok a, w)).

#[export] Instance io_bind : MBind io := λ A B f m,
  IO (λ w, match run m w with
           | (Ok a, w') => run (f a) w'
           | (Raise e, w') => (Raise e, w')
           end).

#[export] Instance io_fmap : FMap io := λ A B f m,
  IO (λ w, match run m w with
           | (Ok a, w') => (Ok (f a), w')
           | (Raise e, w') => (Raise e, w')
           end).

(** [lift r]: a computation that does not touch the world. *)
Definition lift {A : Type} (r : result A) : io A := IO (λ w, (r, w)).

(** [io_raise cls msg]: [raise cls(msg)] *)
Definition io_raise {A : Type} (cls : exn_class) (msg : string) : io A :=
  lift (raise cls msg).

(** [tick w]: the world after one reading of the clock. *)
Definition tick (w : World) : World :=
  {| w_clock := w_clock w + hd 0 (w_ticks w);
     w_ticks := tl (w_ticks w);
     w_utcoff := w_utcoff w;
     w_sent := w_sent w;
     w_net := w_net w;
     w_sched := w_sched w |}.

(** [time_time]: one reading of the clock, in seconds since the epoch. *)
Definition time_time : io Z := IO (λ w, (Ok (w_clock w), tick w)).

(** [datetime.datetime.utcnow()] *)
Definition utcnow : io datetime :=
  t ← time_time; lift (utcfromtimestamp t).

(** [local_date w t]: the local date at the time [t]. *)
Definition local_date (utcoff t : Z) : result date :=
  fromordinal (EPOCH_ORDINAL + (t + utcoff) / 86400).

(** [datetime.date.today()] *)
Definition date_today : io date :=
  IO (λ w, (local_date (w_utcoff w) (w_clock w), tick w)).

(** [send r w]: the world after the request [r] is sent. *)
Definition send (r : http_request) (w : World) : World :=
  {| w_clock := w_clock w; w_ticks := w_ticks w; w_utcoff := w_utcoff w;
     w_sent := r :: w_sent w; w_net := w_net w; w_sched := w_sched w |}.

(** [requests.get(url, headers=headers)]: the request is sent, and the
    network answers or the call raises. *)
Definition requests_get (url : string) (headers : gmap string string) : io http_response :=
  IO (λ w, let r := HttpRequest url headers in (w_net w (w_sent w) r, send r w)).

(** [choose n]: the choice of the scheduler among [n] threads. *)
Definition choose (n : nat) : io nat :=
  IO (λ w, (Ok (hd 0%nat (w_sched w) mod n)%nat,
            {| w_clock := w_clock w; w_ticks := w_ticks w; w_utcoff := w_utcoff w;
               w_sent := w_sent w; w_net := w_net w; w_sched := tl (w_sched w) |})).

(** [mapM_io f l]: [f] on the elements of [l], one after the other. *)
Fixpoint mapM_io {A B : Type} (f : A → io B) (l : list A) : io (list B) :=
  match l with
  | [] => mret []
  | x :: l' => y ← f x; ys ← mapM_io f l'; mret (y :: ys)
  end.

(** [today_of w]: the local date a reading of the clock gives in [w], when
    it is a date. *)
Definition today_of (w : World) : result date := local_date (w_utcoff w) (w_clock w).

(** [same_outcome a b]: the same world, and the same value or an exception
    on both sides (the class and the message of the exception may differ). *)
Definition same_outcome {A} (a b : result A * World) : Prop :=
  a.2 = b.2 ∧ match a.1, b.1 with
              | Ok x, Ok y => x = y
              | Raise _, Raise _ => True
              | _, _ => False
              end.

(** [ticks k w]: the world after [k] readings of the clock. *)
Fixpoint ticks (k : nat) (w : World) : World :=
  match k with
  | O => w
  | S k' => ticks k' (tick w)
  end.

(** [later w w0]: [w0] is a world after [w]: the same network and the same
    time zone, the requests sent in [w] with the ones sent since in front,
    and the clock of [w] after some readings. *)
Definition later (w w0 : World) : Prop :=
  w_net w0 = w_net w ∧ w_utcoff w0 = w_utcoff w
  ∧ (∃ more, w_sent w0 = more ++ w_sent w)
  ∧ ∃ k, w_clock w0 = w_clock (ticks k w) ∧ w_ticks w0 = w_ticks (ticks k w).

(** [silent m]: the computation sends nothing and leaves the network and
    the scheduler as they are. *)
Definition silent {A : Type} (m : io A) : Prop :=
  ∀ w, w_sent (run m w).2 = w_sent w ∧ w_net (run m w).2 = w_net w
       ∧ w_sched (run m w).2 = w_sched w.

(** [clock_safe w]: every reading of the clock from [w] on is a time that
    [datetime] can hold. *)
Definition clock_safe (w : World) : Prop :=
  ∀ k, is_ok (utcfromtimestamp (w_clock (ticks k w))) = true.

(** ** Theorems *)

Lemma run_ret {A : Type} (a : A) (w : World) : run (mret a) w = (Ok a, w).
Proof. reflexivity. Qed.

Lemma run_bind {A B : Type} (m : io A) (f : A → io B) (w : World) :
  run (m ≫= f) w =
  match run m w with
  | (Ok a, w') => run (f a) w'
  | (Raise e, w') => (Raise e, w')
  end.
Proof. reflexivity. Qed.

Lemma run_lift {A : Type} (r : result A) (w : World) : run (lift r) w = (r, w).
Proof. reflexivity. Qed.

Lemma run_bind_lift {A B : Type} (r : result A) (f : A → io B) (w : World) :
  run (lift r ≫= f) w =
  match r with Ok a => run (f a) w | Raise e => (Raise e, w) end.
Proof. by destruct r. Qed.

Lemma run_time_time (w : World) : run time_time w = (Ok (w_clock w), tick w).
Proof. reflexivity. Qed.

Lemma run_date_today (w : World) : run date_today w = (today_of w, tick w).
Proof. reflexivity. Qed.

Lemma run_utcnow (w : World) :
  run utcnow w = (utcfromtimestamp (w_clock w), tick w).
Proof. unfold utcnow. rewrite run_bind, run_time_time, run_lift. by destruct utcfromtimestamp. Qed.

(** One turn of [mapM_io]. *)
Lemma run_mapM_io_cons {A B} (f : A → io B) (x : A) (l : list A) (w : World) :
  run (mapM_io f (x :: l)) w
  = match run (f x) w with
    | (Ok y, w1) =>
        match run (mapM_io f l) w1 with
        | (Ok ys, w2) => (Ok (y :: ys), w2)
        | (Raise e, w2) => (Raise e, w2)
        end
    | (Raise e, w1) => (Raise e, w1)
    end.
Proof.
  cbn [mapM_io]. rewrite run_bind. destruct (run (f x) w) as [[y|e] w1]; [|done].
  rewrite run_bind. by destruct (run (mapM_io f l) w1) as [[ys|e] w2].
Qed.

(** [io_simpl]: one step of each computation at the head of the goal. *)
Ltac io_simpl := cbn [run mbind io_bind lift mret io_ret io_raise date_today fst snd].

#[export] Hint Rewrite @run_ret @run_bind_lift @run_lift run_time_time
  run_date_today run_utcnow : awis_simpl.

(** The clock does not run backwards. *)
Lemma ticks_S (k : nat) (w : World) : ticks (S k) w = tick (ticks k w).
Proof. revert w. induction k as [|k IH]; intros w; [done|]. simpl in *. by rewrite IH. Qed.

Lemma silent_ret {A : Type} (a : A) : silent (mret a).
Proof. done. Qed.

Lemma silent_lift {A : Type} (r : result A) : silent (lift r).
Proof. done. Qed.

Lemma silent_raise {A : Type} (cls : exn_class) (msg : string) : silent (io_raise (A := A) cls msg).
Proof. done. Qed.

Lemma silent_date_today : silent date_today.
Proof. done. Qed.

Lemma silent_utcnow : silent utcnow.
Proof. intros w. by rewrite run_utcnow. Qed.

Lemma silent_bind {A B : Type} (m : io A) (f : A → io B) :
  silent m → (∀ a, silent (f a)) → silent (m ≫= f).
Proof.
  intros Hm Hf w. rewrite run_bind. destruct (Hm w) as (Hs & Hn & Hc).
  destruct (run m w) as [[a|e] w1]; [|done]. simpl in *.
  destruct (Hf a w1) as (Hs' & Hn' & Hc'). by rewrite Hs', Hn', Hc'.
Qed.

#[export] Hint Resolve silent_ret silent_lift silent_raise silent_date_today
  silent_utcnow : awis.

(** A clock that stands still is safe when its time is. *)
Lemma clock_safe_still (w : World) :
  w_ticks w = [] → is_ok (utcfromtimestamp (w_clock w)) = true → clock_safe w.
Proof.
  intros Ht Hc k. replace (w_clock (ticks k w)) with (w_clock w); [done|].
  revert w Ht Hc. induction k as [|k IH]; intros w Ht Hc; [done|]. simpl.
  rewrite <- IH; simpl; rewrite Ht; simpl; rewrite ?Z.add_0_r; done.
Qed.

Lemma later_refl (w : World) : later w w.
Proof. split_and!; [done..| by exists [] | by exists 0%nat]. Qed.

Lemma later_tick (w w0 : World) : later w w0 → later w (tick w0).
Proof.
  intros (? & ? & ? & k & Hc & Ht). split_and!; [done..|]. exists (S k).
  rewrite ticks_S. simpl. by rewrite Hc, Ht.
Qed.

Lemma later_send (w w0 : World) (r : http_request) : later w w0 → later w (send r w0).
Proof.
  intros (? & ? & [more Hm] & ?). split_and!; [done..| |done].
  exists (r :: more). simpl. by rewrite Hm.
Qed.

Lemma later_choose (w w0 : World) (n : nat) : later w w0 → later w (run (choose n) w0).2.
Proof. by intros (? & ? & ? & ?). Qed.

Lemma tick_clock_mono (w : World) : clock_ok w → w_clock w ≤ w_clock (tick w).
Proof.
  unfold clock_ok. destruct w as [c [|t ts] o s n sc]; simpl; [lia|].
  intros [? _]%Forall_cons. lia.
Qed.

Lemma tick_clock_ok (w : World) : clock_ok w → clock_ok (tick w).
Proof.
  unfold clock_ok. destruct w as [c [|t ts] o s n sc]; simpl; [done|].
  by intros [_ ?]%Forall_cons.
Qed.

Lemma tick_sent (w : World) : w_sent (tick w) = w_sent w.
Proof. reflexivity. Qed.

Lemma tick_utcoff (w : World) : w_utcoff (tick w) = w_utcoff w.
Proof. reflexivity. Qed.

#[export] Hint Resolve tick_clock_ok tick_clock_mono : awis.
#[export] Hint Rewrite tick_sent tick_utcoff : awis_simpl.

(** The local date does not go back when time goes on. *)
Lemma local_date_mono (off t1 t2 : Z) (d1 d2 : date) :
  t1 ≤ t2 → local_date off t1 = Ok d1 → local_date off t2 = Ok d2 →
  toordinal d1 ≤ toordinal d2.
Proof.
  unfold local_date, fromordinal. intros Ht.
  repeat case_test; intros H1 H2; simplify_eq. rewrite !toordinal_ord2ymd.
  Z.div_mod_to_equations. lia.
Qed.

Lemma local_date_valid (off t : Z) (d : date) :
  local_date off t = Ok d → valid_date d.
Proof.
  unfold local_date, fromordinal.
  repeat case_test; intros H; simplify_eq. apply ord2ymd_valid. lia.
Qed.

#[export] Hint Resolve local_date_valid : awis.
