(* ===== verification/Hash.v ===== *)
(** * Hash: the interface of a hash function, and HMAC over it

    The sources call [hashlib.sha256] and [hmac.new(key, msg,
    hashlib.sha256)].  [HashFn] states what the signer needs of a hash
    function: a digest of fixed length made of bytes, and a block size.
    [hmac] is HMAC as RFC 2104 and Python's [hmac] module define it, over any
    [HashFn].  The signer and the request builder are proved against this
    interface; [Sha256] provides the instance the program runs with. *)

From S2P Require Import Prelude Text.

(** ** Definitions *)

Class HashFn : Type := {
  (** [hashlib.<name>(m).digest()] *)
  digest : list Z → list Z;
  (** [digest_size], in bytes *)
  digest_size : nat;
  (** [block_size], in bytes *)
  block_size : nat;
  digest_length : ∀ m, length (digest m) = digest_size;
  digest_bytes : ∀ m, Forall is_byte (digest m);
  block_size_pos : (0 < block_size)%nat;
  digest_fits_block : (digest_size ≤ block_size)%nat
}.

Section Hmac.
Context `{HashFn}.

(** [ljust n bs]: [bs.ljust(n, b'\0')], zero bytes added on the right up to
    the length [n]. *)
Definition ljust (n : nat) (bs : list Z) : list Z :=
  bs ++ replicate (n - length bs) 0.

(** [translate x bs]: every byte xored with [x] (the tables [trans_36] and
    [trans_5C] of the library). *)
Definition translate (x : Z) (bs : list Z) : list Z := Z.lxor x <$> bs.

(** [block_key key]: the key brought to the block size, hashed first when
    it is longer. *)
Definition block_key (key : list Z) : list Z :=
  ljust block_size
    (if (block_size <? length key)%nat then digest key else key).

(** [hmac key msg] is [hmac.new(key, msg, digestmod).digest()]. *)
Definition hmac (key msg : list Z) : list Z :=
  let k := block_key key in
  digest (translate 92 k ++ digest (translate 54 k ++ msg)).

(** [hexdigest m] is [hashlib.<name>(m).hexdigest()], which is
    [digest().hex()]. *)
Definition hexdigest (m : list Z) : string := hex (digest m).

End Hmac.

(** ** Theorems *)

Section HmacFacts.
Context `{HashFn}.

Lemma hmac_length (key msg : list Z) : length (hmac key msg) = digest_size.
Proof. apply digest_length. Qed.

Lemma hmac_bytes (key msg : list Z) : Forall is_byte (hmac key msg).
Proof. apply digest_bytes. Qed.

Lemma ljust_length (n : nat) (bs : list Z) :
  (length bs ≤ n)%nat → length (ljust n bs) = n.
Proof. intros Hl. unfold ljust. rewrite length_app, length_replicate. lia. Qed.

Lemma ljust_full (n : nat) (bs : list Z) : (n ≤ length bs)%nat → ljust n bs = bs.
Proof.
  intros Hl. unfold ljust. replace (n - length bs)%nat with 0%nat by lia.
  apply app_nil_r.
Qed.

(** The key block has the size of a block whatever the key. *)
Lemma block_key_length (key : list Z) : length (block_key key) = block_size.
Proof.
  unfold block_key. apply ljust_length.
  destruct (Nat.ltb_spec block_size (length key)); [|done].
  rewrite digest_length. apply digest_fits_block.
Qed.

Lemma translate_length (x : Z) (bs : list Z) : length (translate x bs) = length bs.
Proof. apply length_fmap. Qed.

(** A key no longer than a block is used as it is, padded with zeros: two
    such keys that differ only by zero bytes at the end give the same MAC. *)
Lemma block_key_short (key : list Z) :
  (length key ≤ block_size)%nat → block_key key = ljust block_size key.
Proof.
  intros Hl. unfold block_key.
  by destruct (Nat.ltb_spec block_size (length key)); [lia|].
Qed.

Lemma hexdigest_length (m : list Z) :
  String.length (hexdigest m) = (2 * digest_size)%nat.
Proof. unfold hexdigest. by rewrite hex_length, digest_length. Qed.

Lemma hexdigest_chars (m : list Z) :
  forallb is_hex_lower (chars (hexdigest m)) = true.
Proof. apply hex_chars, digest_bytes. Qed.

End HmacFacts.

#[export] Hint Resolve @hmac_bytes @digest_bytes : awis.
#[export] Hint Rewrite @hmac_length @digest_length @block_key_length
  @hexdigest_length : awis_simpl.
