(* ===== verification/Sha256.v ===== *)
(** * Sha256: the hash function the program runs with

    SHA-256 as FIPS 180-4 defines it, on bytes, with 32-bit words kept in
    [Z] and wrapped by a mask after every addition and left shift.  It is
    what [hashlib.sha256] computes; it is library code, modelled here so that
    the signer can be run on test vectors inside the kernel.

    The theorems: a digest is 32 bytes; the instance [sha256_hash] of
    [HashFn]; the digests of the empty message and of "abc", and an HMAC of
    RFC 4231, computed and compared with the published values. *)

From S2P Require Import Prelude Text Hash.

(** ** Definitions *)

Definition mask32 : Z := 4294967295.

(** Addition of 32-bit words. *)
Definition add32 (x y : Z) : Z := Z.land (x + y) mask32.

(** [rotr n x]: rotation of a 32-bit word to the right by [n] bits. *)
Definition rotr (n x : Z) : Z :=
  Z.lor (Z.shiftr x n) (Z.land (Z.shiftl x (32 - n)) mask32).

Definition Ch (x y z : Z) : Z :=
  Z.lxor (Z.land x y) (Z.land (Z.lxor x mask32) z).

Definition Maj (x y z : Z) : Z :=
  Z.lxor (Z.lxor (Z.land x y) (Z.land x z)) (Z.land y z).

Definition Sigma0 (x : Z) : Z := Z.lxor (Z.lxor (rotr 2 x) (rotr 13 x)) (rotr 22 x).
Definition Sigma1 (x : Z) : Z := Z.lxor (Z.lxor (rotr 6 x) (rotr 11 x)) (rotr 25 x).
Definition sigma0 (x : Z) : Z := Z.lxor (Z.lxor (rotr 7 x) (rotr 18 x)) (Z.shiftr x 3).
Definition sigma1 (x : Z) : Z := Z.lxor (Z.lxor (rotr 17 x) (rotr 19 x)) (Z.shiftr x 10).

(** [be32 bs]: the big-endian word of four bytes. *)
Definition be32 (bs : list Z) : Z :=
  foldl (λ acc b, acc * 256 + b) 0 (take 4 bs).

(** [bytes_be n x]: the [n] low bytes of [x], most significant first. *)
Fixpoint bytes_be (n : nat) (x : Z) : list Z :=
  match n with
  | O => []
  | S n' => Z.land (Z.shiftr x (8 * Z.of_nat n')) 255 :: bytes_be n' x
  end.

(** [chunks n fuel l]: [l] cut into pieces of [n] elements; [fuel] bounds the
    number of pieces, and the length of [l] is always enough. *)
Fixpoint chunks {A : Type} (n fuel : nat) (l : list A) : list (list A) :=
  match fuel with
  | O => []
  | S fuel' =>
      match l with
      | [] => []
      | _ => take n l :: chunks n fuel' (drop n l)
      end
  end.

(** [hex_words s]: the 32-bit words a string of hexadecimal digits writes,
    eight digits a word. *)
Definition hex_words (s : string) : list Z :=
  be32 <$> chunks 4 (String.length s) (default [] (unhex s)).

(** The round constants: the first 32 bits of the fractional parts of the
    cube roots of the first 64 primes. *)
Definition K256 : list Z := Eval vm_compute in hex_words
  ("428a2f9871374491b5c0fbcfe9b5dba53956c25b59f111f1923f82a4ab1c5ed5" +:+
   "d807aa9812835b01243185be550c7dc372be5d7480deb1fe9bdc06a7c19bf174" +:+
   "e49b69c1efbe47860fc19dc6240ca1cc2de92c6f4a7484aa5cb0a9dc76f988da" +:+
   "983e5152a831c66db00327c8bf597fc7c6e00bf3d5a7914706ca635114292967" +:+
   "27b70a852e1b21384d2c6dfc53380d13650a7354766a0abb81c2c92e92722c85" +:+
   "a2bfe8a1a81a664bc24b8b70c76c51a3d192e819d6990624f40e3585106aa070" +:+
   "19a4c1161e376c082748774c34b0bcb5391c0cb34ed8aa4a5b9cca4f682e6ff3" +:+
   "748f82ee78a5636f84c878148cc7020890befffaa4506cebbef9a3f7c67178f2").

(** The working variables, and the hash value between blocks. *)
Record hstate : Type :=
  HState { ha : Z; hb : Z; hc : Z; hd' : Z; he : Z; hf : Z; hg : Z; hh : Z }.

(** The initial hash value: the first 32 bits of the fractional parts of
    the square roots of the first 8 primes. *)
Definition H0 : hstate := Eval vm_compute in
  match hex_words "6a09e667bb67ae853c6ef372a54ff53a510e527f9b05688c1f83d9ab5be0cd19" with
  | [a; b; c; d; e; f; g; h] => HState a b c d e f g h
  | _ => HState 0 0 0 0 0 0 0 0
  end.

(** [pad msg]: the message, the byte 0x80, zero bytes up to 56 modulo 64,
    and the length of the message in bits on 8 bytes. *)
Definition pad (msg : list Z) : list Z :=
  let l := length msg in
  msg ++ [128] ++ replicate ((55 + 64 - l mod 64) mod 64) 0
      ++ bytes_be 8 (8 * Z.of_nat l).

(** [extend n w]: [n] more words of the message schedule; [w] holds the
    words so far, latest first. *)
Fixpoint extend (n : nat) (w : list Z) : list Z :=
  match n with
  | O => w
  | S n' =>
      let x := add32 (add32 (add32 (sigma1 (nth 1 w 0)) (nth 6 w 0))
                            (sigma0 (nth 14 w 0))) (nth 15 w 0) in
      extend n' (x :: w)
  end.

(** [schedule block]: the 64 words of the message schedule of a block. *)
Definition schedule (block : list Z) : list Z :=
  rev (extend 48 (rev (be32 <$> chunks 4 16 block))).

(** One round of the compression function. *)
Definition round (s : hstate) (kw : Z * Z) : hstate :=
  let t1 := add32 (add32 (add32 (add32 (hh s) (Sigma1 (he s)))
                                (Ch (he s) (hf s) (hg s))) kw.1) kw.2 in
  let t2 := add32 (Sigma0 (ha s)) (Maj (ha s) (hb s) (hc s)) in
  HState (add32 t1 t2) (ha s) (hb s) (hc s) (add32 (hd' s) t1) (he s) (hf s) (hg s).

(** [compress s block]: the hash value after one more block. *)
Definition compress (s : hstate) (block : list Z) : hstate :=
  let r := foldl round s (zip K256 (schedule block)) in
  HState (add32 (ha s) (ha r)) (add32 (hb s) (hb r)) (add32 (hc s) (hc r))
         (add32 (hd' s) (hd' r)) (add32 (he s) (he r)) (add32 (hf s) (hf r))
         (add32 (hg s) (hg r)) (add32 (hh s) (hh r)).

(** [sha256_digest msg] is [hashlib.sha256(msg).digest()]. *)
Definition sha256_digest (msg : list Z) : list Z :=
  let p := pad msg in
  let s := foldl compress H0 (chunks 64 (length p) p) in
  [ha s; hb s; hc s; hd' s; he s; hf s; hg s; hh s] ≫= bytes_be 4.

(** ** Theorems *)

Lemma bytes_be_length (n : nat) (x : Z) : length (bytes_be n x) = n.
Proof. induction n as [|n IH]; simpl; [done | by rewrite IH]. Qed.

Lemma bytes_be_bytes (n : nat) (x : Z) : Forall is_byte (bytes_be n x).
Proof.
  induction n as [|n IH]; simpl; constructor; [|done].
  unfold is_byte. change 255 with (Z.ones 8). rewrite Z.land_ones by lia.
  Z.div_mod_to_equations. lia.
Qed.

Lemma sha256_digest_length (msg : list Z) : length (sha256_digest msg) = 32%nat.
Proof. unfold sha256_digest. cbn [mbind list_bind]. by rewrite !length_app, !bytes_be_length. Qed.

Lemma sha256_digest_bytes (msg : list Z) : Forall is_byte (sha256_digest msg).
Proof.
  unfold sha256_digest. cbn [mbind list_bind].
  repeat (apply Forall_app; split); auto using bytes_be_bytes.
Qed.

Lemma pad_zeros_arith (m : nat) :
  ((m + (1 + ((55 + 64 - m mod 64) mod 64 + 8))) mod 64 = 0)%nat.
Proof.
  pose proof (Nat.mod_upper_bound m 64 ltac:(lia)) as H1.
  pose proof (Nat.div_mod_eq m 64) as H2.
  set (r := (m mod 64)%nat) in *. set (q := (m / 64)%nat) in *.
  pose proof (Nat.mod_upper_bound (55 + 64 - r) 64 ltac:(lia)) as H3.
  pose proof (Nat.div_mod_eq (55 + 64 - r) 64) as H4.
  set (r2 := ((55 + 64 - r) mod 64)%nat) in *.
  set (q2 := ((55 + 64 - r) / 64)%nat) in *.
  apply Nat.Div0.mod_divides. exists (q + 2 - q2)%nat. lia.
Qed.

(** The padded message is a whole number of blocks. *)
Lemma pad_length (msg : list Z) : (length (pad msg) mod 64 = 0)%nat.
Proof.
  unfold pad. rewrite !length_app, length_replicate, bytes_be_length.
  apply pad_zeros_arith.
Qed.

(** SHA-256 as an instance of the interface of [Hash]. *)
#[export] Instance sha256_hash : HashFn := {|
  digest := sha256_digest;
  digest_size := 32;
  block_size := 64;
  digest_length := sha256_digest_length;
  digest_bytes := sha256_digest_bytes;
  block_size_pos := ltac:(lia);
  digest_fits_block := ltac:(lia)
|}.

(** Test vectors of FIPS 180-4. *)
Example sha256_empty :
  hex (sha256_digest []) = "e3b0c44298fc1c149afbf4c8996fb92427ae41e4649b934ca495991b7852b855".
Proof. vm_compute. reflexivity. Qed.

Example sha256_abc :
  hex (sha256_digest (encode "abc"))
  = "ba7816bf8f01cfea414140de5dae2223b00361a396177a9cb410ff61f20015ad".
Proof. vm_compute. reflexivity. Qed.

(** A message of two blocks. *)
Example sha256_two_blocks :
  hex (sha256_digest (encode "abcdbcdecdefdefgefghfghighijhijkijkljklmklmnlmnomnopnopq"))
  = "248d6a61d20638b8e5c026930c3e6039a33ce45964ff2167f6ecedd419db06c1".
Proof. vm_compute. reflexivity. Qed.

(** Test case 2 of RFC 4231 for HMAC-SHA-256. *)
Example hmac_sha256_rfc4231 :
  hex (hmac (encode "Jefe") (encode "what do ya want for nothing?"))
  = "5bdcc146bf60754e6a042426089575c75a003f089d2739839dec58b964ec3843".
Proof. vm_compute. reflexivity. Qed.
