(* ===== verification/Config.v ===== *)
(** * Config: the constants of the service and the client object

    The module-level constants of the two source files and the [AWIS]
    objects their constructors build.  [Pkg] models [src/awis/awis.py],
    [Legacy] models [src/awis.py].

    An [AWIS] object is a record of the attributes its constructor sets.
    [getattr] is Python's attribute lookup on such an object: the instance
    attributes first, then the names the class defines, then the names
    every class inherits from [object], and [AttributeError] for any other
    name.  The packaged client reads two names that are in none of the
    three. *)

From stdpp Require Import gmap.
From S2P Require Import Prelude Text World.

(** ** Definitions *)

(** The values an attribute of a client object can hold. *)
Inductive pyval : Type :=
  | PStr (s : string)
  | PSet (g : gset string)
  | PMethod (name : string).

#[export] Instance pyval_eq_dec : EqDecision pyval.
Proof. solve_decision. Defined.

(** The attributes an instance of a class without base classes inherits
    from [object] and from the class machinery (CPython 3.11; [__init__] is
    with the names of the class, which defines it). *)
Definition object_attributes : list string :=
  [ "__class__"; "__delattr__"; "__dict__"; "__dir__"; "__doc__"; "__eq__";
    "__format__"; "__ge__"; "__getattribute__"; "__getstate__"; "__gt__";
    "__hash__"; "__init_subclass__"; "__le__"; "__lt__"; "__module__";
    "__ne__"; "__new__"; "__reduce__"; "__reduce_ex__"; "__repr__";
    "__setattr__"; "__sizeof__"; "__str__"; "__subclasshook__"; "__weakref__" ].

(** [lookup_attr dict methods name]: the instance dictionary, then the
    class, then [object]. *)
Definition lookup_attr (dict : gmap string pyval) (methods : list string)
    (name : string) : result pyval :=
  match dict !! name with
  | Some v => Ok v
  | None =>
      if bool_decide (name ∈ methods ++ object_attributes) then Ok (PMethod name)
      else raise AttributeError ("'AWIS' object has no attribute '" +:+ name +:+ "'")
  end.

Module Pkg.

Definition VALID_RESPONSE_GROUPS : gset string :=
  {[ "RelatedLinks"; "Categories"; "Rank"; "RankByCountry"; "UsageStats";
     "AdultContent"; "Speed"; "Language"; "OwnedDomains"; "LinksInCount";
     "SiteData" ]}.

Definition ALGORITHM : string := "AWS4-HMAC-SHA256".
Definition HASH_ALGORITHM : string := "HmacSHA256".
Definition DATE_STAMP_FORMAT : string := "%Y%m%d".
Definition MAX_SEARCH_RANGE : Z := 31.
Definition SERVICE_NAME : string := "awis".
Definition SERVICE_HOST : string := "awis.amazonaws.com".
Definition SERVICE_URI : string := "/api".

(** The attributes [__init__] sets. *)
Record AWIS : Type := {
  access_id : string;
  secret_access_key : string;
  SERVICE_REGION : string;
  SERVICE_ENDPOINT : string;
  AWS_BASE_URL : string
}.

(** The default of the parameter [service_region] of the constructor. *)
Definition DEFAULT_REGION : string := "us-west-1".

(** [AWIS(access_id, secret_key, service_region)] *)
Definition __init__ (access_id secret_key service_region : string) : AWIS :=
  {| access_id := access_id;
     secret_access_key := secret_key;
     SERVICE_REGION := service_region;
     SERVICE_ENDPOINT := "awis." +:+ service_region +:+ ".amazonaws.com";
     AWS_BASE_URL := "https://" +:+ SERVICE_HOST +:+ SERVICE_URI |}.

(** The instance dictionary of an object. *)
Definition instance_dict (self : AWIS) : gmap string pyval :=
  {[ "access_id" := PStr (access_id self);
     "secret_access_key" := PStr (secret_access_key self);
     "SERVICE_REGION" := PStr (SERVICE_REGION self);
     "SERVICE_ENDPOINT" := PStr (SERVICE_ENDPOINT self);
     "AWS_BASE_URL" := PStr (AWS_BASE_URL self) ]}.

(** The methods and properties of the class. *)
Definition class_methods : list string :=
  [ "__init__"; "get_signature_key"; "url_info"; "traffic_history"; "bulk_request";
    "parse_traffic_history"; "parse_url_info"; "create_request"; "amz_date";
    "sha256"; "hmac_sha256"; "date_stamp" ].

(** [self.<name>] *)
Definition getattr (self : AWIS) (name : string) : result pyval :=
  lookup_attr (instance_dict self) class_methods name.

End Pkg.

Module Legacy.

Definition ACTION_NAME : string := "UrlInfo".
Definition SERVICE_HOST : string := "awis.amazonaws.com".
Definition SERVICE_ENDPOINT : string := "awis.us-west-1.amazonaws.com".
Definition SERVICE_URI : string := "/api".
Definition SERVICE_REGION : string := "us-west-1".
Definition SERVICE_NAME : string := "awis".
Definition AWS_BASE_URL : string := "https://" +:+ SERVICE_HOST +:+ SERVICE_URI.
Definition ALGORITHM : string := "AWS4-HMAC-SHA256".
Definition HASH_ALGORITHM : string := "HmacSHA256".
Definition DATE_STAMP_FORMAT : string := "%Y%m%d".
Definition MAX_SEARCH_RANGE : Z := 31.

(** The attributes [__init__] sets. *)
Record AWIS : Type := {
  access_id : string;
  secret_access_key : string;
  valid_response_groups : gset string
}.

(** [AWIS(access_id, secret_key)]: the constructor reads the clock once,
    into a local it does not use. *)
Definition __init__ (access_id secret_key : string) : io AWIS :=
  now ← utcnow;
  mret {| access_id := access_id;
          secret_access_key := secret_key;
          valid_response_groups :=
            {[ "RelatedLinks"; "Categories"; "Rank"; "RankByCountry";
               "UsageStats"; "AdultContent"; "Speed"; "Language";
               "OwnedDomains"; "LinksInCount"; "SiteData" ]} |}.

Definition instance_dict (self : AWIS) : gmap string pyval :=
  {[ "access_id" := PStr (access_id self);
     "secret_access_key" := PStr (secret_access_key self);
     "valid_response_groups" := PSet (valid_response_groups self) ]}.

Definition class_methods : list string :=
  [ "__init__"; "get_signature_key"; "url_info"; "traffic_history";
    "parse_traffic_history"; "parse_url_info"; "create_request"; "request";
    "amz_date"; "sha256"; "hmac_sha256"; "parse_response"; "date_stamp" ].

Definition getattr (self : AWIS) (name : string) : result pyval :=
  lookup_attr (instance_dict self) class_methods name.

End Legacy.

(** [as_pkg self]: the packaged client with the credentials of a client of
    the first version, in the default region. *)
Definition as_pkg (self : Legacy.AWIS) : Pkg.AWIS :=
  Pkg.__init__ (Legacy.access_id self) (Legacy.secret_access_key self)
               Pkg.DEFAULT_REGION.

(** A client of the first version, with the credentials of the example of
    the AWS documentation. *)
Definition legacy_client : Legacy.AWIS :=
  {| Legacy.access_id := "AKIDEXAMPLE";
     Legacy.secret_access_key := "wJalrXUtnFEMI/K7MDENG+bPxRfiCYEXAMPLEKEY";
     Legacy.valid_response_groups := Pkg.VALID_RESPONSE_GROUPS |}.

(** ** Theorems *)

(** The two files agree on the constants they share. *)
Lemma constants_agree :
  Pkg.ALGORITHM = Legacy.ALGORITHM ∧ Pkg.SERVICE_NAME = Legacy.SERVICE_NAME ∧
  Pkg.SERVICE_HOST = Legacy.SERVICE_HOST ∧ Pkg.SERVICE_URI = Legacy.SERVICE_URI ∧
  Pkg.MAX_SEARCH_RANGE = Legacy.MAX_SEARCH_RANGE ∧
  Pkg.DATE_STAMP_FORMAT = Legacy.DATE_STAMP_FORMAT.
Proof. done. Qed.

(** With the default region, the packaged client has the endpoint, the
    region and the base URL that are constants of the first version. *)
Lemma pkg_default_region (a s : string) :
  let self := Pkg.__init__ a s Pkg.DEFAULT_REGION in
  Pkg.SERVICE_ENDPOINT self = Legacy.SERVICE_ENDPOINT ∧
  Pkg.SERVICE_REGION self = Legacy.SERVICE_REGION ∧
  Pkg.AWS_BASE_URL self = Legacy.AWS_BASE_URL.
Proof. done. Qed.

(** The two names [url_info] of the package reads are no attribute of a
    packaged client; the first version has both. *)
Lemma pkg_getattr_missing (self : Pkg.AWIS) :
  Pkg.getattr self "valid_response_groups"
  = raise AttributeError "'AWIS' object has no attribute 'valid_response_groups'"
  ∧ Pkg.getattr self "request"
    = raise AttributeError "'AWIS' object has no attribute 'request'".
Proof. done. Qed.

Lemma legacy_getattr_present (self : Legacy.AWIS) :
  Legacy.getattr self "valid_response_groups" = Ok (PSet (Legacy.valid_response_groups self))
  ∧ Legacy.getattr self "request" = Ok (PMethod "request").
Proof. done. Qed.

(** The endpoint of a client names its region. *)
Lemma pkg_endpoint (a s r : string) :
  Pkg.SERVICE_ENDPOINT (Pkg.__init__ a s r) = "awis." +:+ r +:+ ".amazonaws.com".
Proof. done. Qed.

(** The endpoint of a client is never the host of its base URL, whatever
    the region. *)
Lemma pkg_endpoint_not_host (a s r : string) :
  String.eqb (Pkg.SERVICE_ENDPOINT (Pkg.__init__ a s r)) Pkg.SERVICE_HOST = false.
Proof.
  apply String.eqb_neq. rewrite pkg_endpoint. intros H%(f_equal String.length).
  rewrite !string_length_app in H. simpl in H. lia.
Qed.
