(* ===== verification/Signer.v ===== *)
(** * Signer: the signing key and the hash helpers of the client

    [get_signature_key] derives the key of AWS Signature Version 4 by four
    chained HMACs; [sha256] is the hexadecimal digest of a text and
    [hmac_sha256] an HMAC with the data as first argument.  The two source
    files hold the same text for the three methods; [Pkg] models
    [src/awis/awis.py] and [Legacy] models [src/awis.py].

    The definitions are stated over any hash function ([HashFn]); the
    theorems hold for each, and the test vector of the AWS documentation is
    checked with SHA-256. *)

From S2P Require Import Prelude Text Hash Sha256 World Config.

(** ** Definitions *)

Module Pkg.
Export Config.Pkg.

Section WithHash.
Context `{HashFn}.

(** [self.get_signature_key(datestamp, region_name, service_name)] *)
Definition get_signature_key (self : AWIS)
    (datestamp region_name service_name : string) : list Z :=
  let datestamp := encode datestamp in
  let region_name := encode region_name in
  let service_name := encode service_name in
  let k_secret := encode ("AWS4" +:+ secret_access_key self) in
  let k_date := hmac k_secret datestamp in
  let k_region := hmac k_date region_name in
  let k_service := hmac k_region service_name in
  let k_signing := hmac k_service (encode "aws4_request") in
  k_signing.

(** [AWIS.sha256(text_to_hash)]: the digest, in hexadecimal. *)
Definition sha256 (text_to_hash : string) : string :=
  hex (digest (encode text_to_hash)).

(** [AWIS.hmac_sha256(data, key)] *)
Definition hmac_sha256 (data key : list Z) : list Z := hmac key data.

End WithHash.
End Pkg.

Module Legacy.
Export Config.Legacy.

Section WithHash.
Context `{HashFn}.

(** [self.get_signature_key(datestamp, region_name, service_name)] *)
Definition get_signature_key (self : AWIS)
    (datestamp region_name service_name : string) : list Z :=
  let datestamp := encode datestamp in
  let region_name := encode region_name in
  let service_name := encode service_name in
  let k_secret := encode ("AWS4" +:+ secret_access_key self) in
  let k_date := hmac k_secret datestamp in
  let k_region := hmac k_date region_name in
  let k_service := hmac k_region service_name in
  let k_signing := hmac k_service (encode "aws4_request") in
  k_signing.

(** [AWIS.sha256(text_to_hash)] *)
Definition sha256 (text_to_hash : string) : string :=
  hex (digest (encode text_to_hash)).

(** [AWIS.hmac_sha256(data, key)] *)
Definition hmac_sha256 (data key : list Z) : list Z := hmac key data.

End WithHash.
End Legacy.

(** [signing_key secret datestamp region service]: the key derivation of
    Signature Version 4 as the AWS documentation states it, the
    specification of [get_signature_key]. *)
Definition signing_key `{HashFn} (secret datestamp region service : string) : list Z :=
  foldl (λ k s, hmac k (encode s)) (encode ("AWS4" +:+ secret))
        [datestamp; region; service; "aws4_request"].

(** The example of the AWS documentation ("Examples of how to derive a
    signing key for Signature Version 4"), with SHA-256: the client. *)
Definition example_client : Pkg.AWIS :=
  Pkg.__init__ "AKIDEXAMPLE" "wJalrXUtnFEMI/K7MDENG+bPxRfiCYEXAMPLEKEY" "us-east-1".

(** ** Theorems *)

Section SignerFacts.
Context `{HashFn}.

(** [get_signature_key] computes the key derivation of the specification. *)
Lemma get_signature_key_spec (self : Pkg.AWIS) (d r s : string) :
  Pkg.get_signature_key self d r s
  = signing_key (Pkg.secret_access_key self) d r s.
Proof. reflexivity. Qed.

(** The signing key has the size of a digest and is made of bytes. *)
Lemma get_signature_key_length (self : Pkg.AWIS) (d r s : string) :
  length (Pkg.get_signature_key self d r s) = digest_size.
Proof. apply hmac_length. Qed.

Lemma get_signature_key_bytes (self : Pkg.AWIS) (d r s : string) :
  Forall is_byte (Pkg.get_signature_key self d r s).
Proof. apply hmac_bytes. Qed.

(** The two versions derive the same key from the same secret. *)
Theorem get_signature_key_legacy (self : Legacy.AWIS) (d r s : string) :
  Legacy.get_signature_key self d r s = Pkg.get_signature_key (as_pkg self) d r s.
Proof. reflexivity. Qed.

(** The hexadecimal digest of a text: twice as many characters as the
    digest has bytes, all of them lower-case hexadecimal digits. *)
Lemma sha256_hex_length (t : string) :
  String.length (Pkg.sha256 t) = (2 * digest_size)%nat.
Proof. unfold Pkg.sha256. by rewrite hex_length, digest_length. Qed.

Lemma sha256_hex_chars (t : string) :
  forallb is_hex_lower (chars (Pkg.sha256 t)) = true.
Proof. apply hex_chars, digest_bytes. Qed.

Lemma hmac_sha256_length (data key : list Z) :
  length (Pkg.hmac_sha256 data key) = digest_size.
Proof. apply hmac_length. Qed.

Lemma hmac_sha256_bytes (data key : list Z) :
  Forall is_byte (Pkg.hmac_sha256 data key).
Proof. apply hmac_bytes. Qed.

End SignerFacts.

#[export] Hint Resolve @get_signature_key_bytes @hmac_sha256_bytes : awis.
#[export] Hint Rewrite @get_signature_key_length @sha256_hex_length
  @hmac_sha256_length : awis_simpl.

(** The signing key of the example of the AWS documentation. *)
Example get_signature_key_aws_vector :
  hex (Pkg.get_signature_key example_client "20120215" "us-east-1" "iam")
  = "f4780e2d9f65fa895f9c67b32ce1baf0b0d8a43505a000a1a9e090d414db404d".
Proof. vm_compute. reflexivity. Qed.

(** With SHA-256 the signing key is 256 bits. *)
Lemma get_signature_key_256 (self : Pkg.AWIS) (d r s : string) :
  length (Pkg.get_signature_key self d r s) = 32%nat.
Proof. apply (get_signature_key_length (H := sha256_hash)). Qed.

(** [hmac_sha256] takes the data first and the key second: test case 2 of
    RFC 4231, whose key is "Jefe". *)
Example hmac_sha256_rfc4231_case2 :
  hex (Pkg.hmac_sha256 (encode "what do ya want for nothing?") (encode "Jefe"))
  = "5bdcc146bf60754e6a042426089575c75a003f089d2739839dec58b964ec3843".
Proof. vm_compute. reflexivity. Qed.

(** The hash of the empty payload, a constant of every request. *)
Example sha256_empty_payload :
  Pkg.sha256 "" = "e3b0c44298fc1c149afbf4c8996fb92427ae41e4649b934ca495991b7852b855".
Proof. vm_compute. reflexivity. Qed.
