(* ===== verification/Request.v ===== *)
(** * Request: building and sending a signed request

    [create_request] reads the clock twice (once for the time stamp of the
    request, once for the date stamp of the credential scope), builds the
    canonical request and the string to sign, signs it and, in
    [src/awis/awis.py], sends the GET request; in [src/awis.py] it returns
    the request unsent, for [grequests.map] to send.

    [signed_request] is the specification of the request builder: the
    request as a function of the client, the query, the time stamp and the
    date stamp, with no effect.  The refinement theorems say that
    [create_request] sends, or returns, exactly [signed_request] at the two
    readings of the clock, and what it leaves of the world. *)

From stdpp Require Import gmap.
From S2P Require Import Prelude Text Calendar Hash Sha256 World Config Signer.

(** ** Definitions *)

(** The line feed of the f-strings. *)
Definition nl : string := String "010"%char EmptyString.

(** A [requests.Session]: the sources create one and pass it on. *)
Inductive session : Type := Session.

(** What [create_request] holds in its variable [session] after its test:
    the session it was given, or the module [requests]. *)
Inductive http_client : Type :=
  | ASession (s : session)
  | RequestsModule.

Module Pkg.
Export Signer.Pkg.

Section WithHash.
Context `{HashFn}.

(** [AWIS.amz_date()] *)
Definition amz_date : io string :=
  now ← utcnow;
  mret (strftime "%Y%m%dT%H%M%SZ" now).

(** [self.date_stamp], a property *)
Definition date_stamp : io string :=
  now ← utcnow;
  mret (strftime DATE_STAMP_FORMAT now).

(** [self.create_request(canonical_query, session)] after its two readings
    of the clock: the request is built, signed and sent. *)
Definition create_request_body (self : AWIS) (canonical_query : string)
    (session : option session) (amz ds : string) : io http_response :=
  let canonical_headers :=
    "host:" +:+ SERVICE_ENDPOINT self +:+ nl +:+ "x-amz-date:" +:+ amz +:+ nl in
  let signed_headers := "host;x-amz-date" in
  let payload_hash := sha256 "" in
  let canonical_request :=
    "GET" +:+ nl +:+ SERVICE_URI +:+ nl +:+ canonical_query +:+ nl
    +:+ canonical_headers +:+ nl +:+ signed_headers +:+ nl +:+ payload_hash in
  let credential_scope :=
    ds +:+ "/" +:+ SERVICE_REGION self +:+ "/" +:+ SERVICE_NAME +:+ "/aws4_request" in
  let string_to_sign :=
    ALGORITHM +:+ nl +:+ amz +:+ nl +:+ credential_scope +:+ nl
    +:+ sha256 canonical_request in
  let signing_key := get_signature_key self ds (SERVICE_REGION self) SERVICE_NAME in
  let signature := hex (hmac_sha256 (encode string_to_sign) signing_key) in
  let uri := AWS_BASE_URL self +:+ "?" +:+ canonical_query in
  let authorisation :=
    ALGORITHM +:+ " Credential=" +:+ access_id self +:+ "/" +:+ credential_scope
    +:+ ", SignedHeaders=" +:+ signed_headers +:+ ", Signature=" +:+ signature in
  let request_properties : gmap string string :=
    {[ "Accept" := "application/xml";
       "Content-Type" := "application/xml";
       "X-Amz-Date" := amz;
       "Authorization" := authorisation ]} in
  let session :=
    match session with Some s => ASession s | None => RequestsModule end in
  requests_get uri request_properties.

(** [self.create_request(canonical_query, session)] *)
Definition create_request (self : AWIS) (canonical_query : string)
    (session : option session) : io http_response :=
  amz ← amz_date;
  ds ← date_stamp;
  create_request_body self canonical_query session amz ds.

End WithHash.
End Pkg.

Module Legacy.
Export Signer.Legacy.

(** A [grequests.AsyncRequest]: a GET request that is not sent yet. *)
Definition AsyncRequest : Type := http_request.

Section WithHash.
Context `{HashFn}.

(** [self.amz_date()] *)
Definition amz_date : io string :=
  now ← utcnow;
  mret (strftime "%Y%m%dT%H%M%SZ" now).

(** [self.date_stamp], a property *)
Definition date_stamp : io string :=
  now ← utcnow;
  mret (strftime DATE_STAMP_FORMAT now).

(** [self.request(request_url, authorisation, amz)] *)
Definition request (self : AWIS) (request_url authorisation amz : string) : AsyncRequest :=
  let request_properties : gmap string string :=
    {[ "Accept" := "application/xml";
       "Content-Type" := "application/xml";
       "X-Amz-Date" := amz;
       "Authorization" := authorisation ]} in
  HttpRequest request_url request_properties.

(** [self.create_request(canonical_query)] *)
Definition create_request (self : AWIS) (canonical_query : string) : io AsyncRequest :=
  amz ← amz_date;
  ds ← date_stamp;
  let canonical_headers :=
    "host:" +:+ SERVICE_ENDPOINT +:+ nl +:+ "x-amz-date:" +:+ amz +:+ nl in
  let signed_headers := "host;x-amz-date" in
  let payload_hash := sha256 "" in
  let canonical_request :=
    "GET" +:+ nl +:+ SERVICE_URI +:+ nl +:+ canonical_query +:+ nl
    +:+ canonical_headers +:+ nl +:+ signed_headers +:+ nl +:+ payload_hash in
  let credential_scope :=
    ds +:+ "/" +:+ SERVICE_REGION +:+ "/" +:+ SERVICE_NAME +:+ "/aws4_request" in
  let string_to_sign :=
    ALGORITHM +:+ nl +:+ amz +:+ nl +:+ credential_scope +:+ nl
    +:+ sha256 canonical_request in
  let signing_key := get_signature_key self ds SERVICE_REGION SERVICE_NAME in
  let signature := hex (hmac_sha256 (encode string_to_sign) signing_key) in
  let uri := AWS_BASE_URL +:+ "?" +:+ canonical_query in
  let authorisation :=
    ALGORITHM +:+ " Credential=" +:+ access_id self +:+ "/" +:+ credential_scope
    +:+ ", SignedHeaders=" +:+ signed_headers +:+ ", Signature=" +:+ signature in
  let request := request self uri authorisation amz in
  mret request.

End WithHash.
End Legacy.

(** *** The specification of the request builder *)

Section Spec.
Context `{HashFn}.

(** The canonical request of Signature Version 4 for a GET with an empty
    payload and the headers [host] and [x-amz-date]. *)
Definition canonical_request (endpoint query amz : string) : string :=
  join nl ["GET"; "/api"; query;
           "host:" +:+ endpoint; "x-amz-date:" +:+ amz; "";
           "host;x-amz-date"; hexdigest []].

(** The credential scope: date, region, service and the fixed suffix. *)
Definition credential_scope (ds region : string) : string :=
  join "/" [ds; region; "awis"; "aws4_request"].

(** The string to sign. *)
Definition string_to_sign (endpoint region query amz ds : string) : string :=
  join nl ["AWS4-HMAC-SHA256"; amz; credential_scope ds region;
           hexdigest (encode (canonical_request endpoint query amz))].

(** The signature: the HMAC of the string to sign under the signing key, in
    hexadecimal. *)
Definition signature (secret endpoint region query amz ds : string) : string :=
  hex (hmac (signing_key secret ds region "awis")
            (encode (string_to_sign endpoint region query amz ds))).

(** The value of the [Authorization] header. *)
Definition authorization (self : Pkg.AWIS) (query amz ds : string) : string :=
  "AWS4-HMAC-SHA256 Credential=" +:+ Pkg.access_id self +:+ "/"
  +:+ credential_scope ds (Pkg.SERVICE_REGION self)
  +:+ ", SignedHeaders=host;x-amz-date, Signature="
  +:+ signature (Pkg.secret_access_key self) (Pkg.SERVICE_ENDPOINT self)
        (Pkg.SERVICE_REGION self) query amz ds.

(** [netloc url]: the host part of a URL, between [://] and the next [/],
    [?] or [#]: where a request for the URL goes. *)
Fixpoint skip_scheme (url : string) : string :=
  match url with
  | String ":" (String "/" (String "/" rest)) => rest
  | String _ url' => skip_scheme url'
  | EmptyString => EmptyString
  end.

Fixpoint take_host (s : string) : string :=
  match s with
  | String c s' =>
      if bool_decide (c ∈ ["/"; "?"; "#"]%char) then EmptyString else String c (take_host s')
  | EmptyString => EmptyString
  end.

Definition netloc (url : string) : string := take_host (skip_scheme url).

(** [signed_request self query amz ds]: the request for [query], signed at
    the time stamp [amz] with the date stamp [ds]. *)
Definition signed_request (self : Pkg.AWIS) (query amz ds : string) : http_request :=
  HttpRequest (Pkg.AWS_BASE_URL self +:+ "?" +:+ query)
    {[ "Accept" := "application/xml";
       "Content-Type" := "application/xml";
       "X-Amz-Date" := amz;
       "Authorization" := authorization self query amz ds ]}.

End Spec.

(** A world in which it is noon (UTC) of the first day of 2020 and the clock
    moves by one second at each of its first four readings. *)
Definition noon_world : World :=
  {| w_clock := 1577880000; w_ticks := [1; 1; 1; 1]; w_utcoff := 0; w_sent := [];
     w_net := λ _ _, Ok (HttpResponse 200 []); w_sched := [] |}.

(** A world in which the clock shows the last second of 2019 and moves by
    one second at its first reading; the network answers every request. *)
Definition midnight_world : World :=
  {| w_clock := 1577836799; w_ticks := [1]; w_utcoff := 0; w_sent := [];
     w_net := λ _ _, Ok (HttpResponse 200 []); w_sched := [] |}.

(** ** Theorems *)

Section RequestFacts.
Context `{HashFn}.

Lemma run_amz_date (w : World) :
  run Pkg.amz_date w = (strftime_amz <$> utcfromtimestamp (w_clock w), tick w).
Proof.
  unfold Pkg.amz_date. rewrite run_bind, run_utcnow.
  destruct utcfromtimestamp; [|done]. by rewrite run_ret, strftime_amz_format.
Qed.

Lemma run_date_stamp (w : World) :
  run Pkg.date_stamp w
  = (strftime_Ymd ∘ dt_date <$> utcfromtimestamp (w_clock w), tick w).
Proof.
  unfold Pkg.date_stamp, Pkg.DATE_STAMP_FORMAT. rewrite run_bind, run_utcnow.
  destruct utcfromtimestamp; [|done]. by rewrite run_ret, strftime_Ymd_format.
Qed.

Lemma canonical_request_eq (self : Pkg.AWIS) (q amz : string) :
  "GET" +:+ nl +:+ Pkg.SERVICE_URI +:+ nl +:+ q +:+ nl
  +:+ ("host:" +:+ Pkg.SERVICE_ENDPOINT self +:+ nl +:+ "x-amz-date:" +:+ amz +:+ nl)
  +:+ nl +:+ "host;x-amz-date" +:+ nl +:+ Pkg.sha256 ""
  = canonical_request (Pkg.SERVICE_ENDPOINT self) q amz.
Proof.
  unfold canonical_request, join, Pkg.SERVICE_URI, Pkg.sha256, hexdigest, nl.
  change (encode "") with (@nil Z). string_eq.
Qed.

Lemma credential_scope_eq (ds region : string) :
  ds +:+ "/" +:+ region +:+ "/" +:+ Pkg.SERVICE_NAME +:+ "/aws4_request"
  = credential_scope ds region.
Proof. unfold credential_scope, join, Pkg.SERVICE_NAME. string_eq. Qed.

Lemma string_to_sign_eq (cr amz scope : string) :
  Pkg.ALGORITHM +:+ nl +:+ amz +:+ nl +:+ scope +:+ nl +:+ Pkg.sha256 cr
  = join nl ["AWS4-HMAC-SHA256"; amz; scope; hexdigest (encode cr)].
Proof. unfold join, Pkg.ALGORITHM, Pkg.sha256, hexdigest, nl. string_eq. Qed.

Lemma authorisation_eq (a scope sig : string) :
  Pkg.ALGORITHM +:+ " Credential=" +:+ a +:+ "/" +:+ scope
  +:+ ", SignedHeaders=" +:+ "host;x-amz-date" +:+ ", Signature=" +:+ sig
  = "AWS4-HMAC-SHA256 Credential=" +:+ a +:+ "/" +:+ scope
    +:+ ", SignedHeaders=host;x-amz-date, Signature=" +:+ sig.
Proof. unfold Pkg.ALGORITHM. string_eq. Qed.

(** The request [create_request] builds and sends is the signed request of
    the specification. *)
Lemma run_create_request_body (self : Pkg.AWIS) (q : string) (s : option session)
    (amz ds : string) (w : World) :
  run (Pkg.create_request_body self q s amz ds) w
  = let r := signed_request self q amz ds in (w_net w (w_sent w) r, send r w).
Proof.
  unfold Pkg.create_request_body.
  rewrite canonical_request_eq, credential_scope_eq, string_to_sign_eq,
    authorisation_eq.
  reflexivity.
Qed.

(** [create_request] on every world: it reads the clock twice, stops at the
    first reading that is not a [datetime], and otherwise sends the signed
    request of the specification. *)
Lemma run_create_request (self : Pkg.AWIS) (q : string) (s : option session) (w : World) :
  run (Pkg.create_request self q s) w
  = match utcfromtimestamp (w_clock w) with
    | Raise e => (Raise e, tick w)
    | Ok t1 =>
        match utcfromtimestamp (w_clock (tick w)) with
        | Raise e => (Raise e, tick (tick w))
        | Ok t2 =>
            let r := signed_request self q (strftime_amz t1) (strftime_Ymd (dt_date t2)) in
            (w_net w (w_sent w) r, send r (tick (tick w)))
        end
    end.
Proof.
  unfold Pkg.create_request. rewrite run_bind, run_amz_date.
  destruct (utcfromtimestamp (w_clock w)) as [t1|e]; [|done]. cbn [fmap result_fmap].
  rewrite run_bind, run_date_stamp.
  destruct (utcfromtimestamp (w_clock (tick w))) as [t2|e]; [|done].
  cbn [fmap result_fmap compose]. by rewrite run_create_request_body.
Qed.

(** C3: Refinement: [create_request] reads the clock twice and sends the signed
    request of the specification, with the time stamp of the first reading
    and the date stamp of the second; its result is the answer of the
    network. *)
Theorem create_request_spec (self : Pkg.AWIS) (q : string) (s : option session)
    (w : World) (t1 t2 : datetime) :
  utcfromtimestamp (w_clock w) = Ok t1 →
  utcfromtimestamp (w_clock (tick w)) = Ok t2 →
  let r := signed_request self q (strftime_amz t1) (strftime_Ymd (dt_date t2)) in
  run (Pkg.create_request self q s) w
  = (w_net w (w_sent w) r, send r (tick (tick w))).
Proof. intros H1 H2. by rewrite run_create_request, H1, H2. Qed.

(** [create_request] sends one request or none, whatever the world: the
    requests sent after the call are the ones sent before, with at most one
    more in front. *)
Theorem create_request_sends_once (self : Pkg.AWIS) (q : string) (s : option session)
    (w : World) :
  let sent := w_sent (run (Pkg.create_request self q s) w).2 in
  sent = w_sent w ∨ ∃ r, sent = r :: w_sent w ∧ req_url r = Pkg.AWS_BASE_URL self +:+ "?" +:+ q.
Proof.
  rewrite run_create_request. destruct (utcfromtimestamp (w_clock w)); [|by left].
  destruct (utcfromtimestamp (w_clock (tick w))); [|by left]. right. by eexists.
Qed.

(** *** What the signed request holds *)

Lemma signed_request_url (self : Pkg.AWIS) (q amz ds : string) :
  req_url (signed_request self q amz ds) = Pkg.AWS_BASE_URL self +:+ "?" +:+ q.
Proof. reflexivity. Qed.

(** The four headers, and no other. *)
Lemma signed_request_headers (self : Pkg.AWIS) (q amz ds : string) :
  let h := req_headers (signed_request self q amz ds) in
  h !! "Accept" = Some "application/xml" ∧
  h !! "Content-Type" = Some "application/xml" ∧
  h !! "X-Amz-Date" = Some amz ∧
  h !! "Authorization" = Some (authorization self q amz ds) ∧
  dom h = {[ "Accept"; "Content-Type"; "X-Amz-Date"; "Authorization" ]}.
Proof.
  simpl. repeat split; by simplify_map_eq.
Qed.

(** The signature is the hexadecimal writing of a digest. *)
Lemma signature_length (secret endpoint region q amz ds : string) :
  String.length (signature secret endpoint region q amz ds) = (2 * digest_size)%nat.
Proof. unfold signature. by rewrite hex_length, hmac_length. Qed.

Lemma signature_chars (secret endpoint region q amz ds : string) :
  forallb is_hex_lower (chars (signature secret endpoint region q amz ds)) = true.
Proof. apply hex_chars, hmac_bytes. Qed.

(** The query is part of the URL as it is: requests for different queries
    differ. *)
Lemma signed_request_query_inj (self : Pkg.AWIS) (q q' amz ds amz' ds' : string) :
  signed_request self q amz ds = signed_request self q' amz' ds' → q = q'.
Proof.
  intros Hr%(f_equal req_url). rewrite !signed_request_url in Hr.
  apply (inj _) in Hr. by apply (inj (String.append "?")) in Hr.
Qed.

(** The time stamp of a request is one of its headers as it is. *)
Lemma signed_request_amz_inj (self : Pkg.AWIS) (q q' amz ds amz' ds' : string) :
  signed_request self q amz ds = signed_request self q' amz' ds' → amz = amz'.
Proof.
  intros Hr%(f_equal (λ r, req_headers r !! "X-Amz-Date")).
  destruct (signed_request_headers self q amz ds) as (_ & _ & H1 & _).
  destruct (signed_request_headers self q' amz' ds') as (_ & _ & H2 & _).
  simpl in *. congruence.
Qed.

(** *** The two readings of the clock *)

(** When both readings fall on the same day, the date of the credential
    scope is the date of the time stamp. *)
Lemma same_day_date_stamp (c1 c2 : Z) (t1 t2 : datetime) :
  utcfromtimestamp c1 = Ok t1 → utcfromtimestamp c2 = Ok t2 →
  c1 / 86400 = c2 / 86400 → dt_date t2 = dt_date t1.
Proof.
  unfold utcfromtimestamp. intros H1 H2 Hd. rewrite Hd in H1.
  destruct (fromordinal _); simplify_eq/=. done.
Qed.

(** C37: Then the request is signed with one date: the date stamp is the date of
    the time stamp. *)
Theorem create_request_same_day (self : Pkg.AWIS) (q : string) (s : option session)
    (w : World) (t1 t2 : datetime) :
  utcfromtimestamp (w_clock w) = Ok t1 →
  utcfromtimestamp (w_clock (tick w)) = Ok t2 →
  w_clock w / 86400 = w_clock (tick w) / 86400 →
  let ds := strftime_Ymd (dt_date t1) in
  run (Pkg.create_request self q s) w
  = (let r := signed_request self q (strftime_amz t1) ds in
     (w_net w (w_sent w) r, send r (tick (tick w)))).
Proof.
  intros H1 H2 Hd. rewrite run_create_request, H1, H2.
  by rewrite (same_day_date_stamp _ _ _ _ H1 H2 Hd).
Qed.

(** The date stamps of two readings agree exactly when the readings fall on
    the same day. *)
Lemma date_stamp_agree (c1 c2 : Z) (t1 t2 : datetime) :
  utcfromtimestamp c1 = Ok t1 → utcfromtimestamp c2 = Ok t2 →
  strftime_Ymd (dt_date t1) = strftime_Ymd (dt_date t2) ↔ c1 / 86400 = c2 / 86400.
Proof.
  intros H1 H2. split; [|intros Hd; by rewrite (same_day_date_stamp _ _ _ _ H1 H2 Hd)].
  revert H1 H2. unfold utcfromtimestamp, fromordinal.
  repeat case_test; intros H1 H2 Hs; simplify_eq/=.
  apply strftime_Ymd_inj in Hs; [|apply ord2ymd_valid; lia..].
  apply (f_equal toordinal) in Hs. rewrite !toordinal_ord2ymd in Hs. lia.
Qed.

(** The date stamps two calls of [date_stamp] return are equal exactly when
    the clock shows the same day (UTC) at both. *)
Theorem date_stamp_same_day (w1 w2 : World) (s1 s2 : string) :
  (run Pkg.date_stamp w1).1 = Ok s1 → (run Pkg.date_stamp w2).1 = Ok s2 →
  s1 = s2 ↔ w_clock w1 / 86400 = w_clock w2 / 86400.
Proof.
  rewrite !run_date_stamp. simpl.
  destruct (utcfromtimestamp (w_clock w1)) as [t1|] eqn:E1; [|done].
  destruct (utcfromtimestamp (w_clock w2)) as [t2|] eqn:E2; [|done].
  intros [= <-] [= <-]. by apply date_stamp_agree.
Qed.

(** C26: Over midnight: when midnight (UTC) passes between the two readings of
    the clock, the request that is sent has a time stamp of one day and a
    credential scope of another. *)
Theorem create_request_rollover (self : Pkg.AWIS) (q : string) (s : option session)
    (w : World) (t1 t2 : datetime) :
  utcfromtimestamp (w_clock w) = Ok t1 →
  utcfromtimestamp (w_clock (tick w)) = Ok t2 →
  w_clock w / 86400 ≠ w_clock (tick w) / 86400 →
  ∃ time, strftime_amz t1 = strftime_Ymd (dt_date t1) +:+ time
    ∧ w_sent (run (Pkg.create_request self q s) w).2
      = signed_request self q (strftime_Ymd (dt_date t1) +:+ time)
          (strftime_Ymd (dt_date t2)) :: w_sent w
    ∧ String.eqb (strftime_Ymd (dt_date t1)) (strftime_Ymd (dt_date t2)) = false.
Proof.
  intros Hc1 Hc2 Hd. destruct (strftime_amz_prefix t1) as (time & Ht & _).
  exists time. split; [done|]. rewrite run_create_request, Hc1, Hc2, <- Ht.
  split; [done|]. apply String.eqb_neq. by rewrite (date_stamp_agree _ _ _ _ Hc1 Hc2).
Qed.

(** C27: The host: the request goes to the host of [AWS_BASE_URL], which is
    [SERVICE_HOST], while the host that is signed, in the canonical request
    under the signature of the [Authorization] header, is the endpoint of
    the region; the two differ whatever the region. *)
Theorem create_request_host (a k region q : string) (s : option session) (w : World)
    (t1 t2 : datetime) :
  let self := Pkg.__init__ a k region in
  let amz := strftime_amz t1 in
  let ds := strftime_Ymd (dt_date t2) in
  let signed_host := "awis." +:+ region +:+ ".amazonaws.com" in
  utcfromtimestamp (w_clock w) = Ok t1 →
  utcfromtimestamp (w_clock (tick w)) = Ok t2 →
  ∃ r, w_sent (run (Pkg.create_request self q s) w).2 = r :: w_sent w
    ∧ netloc (req_url r) = "awis.amazonaws.com"
    ∧ req_headers r !! "Authorization"
      = Some ("AWS4-HMAC-SHA256 Credential=" +:+ a +:+ "/" +:+ credential_scope ds region
              +:+ ", SignedHeaders=host;x-amz-date, Signature="
              +:+ hex (hmac (signing_key k ds region "awis")
                         (encode (join nl ["AWS4-HMAC-SHA256"; amz; credential_scope ds region;
                                           hexdigest (encode
                                             (canonical_request signed_host q amz))]))))
    ∧ String.eqb signed_host (netloc (req_url r)) = false.
Proof.
  intros self amz ds signed_host Hc1 Hc2. rewrite run_create_request, Hc1, Hc2.
  eexists. split; [reflexivity|]. split_and!; [done..|].
  apply (pkg_endpoint_not_host a k region).
Qed.

(** *** The first version *)

(** [create_request] of the first version on every world: two readings of
    the clock, and the signed request of the packaged client in the
    default region, which is not sent. *)
Lemma run_create_request_legacy (self : Legacy.AWIS) (q : string) (w : World) :
  run (Legacy.create_request self q) w
  = match utcfromtimestamp (w_clock w) with
    | Raise e => (Raise e, tick w)
    | Ok t1 =>
        match utcfromtimestamp (w_clock (tick w)) with
        | Raise e => (Raise e, tick (tick w))
        | Ok t2 =>
            (Ok (signed_request (as_pkg self) q (strftime_amz t1)
                   (strftime_Ymd (dt_date t2))), tick (tick w))
        end
    end.
Proof.
  unfold Legacy.create_request.
  change Legacy.amz_date with Pkg.amz_date.
  change Legacy.date_stamp with Pkg.date_stamp.
  rewrite run_bind, run_amz_date.
  destruct (utcfromtimestamp (w_clock w)) as [t1|e]; [|done]. cbn [fmap result_fmap].
  rewrite run_bind, run_date_stamp.
  destruct (utcfromtimestamp (w_clock (tick w))) as [t2|e]; [|done].
  cbn [fmap result_fmap compose].
  change Legacy.SERVICE_URI with Pkg.SERVICE_URI.
  change Legacy.SERVICE_ENDPOINT with (Pkg.SERVICE_ENDPOINT (as_pkg self)).
  change Legacy.SERVICE_REGION with (Pkg.SERVICE_REGION (as_pkg self)).
  change Legacy.SERVICE_NAME with Pkg.SERVICE_NAME.
  change Legacy.ALGORITHM with Pkg.ALGORITHM.
  change (@Legacy.sha256 H) with (@Pkg.sha256 H).
  rewrite canonical_request_eq, credential_scope_eq, string_to_sign_eq,
    authorisation_eq.
  reflexivity.
Qed.

(** C31: [create_request] of the first version returns, unsent, the request the
    packaged client sends in the default region. *)
Theorem create_request_legacy_spec (self : Legacy.AWIS) (q : string)
    (w : World) (t1 t2 : datetime) :
  utcfromtimestamp (w_clock w) = Ok t1 →
  utcfromtimestamp (w_clock (tick w)) = Ok t2 →
  run (Legacy.create_request self q) w
  = (Ok (signed_request (as_pkg self) q (strftime_amz t1) (strftime_Ymd (dt_date t2))),
     tick (tick w)).
Proof. intros H1 H2. by rewrite run_create_request_legacy, H1, H2. Qed.

End RequestFacts.

(** *** The theorems at concrete inputs, with SHA-256 *)

Lemma create_request_spec_witness :
  run (Pkg.create_request example_client "Action=TrafficHistory" None) noon_world
  = (let r := signed_request example_client "Action=TrafficHistory"
                (strftime_amz (DateTime (Date 2020 1 1) 12 0 0))
                (strftime_Ymd (dt_date (DateTime (Date 2020 1 1) 12 0 1))) in
     (w_net noon_world (w_sent noon_world) r, send r (tick (tick noon_world)))).
Proof.
  apply (create_request_spec example_client "Action=TrafficHistory" None noon_world
           (DateTime (Date 2020 1 1) 12 0 0) (DateTime (Date 2020 1 1) 12 0 1));
    reflexivity.
Defined.

Lemma create_request_same_day_witness :
  run (Pkg.create_request example_client "Action=TrafficHistory" None) noon_world
  = (let r := signed_request example_client "Action=TrafficHistory"
                (strftime_amz (DateTime (Date 2020 1 1) 12 0 0))
                (strftime_Ymd (Date 2020 1 1)) in
     (w_net noon_world (w_sent noon_world) r, send r (tick (tick noon_world)))).
Proof.
  apply (create_request_same_day example_client "Action=TrafficHistory" None noon_world
           (DateTime (Date 2020 1 1) 12 0 0) (DateTime (Date 2020 1 1) 12 0 1));
    reflexivity.
Defined.

Lemma create_request_legacy_spec_witness :
  run (Legacy.create_request legacy_client "Action=TrafficHistory") noon_world
  = (Ok (signed_request (as_pkg legacy_client) "Action=TrafficHistory"
           (strftime_amz (DateTime (Date 2020 1 1) 12 0 0))
           (strftime_Ymd (dt_date (DateTime (Date 2020 1 1) 12 0 1)))),
     tick (tick noon_world)).
Proof.
  apply (create_request_legacy_spec legacy_client "Action=TrafficHistory" noon_world
           (DateTime (Date 2020 1 1) 12 0 0) (DateTime (Date 2020 1 1) 12 0 1));
    reflexivity.
Defined.

Lemma date_stamp_same_day_witness :
  "20200101" = "20200101" ↔ w_clock noon_world / 86400 = w_clock (tick noon_world) / 86400.
Proof.
  apply (date_stamp_same_day noon_world (tick noon_world)); reflexivity.
Defined.

Lemma create_request_rollover_witness :
  ∃ time, "20191231T235959Z" = "20191231" +:+ time
    ∧ w_sent (run (Pkg.create_request example_client "Action=TrafficHistory" None)
                midnight_world).2
      = signed_request example_client "Action=TrafficHistory" ("20191231" +:+ time)
          "20200101" :: w_sent midnight_world
    ∧ String.eqb "20191231" "20200101" = false.
Proof.
  apply (create_request_rollover example_client "Action=TrafficHistory" None midnight_world
           (DateTime (Date 2019 12 31) 23 59 59) (DateTime (Date 2020 1 1) 0 0 0));
    by vm_compute.
Defined.

Lemma create_request_host_witness :
  ∃ r, w_sent (run (Pkg.create_request example_client "Action=TrafficHistory" None)
                 noon_world).2 = r :: w_sent noon_world
    ∧ netloc (req_url r) = "awis.amazonaws.com"
    ∧ req_headers r !! "Authorization"
      = Some ("AWS4-HMAC-SHA256 Credential=AKIDEXAMPLE/20200101/us-east-1/awis/aws4_request"
              +:+ ", SignedHeaders=host;x-amz-date, Signature="
              +:+ hex (hmac (signing_key "wJalrXUtnFEMI/K7MDENG+bPxRfiCYEXAMPLEKEY"
                               "20200101" "us-east-1" "awis")
                         (encode (join nl ["AWS4-HMAC-SHA256"; "20200101T120000Z";
                                           "20200101/us-east-1/awis/aws4_request";
                                           hexdigest (encode
                                             (canonical_request "awis.us-east-1.amazonaws.com"
                                                "Action=TrafficHistory"
                                                "20200101T120000Z"))]))))
    ∧ String.eqb "awis.us-east-1.amazonaws.com" (netloc (req_url r)) = false.
Proof.
  apply (create_request_host "AKIDEXAMPLE" "wJalrXUtnFEMI/K7MDENG+bPxRfiCYEXAMPLEKEY"
           "us-east-1" "Action=TrafficHistory" None noon_world
           (DateTime (Date 2020 1 1) 12 0 0) (DateTime (Date 2020 1 1) 12 0 1));
    reflexivity.
Defined.
