(* ===== verification/Planner.v ===== *)
(** * Planner: the sub-queries of a traffic-history query

    [traffic_history] checks its arguments, computes the first day of the
    search and cuts the [search_range] days into sub-queries of at most
    [MAX_SEARCH_RANGE] days, each a canonical query string.  This file models
    the method up to its list of queries: [search_start] is the validation
    and the first day, [query_loop] is the [for] loop and [build_queries] the
    computation of the number of requests with the loop; in the first
    version the loop also builds the signed request of each query.

    [plan] is the specification of the loop: the spans and the first days of
    the sub-queries as numbers.  The theorems: the loop renders [plan] and
    never raises after a successful validation; the sub-queries follow each
    other without gap or overlap and none is longer than the maximum; what
    the spans add up to; the errors of the validation; the query string
    against the canonical query string of Signature Version 4. *)

From stdpp Require Import gmap.
From S2P Require Import Prelude Text Calendar Quote Hash Sha256 World Config Signer Request.

(** ** Definitions *)

Module Pkg.
Export Request.Pkg.

(** The checks of [traffic_history] and the first day of the search. *)
Definition search_start (search_range : Z) (start_date : option string)
    (search_reverse : bool) : io date :=
  if search_range <? 1 then io_raise ValueError "search_range must be at least 1."
  else
    date ← match start_date with
           | None =>
               today ← date_today;
               delta ← lift (timedelta search_range);
               lift (date_sub today delta)
           | Some start_date => lift (strptime_Ymd start_date)
           end;
    date ← (if search_reverse then
              delta ← lift (timedelta search_range);
              lift (date_sub date delta)
            else mret date);
    delta ← lift (timedelta search_range);
    end_date ← lift (date_add date delta);
    today ← date_today;
    if date_ge end_date today then
      io_raise ValueError "Cannot search past today's date"
    else mret date.

(** The canonical query of one sub-query. *)
Definition canonical_query (instance_search_range : Z) (str_date url : string) : string :=
  "Action=TrafficHistory&Range=" +:+ str_of_int instance_search_range
  +:+ "&ResponseGroup=History" +:+ "&Start=" +:+ str_date
  +:+ "&Url=" +:+ quote url.

(** The [for i in range(num_requests)] loop, from the indices [idx] still to
    run, the current [date] and the [queries] so far. *)
Fixpoint query_loop (url : string) (remainder num_requests : Z) (idx : list Z)
    (date : date) (queries : list string) : result (list string) :=
  match idx with
  | [] => Ok queries
  | i :: idx' =>
      let instance_search_range :=
        if bool_decide (i ≠ num_requests - 1) then MAX_SEARCH_RANGE else remainder in
      let str_date := date_strftime DATE_STAMP_FORMAT date in
      let canonical_query := canonical_query instance_search_range str_date url in
      let queries := queries ++ [canonical_query] in
      delta ← timedelta instance_search_range;
      date ← date_add date delta;
      query_loop url remainder num_requests idx' date queries
  end.

(** The number of requests and the list of queries. *)
Definition build_queries (url : string) (search_range : Z) (date : date) :
    result (list string) :=
  let quotient := search_range / MAX_SEARCH_RANGE in
  let remainder := search_range mod MAX_SEARCH_RANGE in
  let num_requests := quotient + Z.min remainder 1 in
  query_loop url remainder num_requests (seqZ 0 num_requests) date [].

(** [traffic_history] up to the call of [bulk_request]: the queries. *)
Definition traffic_history_queries (url : string) (search_range : Z)
    (start_date : option string) (search_reverse : bool) : io (list string) :=
  date ← search_start search_range start_date search_reverse;
  lift (build_queries url search_range date).

End Pkg.

Module Legacy.
Export Request.Legacy.

(** The checks of [traffic_history] and the first day of the search. *)
Definition search_start (search_range : Z) (start_date : option string)
    (search_reverse : bool) : io date :=
  if search_range <? 1 then
    io_raise SearchRangeError
      ("search_range must be at least 1. "
       +:+ "Set search_reverse to True for searching backwards")
  else
    date ← match start_date with
           | None =>
               today ← date_today;
               delta ← lift (timedelta search_range);
               lift (date_sub today delta)
           | Some start_date => lift (strptime_Ymd start_date)
           end;
    date ← (if search_reverse then
              delta ← lift (timedelta search_range);
              lift (date_sub date delta)
            else mret date);
    delta ← lift (timedelta search_range);
    end_date ← lift (date_add date delta);
    today ← date_today;
    if date_ge end_date today then
      io_raise SearchRangeError "Cannot search past today's date"
    else mret date.

(** The canonical query of one sub-query. *)
Definition canonical_query (instance_search_range : Z) (str_date url : string) : string :=
  "Action=TrafficHistory&Range=" +:+ str_of_int instance_search_range
  +:+ "&ResponseGroup=History" +:+ "&Start=" +:+ str_date
  +:+ "&Url=" +:+ quote url.

Section WithHash.
Context `{HashFn}.

(** The [for] loop: each turn builds the signed request of its query. *)
Fixpoint request_loop (self : AWIS) (url : string) (remainder num_requests : Z)
    (idx : list Z) (date : date) (reqs : list AsyncRequest) : io (list AsyncRequest) :=
  match idx with
  | [] => mret reqs
  | i :: idx' =>
      let instance_search_range :=
        if bool_decide (i ≠ num_requests - 1) then MAX_SEARCH_RANGE else remainder in
      let str_date := date_strftime DATE_STAMP_FORMAT date in
      let canonical_query := canonical_query instance_search_range str_date url in
      req ← create_request self canonical_query;
      let reqs := reqs ++ [req] in
      delta ← lift (timedelta instance_search_range);
      date ← lift (date_add date delta);
      request_loop self url remainder num_requests idx' date reqs
  end.

(** The number of requests and the list of requests. *)
Definition build_requests (self : AWIS) (url : string) (search_range : Z)
    (date : date) : io (list AsyncRequest) :=
  let quotient := search_range / MAX_SEARCH_RANGE in
  let remainder := search_range mod MAX_SEARCH_RANGE in
  let num_requests := quotient + Z.min remainder 1 in
  request_loop self url remainder num_requests (seqZ 0 num_requests) date [].

(** [traffic_history] up to the call of [grequests.map]: the requests. *)
Definition traffic_history_requests (self : AWIS) (url : string) (search_range : Z)
    (start_date : option string) (search_reverse : bool) : io (list AsyncRequest) :=
  date ← search_start search_range start_date search_reverse;
  build_requests self url search_range date.

End WithHash.
End Legacy.

(** *** The specification of the loop *)

(** [num_requests r]: the number of sub-queries for [r] days. *)
Definition num_requests (search_range : Z) : Z :=
  search_range / 31 + Z.min (search_range mod 31) 1.

(** [instance_range r i]: the span of the sub-query of index [i]. *)
Definition instance_range (search_range i : Z) : Z :=
  if bool_decide (i ≠ num_requests search_range - 1) then 31
  else search_range mod 31.

(** [plan r start]: the span and the ordinal of the first day of each
    sub-query, for [r] days from the day of ordinal [start]. *)
Definition plan (search_range start : Z) : list (Z * Z) :=
  (λ i, (instance_range search_range i, start + 31 * i))
    <$> seqZ 0 (num_requests search_range).

(** [render url q]: the canonical query of a sub-query of the plan. *)
Definition render (url : string) (q : Z * Z) : string :=
  Pkg.canonical_query q.1 (strftime_Ymd (ord2ymd q.2)) url.

(** [contiguous l]: each sub-query starts on the day after the last day of
    the one before. *)
Fixpoint contiguous (l : list (Z * Z)) : Prop :=
  match l with
  | q1 :: (q2 :: _) as l' => q2.2 = q1.2 + q1.1 ∧ contiguous l'
  | _ => True
  end.

(** [covered l]: the number of days the sub-queries span. *)
Definition covered (l : list (Z * Z)) : Z := sumZ (fst <$> l).

(** [start_ordinal r first rev]: the ordinal of the first day of the
    search, from the day given or computed and the direction. *)
Definition start_ordinal (r : Z) (first : Z) (rev : bool) : Z :=
  first - (if rev then r else 0).

(** The parameters of one sub-query, as the service reads them from the URL
    of the request: their names and their values before any encoding. *)
Definition traffic_history_params (r : Z) (d : date) (url : string) :
    list (string * string) :=
  [("Action", "TrafficHistory"); ("Url", url); ("ResponseGroup", "History");
   ("Range", str_of_int r); ("Start", strftime_Ymd d)].

(** A world in which it is noon (UTC) of the first day of 2020 and the clock
    stands still. *)
Definition example_world : World :=
  {| w_clock := 1577880000; w_ticks := []; w_utcoff := 0; w_sent := [];
     w_net := λ _ _, Ok (HttpResponse 200 []); w_sched := [] |}.

(** ** Theorems *)

(** *** The queries *)

Lemma strftime_Ymd_unreserved (d : date) :
  valid_date d → forallb always_safe (encode (strftime_Ymd d)) = true.
Proof.
  intros (_ & Hm & Hd). unfold strftime_Ymd. rewrite !encode_app, !forallb_app.
  pose proof (month_end_bound (is_leap (year d)) (month d) Hm).
  rewrite days_in_month_dim in Hd.
  rewrite str_of_int_unreserved, !pad2_unreserved; [done | |]; lia.
Qed.

(** The canonical query string of the service, with the parameters in the
    order of their names. *)
Lemma sigv4_query_traffic_history (url range start : string) :
  sigv4_query [("Action", "TrafficHistory"); ("Url", url); ("ResponseGroup", "History");
               ("Range", range); ("Start", start)]
  = "Action=TrafficHistory&Range=" +:+ uri_encode range
    +:+ "&ResponseGroup=History" +:+ "&Start=" +:+ uri_encode start
    +:+ "&Url=" +:+ uri_encode url.
Proof. reflexivity. Qed.

(** C28: The query that is signed is the canonical query string the service
    computes from the parameters of the request (sorted by name, names and
    values URI-encoded) exactly when the URL holds no slash: [quote] keeps
    the slash, the service writes it [%2F]. *)
Theorem canonical_query_sigv4 (r : Z) (d : date) (url : string) :
  valid_date d →
  Pkg.canonical_query r (strftime_Ymd d) url = sigv4_query (traffic_history_params r d url)
  ↔ 47 ∉ encode url.
Proof.
  intros Hd. unfold traffic_history_params. rewrite sigv4_query_traffic_history.
  rewrite !uri_encode_safe by auto using str_of_int_unreserved, strftime_Ymd_unreserved.
  rewrite <- quote_uri_encode. unfold Pkg.canonical_query.
  split; [intros H | by intros ->]. by repeat apply (inj (String.append _)) in H.
Qed.

(** *** The plan *)

Lemma num_requests_ceil (r : Z) : 1 ≤ r → num_requests r = (r + 30) / 31.
Proof. intros Hr. unfold num_requests. Z.div_mod_to_equations. lia. Qed.

Lemma num_requests_pos (r : Z) : 1 ≤ r → 1 ≤ num_requests r.
Proof. intros Hr. unfold num_requests. Z.div_mod_to_equations. lia. Qed.

Lemma plan_length (r s : Z) : length (plan r s) = Z.to_nat (num_requests r).
Proof. unfold plan. by rewrite length_fmap, length_seqZ. Qed.

(** All sub-queries but the last span the maximum; the last one spans the
    remainder of the division. *)
Lemma plan_snoc (r s : Z) :
  1 ≤ r →
  plan r s = ((λ i, (31, s + 31 * i)) <$> seqZ 0 (num_requests r - 1))
             ++ [(r mod 31, s + 31 * (num_requests r - 1))].
Proof.
  intros Hr. pose proof (num_requests_pos r Hr) as Hn. unfold plan.
  replace (num_requests r) with ((num_requests r - 1) + 1) at 1 by lia.
  rewrite seqZ_app, fmap_app by lia. f_equal.
  - apply list_fmap_ext. intros k i [-> Hi]%lookup_seqZ.
    unfold instance_range. by rewrite bool_decide_eq_true_2 by lia.
  - simpl. unfold instance_range. rewrite bool_decide_eq_false_2 by lia.
    do 3 f_equal; lia.
Qed.

Lemma covered_plan (r s : Z) :
  1 ≤ r → covered (plan r s) = 31 * (num_requests r - 1) + r mod 31.
Proof.
  intros Hr. pose proof (num_requests_pos r Hr). unfold covered.
  rewrite plan_snoc, fmap_app, <- list_fmap_compose, sumZ_app by done.
  rewrite (const_fmap _ _ 31) by done. rewrite length_seqZ, sumZ_replicate.
  simpl. lia.
Qed.

(** When the number of days is no multiple of 31, the sub-queries span
    them all. *)
Lemma covered_plan_remainder (r s : Z) :
  1 ≤ r → r mod 31 ≠ 0 → covered (plan r s) = r.
Proof.
  intros Hr Hm. rewrite covered_plan by done. unfold num_requests.
  Z.div_mod_to_equations. lia.
Qed.

(** When it is a multiple of 31, the last sub-query is empty and the last
    31 days are not asked for. *)
Lemma covered_plan_multiple (r s : Z) :
  1 ≤ r → r mod 31 = 0 → covered (plan r s) = r - 31.
Proof.
  intros Hr Hm. rewrite covered_plan by done. unfold num_requests.
  Z.div_mod_to_equations. lia.
Qed.

Lemma plan_last (r s : Z) :
  1 ≤ r → last (plan r s) = Some (r mod 31, s + 31 * (num_requests r - 1)).
Proof. intros Hr. by rewrite plan_snoc, last_snoc. Qed.

Lemma contiguous_fmap (f : Z → Z) (s : Z) (i : Z) (n : nat) :
  (∀ j, i ≤ j < i + Z.of_nat n - 1 → f j = 31) →
  contiguous ((λ j, (f j, s + 31 * j)) <$> seqZ i (Z.of_nat n)).
Proof.
  revert i. induction n as [|n IH]; intros i Hf; [done|].
  rewrite seqZ_cons by lia. rewrite fmap_cons.
  replace (Z.pred (Z.of_nat (S n))) with (Z.of_nat n) by lia.
  destruct n as [|n]; [done|].
  specialize (IH (Z.succ i) ltac:(intros; apply Hf; lia)).
  rewrite seqZ_cons in IH |- * by lia. rewrite fmap_cons in IH |- *.
  split; [|done]. simpl. rewrite Hf; lia.
Qed.

(** The sub-queries follow each other without gap or overlap. *)
Lemma plan_contiguous (r s : Z) : contiguous (plan r s).
Proof.
  unfold plan. destruct (Z_le_gt_dec 0 (num_requests r)) as [Hn|Hn].
  - rewrite <- (Z2Nat.id (num_requests r)) at 1 by done.
    apply contiguous_fmap. intros j Hj. unfold instance_range.
    rewrite bool_decide_eq_true_2; [done | lia].
  - by rewrite seqZ_nil by lia.
Qed.

(** No sub-query is longer than the maximum of the service. *)
Lemma plan_bounded (r s : Z) :
  Forall (λ q, 0 ≤ q.1 ≤ 31) (plan r s).
Proof.
  unfold plan. apply Forall_fmap, Forall_forall. intros i _. simpl.
  unfold instance_range. case_bool_decide; [lia|]. Z.div_mod_to_equations. lia.
Qed.

(** The first sub-query starts on the first day. *)
Lemma plan_head (r s : Z) : 1 ≤ r → head (plan r s) = Some (instance_range r 0, s).
Proof.
  intros Hr. pose proof (num_requests_pos r Hr). unfold plan.
  rewrite seqZ_cons by lia. simpl. do 3 f_equal; lia.
Qed.

(** Every sub-query lies within the days of the search. *)
Lemma plan_within (r s : Z) :
  1 ≤ r → Forall (λ q, s ≤ q.2 ∧ q.2 + q.1 ≤ s + r) (plan r s).
Proof.
  intros Hr. unfold plan. apply Forall_fmap, Forall_forall.
  intros i [Hi1 Hi2]%elem_of_seqZ. simpl. unfold instance_range, num_requests in *.
  case_bool_decide; Z.div_mod_to_equations; lia.
Qed.

(** With a remainder of 0 every sub-query ends 31 days or more before the
    end of the search. *)
Lemma plan_before_last_month (r s : Z) :
  1 ≤ r → r mod 31 = 0 → Forall (λ q, q.2 + q.1 ≤ s + r - 31) (plan r s).
Proof.
  intros Hr Hm. unfold plan. apply Forall_fmap, Forall_forall.
  intros i [Hi1 Hi2]%elem_of_seqZ. simpl. unfold instance_range, num_requests in *.
  case_bool_decide; Z.div_mod_to_equations; lia.
Qed.

(** Without a remainder of 0 no sub-query is empty. *)
Lemma plan_spans_pos (r s : Z) :
  r mod 31 ≠ 0 → Forall (λ q, 1 ≤ q.1 ≤ 31) (plan r s).
Proof.
  intros Hm. unfold plan. apply Forall_fmap, Forall_forall. intros i _. simpl.
  unfold instance_range. case_bool_decide; [lia|]. Z.div_mod_to_equations. lia.
Qed.

(** *** The loop renders the plan *)

Lemma query_loop_spec (url : string) (rem n s : Z) (k : nat) :
  0 ≤ rem ≤ 31 →
  ∀ (i : Z) (date : date) (queries : list string),
  let range j := if bool_decide (j ≠ n - 1) then 31 else rem in
  valid_date date → toordinal date = s + 31 * i →
  i + Z.of_nat k ≤ n →
  (∀ j, i ≤ j < i + Z.of_nat k → s + 31 * j + range j ≤ MAXORDINAL) →
  Pkg.query_loop url rem n (seqZ i (Z.of_nat k)) date queries
  = Ok (queries ++ (render url <$> ((λ j, (range j, s + 31 * j)) <$> seqZ i (Z.of_nat k)))).
Proof.
  intros Hrem. induction k as [|k IH]; intros i date queries range Hv Ho Hn Hmax.
  { simpl. by rewrite app_nil_r. }
  rewrite seqZ_cons by lia.
  replace (Z.pred (Z.of_nat (S k))) with (Z.of_nat k) by lia.
  cbn [Pkg.query_loop fmap list_fmap].
  change (if bool_decide (i ≠ n - 1) then Pkg.MAX_SEARCH_RANGE else rem) with (range i).
  assert (0 ≤ range i ≤ 31) as Hr by (unfold range; case_bool_decide; lia).
  rewrite timedelta_small by (rewrite Z.abs_eq; lia). cbn [mbind result_bind].
  pose proof (toordinal_range date Hv) as Hd.
  specialize (Hmax i ltac:(lia)) as Hi.
  destruct (date_add_ok date (range i) Hv ltac:(lia)) as (d' & -> & Hv' & Ho').
  cbn [mbind result_bind]. unfold Pkg.DATE_STAMP_FORMAT.
  rewrite date_strftime_Ymd.
  assert (render url (range i, s + 31 * i)
          = Pkg.canonical_query (range i) (strftime_Ymd date) url) as ->.
  { unfold render. simpl. by rewrite <- Ho, ord2ymd_toordinal. }
  destruct (decide (k = 0%nat)) as [->|Hk]; [done|].
  rewrite IH; [|done| |lia|intros; apply Hmax; lia].
  - by rewrite <- app_assoc.
  - rewrite Ho', Ho. unfold range. rewrite bool_decide_eq_true_2 by lia. lia.
Qed.

(** Refinement: when the last day of the search is a date, the loop does
    not raise and its queries are the plan, rendered. *)
Lemma build_queries_plan (url : string) (r : Z) (date : date) :
  1 ≤ r → valid_date date → toordinal date + r ≤ MAXORDINAL →
  Pkg.build_queries url r date = Ok (render url <$> plan r (toordinal date)).
Proof.
  intros Hr Hv Hmax. pose proof (num_requests_pos r Hr) as Hn.
  unfold Pkg.build_queries, Pkg.MAX_SEARCH_RANGE, plan. fold (num_requests r).
  replace (seqZ 0 (num_requests r))
    with (seqZ 0 (Z.of_nat (Z.to_nat (num_requests r)))) by (f_equal; lia).
  rewrite (query_loop_spec url (r mod 31) (num_requests r) (toordinal date));
    [done| |done|lia|lia|].
  - Z.div_mod_to_equations. lia.
  - intros j Hj. unfold num_requests in *. case_bool_decide; Z.div_mod_to_equations; lia.
Qed.

(** C10: When the number of days is no multiple of 31, the queries divide the
    days of the search: they start on the first day, follow each other
    without gap or overlap, span 1 to 31 days each and [search_range] days
    together. *)
Theorem build_queries_partition (url : string) (r : Z) (d : date) :
  1 ≤ r → r mod 31 ≠ 0 → valid_date d → toordinal d + r ≤ MAXORDINAL →
  let l := plan r (toordinal d) in
  Pkg.build_queries url r d = Ok (render url <$> l) ∧
  snd <$> head l = Some (toordinal d) ∧ contiguous l ∧
  Forall (λ q, 1 ≤ q.1 ≤ 31) l ∧ covered l = r.
Proof.
  intros Hr Hm Hv Hmax. split; [by apply build_queries_plan|].
  rewrite plan_head by done.
  auto using plan_contiguous, plan_spans_pos, covered_plan_remainder.
Qed.

(** C6: When the number of days is a multiple of 31, the loop builds
    [search_range / 31] queries, and the last of them asks for a range of 0
    days from the day 31 days before the end of the search. *)
Theorem build_queries_multiple_of_31 (url : string) (r : Z) (d : date) :
  1 ≤ r → r mod 31 = 0 → valid_date d → toordinal d + r ≤ MAXORDINAL →
  ∃ qs, Pkg.build_queries url r d
        = Ok (qs ++ [Pkg.canonical_query 0
                       (strftime_Ymd (ord2ymd (toordinal d + r - 31))) url])
        ∧ length qs = Z.to_nat (r / 31 - 1).
Proof.
  intros Hr Hm Hv Hmax. rewrite build_queries_plan, plan_snoc by done.
  assert (num_requests r - 1 = r / 31 - 1) as ->
    by (unfold num_requests; Z.div_mod_to_equations; lia).
  rewrite fmap_app, Hm. eexists. split.
  - do 2 f_equal. unfold render. simpl. do 4 f_equal. Z.div_mod_to_equations. lia.
  - by rewrite !length_fmap, length_seqZ.
Qed.

(** C14: When the number of days is a multiple of 31, the queries leave the last
    31 days of the search out: they start on the first day, follow each
    other without gap or overlap, and end 31 days before the end of the
    search; together they span [search_range - 31] days. *)
Theorem build_queries_multiple_of_31_days (url : string) (r : Z) (d : date) :
  1 ≤ r → r mod 31 = 0 → valid_date d → toordinal d + r ≤ MAXORDINAL →
  let l := plan r (toordinal d) in
  Pkg.build_queries url r d = Ok (render url <$> l) ∧
  snd <$> head l = Some (toordinal d) ∧ contiguous l ∧
  Forall (λ q, q.2 + q.1 ≤ toordinal d + r - 31) l ∧ covered l = r - 31.
Proof.
  intros Hr Hm Hv Hmax. split; [by apply build_queries_plan|].
  rewrite plan_head by done.
  auto using plan_contiguous, plan_before_last_month, covered_plan_multiple.
Qed.

(** *** The validation *)

(** C33: A [search_range] below 1 is rejected before the clock is read: the
    world is as it was. *)
Theorem search_start_range_error (r : Z) (sd : option string) (rev : bool) (w : World) :
  r < 1 →
  run (Pkg.search_start r sd rev) w
  = (raise ValueError "search_range must be at least 1.", w).
Proof. intros Hr. unfold Pkg.search_start. by rewrite (proj2 (Z.ltb_lt _ _)). Qed.

(** [io_inv]: what the successful calls of the calendar in the context
    say of their results. *)
Ltac io_inv :=
  repeat match goal with
  | H : timedelta _ = Ok _ |- _ => apply timedelta_inv in H; subst
  | H : date_sub _ _ = Ok _ |- _ => apply date_sub_inv in H as (? & ? & ?)
  | H : date_add _ _ = Ok _ |- _ => apply date_add_inv in H as (? & ? & ?)
  | H : strptime_Ymd _ = Ok _ |- _ => apply strptime_Ymd_valid in H
  | H : local_date _ _ = Ok _ |- _ => pose proof (local_date_valid _ _ _ H); revert H
  end.

(** The checks send nothing. *)
Lemma search_start_silent (r : Z) (sd : option string) (rev : bool) :
  silent (Pkg.search_start r sd rev).
Proof.
  unfold Pkg.search_start. destruct (r <? 1), sd, rev; auto with awis;
    repeat (apply silent_bind; [auto with awis|intros ?]);
    try destruct (date_ge _ _); auto with awis.
Qed.

Lemma search_start_sent (r : Z) (sd : option string) (rev : bool) (w w' : World)
    (x : result date) :
  run (Pkg.search_start r sd rev) w = (x, w') → w_sent w' = w_sent w.
Proof. intros Hrun. destruct (search_start_silent r sd rev w) as [Hs _]. by rewrite Hrun in Hs. Qed.

(** What a call that passes the checks says of its first day: it is a
    date, and the search ends before the day of the last reading of the
    clock. *)
Lemma search_start_inv (r : Z) (sd : option string) (rev : bool) (w w' : World) (d : date) :
  run (Pkg.search_start r sd rev) w = (Ok d, w') →
  1 ≤ r ∧ valid_date d ∧
  ∃ w0 t, w' = tick w0 ∧ today_of w0 = Ok t ∧ toordinal d + r < toordinal t.
Proof.
  unfold Pkg.search_start. case_test; [done|]. apply Z.ltb_ge in E.
  destruct sd as [s|], rev; cbn; unfold today_of;
    repeat (case_match; cbn; try done); intros; simplify_eq; io_inv; intros;
    (split; [done|]); (split; [done|]); eexists _, _; (split; [done|]);
    (split; [done|]).
  all: match goal with H : date_ge _ _ = false |- _ =>
         rewrite date_ge_toordinal in H by done; lia end.
Qed.

(** The checks after the first day is known: the shift of a reverse search
    and the comparison with today. *)
Ltac io_simpl := cbn [run mbind io_bind lift mret io_ret io_raise date_today fst snd].

Lemma search_start_tail (r : Z) (rev : bool) (d0 t : date) (w : World) :
  1 ≤ r → valid_date d0 → today_of w = Ok t →
  let o := start_ordinal r (toordinal d0) rev in
  1 ≤ o → o + r ≤ MAXORDINAL →
  run (date ← (if rev then delta ← lift (timedelta r); lift (date_sub d0 delta)
               else mret d0);
       delta ← lift (timedelta r);
       end_date ← lift (date_add date delta);
       today ← date_today;
       if date_ge end_date today then
         io_raise ValueError "Cannot search past today's date"
       else mret date) w
  = (if toordinal t <=? o + r then raise ValueError "Cannot search past today's date"
     else Ok (ord2ymd o), tick w).
Proof.
  intros Hr Hv Ht o. pose proof (toordinal_range d0 Hv).
  pose proof (local_date_valid _ _ _ Ht) as Hvt.
  assert (o = if rev then toordinal d0 - r else toordinal d0) as Eo
    by (unfold o, start_ordinal; destruct rev; lia).
  clearbody o. intros Ho Hmax.
  assert (r ≤ 999999999) as Hr' by (unfold MAXORDINAL in *; lia).
  assert (valid_date (ord2ymd o)) as Hvo by (apply ord2ymd_valid; lia).
  assert (run (if rev then delta ← lift (timedelta r); lift (date_sub d0 delta)
               else mret d0) w = (Ok (ord2ymd o), w)) as Hs.
  { destruct rev; cbv iota in Eo; subst o; io_simpl.
    - rewrite timedelta_small by lia. io_simpl. by rewrite date_sub_ok by (done || lia).
    - by rewrite ord2ymd_toordinal. }
  rewrite run_bind, Hs. io_simpl. rewrite timedelta_small by lia. io_simpl.
  rewrite date_add_ord by (rewrite ?toordinal_ord2ymd; done || lia). io_simpl.
  fold (today_of w). rewrite Ht, toordinal_ord2ymd.
  rewrite date_ge_toordinal, toordinal_ord2ymd by (done || apply ord2ymd_valid; lia).
  by destruct (_ <=? _).
Qed.

(** C12: With a start date: one reading of the clock, and the first day is the
    date given, moved back by [search_range] days in a reverse search; the
    call raises exactly when the search would end on or after today. *)
Theorem search_start_explicit (r : Z) (s : string) (rev : bool) (d0 t : date) (w : World) :
  1 ≤ r → strptime_Ymd s = Ok d0 → today_of w = Ok t →
  let o := start_ordinal r (toordinal d0) rev in
  1 ≤ o → o + r ≤ MAXORDINAL →
  run (Pkg.search_start r (Some s) rev) w
  = (if toordinal t <=? o + r then raise ValueError "Cannot search past today's date"
     else Ok (ord2ymd o), tick w).
Proof.
  intros Hr Hs Ht o Ho Hmax. unfold Pkg.search_start.
  rewrite (proj2 (Z.ltb_ge _ _)) by lia. rewrite run_bind, run_lift, Hs.
  apply search_start_tail; eauto using strptime_Ymd_valid.
Qed.

(** Without a start date: two readings of the clock, and the first day is
    [search_range] days before the day of the first. *)
Lemma run_search_start_default (r : Z) (rev : bool) (t1 t2 : date) (w : World) :
  1 ≤ r → today_of w = Ok t1 → today_of (tick w) = Ok t2 →
  let o := start_ordinal r (toordinal t1 - r) rev in
  1 ≤ o →
  run (Pkg.search_start r None rev) w
  = (if toordinal t2 <=? o + r then raise ValueError "Cannot search past today's date"
     else Ok (ord2ymd o), tick (tick w)).
Proof.
  intros Hr Ht1 Ht2 o Ho. unfold Pkg.search_start.
  pose proof (local_date_valid _ _ _ Ht1) as Hv1.
  pose proof (toordinal_range t1 Hv1).
  assert (1 ≤ toordinal t1 - r ≤ MAXORDINAL ∧ o + r ≤ MAXORDINAL) as [Hd Hmax]
    by (unfold o, start_ordinal in *; destruct rev; lia).
  assert (r ≤ 999999999) as Hr' by (unfold MAXORDINAL in *; lia).
  rewrite (proj2 (Z.ltb_ge _ _)) by lia. rewrite run_bind.
  assert (run (today ← date_today; delta ← lift (timedelta r);
               lift (date_sub today delta)) w
          = (Ok (ord2ymd (toordinal t1 - r)), tick w)) as ->.
  { rewrite run_bind, run_date_today, Ht1, run_bind_lift, timedelta_small by lia.
    by rewrite run_lift, date_sub_ok. }
  pose proof (search_start_tail r rev (ord2ymd (toordinal t1 - r)) t2 (tick w)) as Ht.
  rewrite toordinal_ord2ymd in Ht. apply Ht; auto using ord2ymd_valid.
Qed.

(** C7: With the default arguments the search ends today: the call raises
    whenever the two readings of the clock fall on the same day. *)
Theorem search_start_default_raises (r : Z) (t : date) (w : World) :
  1 ≤ r < toordinal t → today_of w = Ok t → today_of (tick w) = Ok t →
  run (Pkg.search_start r None false) w
  = (raise ValueError "Cannot search past today's date", tick (tick w)).
Proof.
  intros Hr Ht1 Ht2.
  rewrite (run_search_start_default r false t t) by (unfold start_ordinal; done || lia).
  unfold start_ordinal. by rewrite (proj2 (Z.leb_le _ _)) by lia.
Qed.

(** C39: A search backwards with the default start: the [r] days that end [r]
    days before today. *)
Theorem search_start_default_reverse (r : Z) (t1 t2 : date) (w : World) :
  clock_ok w → today_of w = Ok t1 → today_of (tick w) = Ok t2 →
  1 ≤ r → 2 * r < toordinal t1 →
  run (Pkg.search_start r None true) w
  = (Ok (ord2ymd (toordinal t1 - 2 * r)), tick (tick w)).
Proof.
  intros Hc Ht1 Ht2 Hr Hlt.
  pose proof (local_date_mono _ _ _ _ _ (tick_clock_mono w Hc) Ht1 Ht2).
  rewrite (run_search_start_default r true t1 t2) by (unfold start_ordinal; done || lia).
  unfold start_ordinal. rewrite (proj2 (Z.leb_gt _ _)) by lia. do 3 f_equal. lia.
Qed.

(** With the default arguments no call returns while the clock shows the
    same day at both readings. *)
Theorem search_start_default_never_ok (r : Z) (w : World) :
  today_of (tick w) = today_of w →
  is_ok (run (Pkg.search_start r None false) w).1 = false.
Proof.
  intros Ht. destruct (run _ w) as [[d|e] w'] eqn:E; [|done]. exfalso.
  revert E. unfold Pkg.search_start. case_test; [done|].
  unfold today_of in Ht. cbn.
  repeat (case_match; cbn; try done); intros; simplify_eq.
  rewrite Ht in *. simplify_eq. io_inv; intros.
  match goal with H : date_ge _ _ = false |- _ =>
    rewrite date_ge_toordinal in H by done; lia end.
Qed.

Lemma run_traffic_history_queries (url : string) (r : Z) (sd : option string)
    (rev : bool) (w : World) :
  run (Pkg.traffic_history_queries url r sd rev) w
  = match run (Pkg.search_start r sd rev) w with
    | (Ok d, w') => (Ok (render url <$> plan r (toordinal d)), w')
    | (Raise e, w') => (Raise e, w')
    end.
Proof.
  unfold Pkg.traffic_history_queries. rewrite run_bind.
  destruct (run (Pkg.search_start _ _ _) w) as [[d|e] w'] eqn:E; [|done].
  apply search_start_inv in E as (Hr & Hv & w0 & t & _ & Ht & Hlt).
  pose proof (toordinal_range t (local_date_valid _ _ _ Ht)).
  by rewrite run_lift, build_queries_plan by (done || lia).
Qed.

(** C2: The method up to its queries: after the checks the loop does not raise,
    and its queries are the plan from the first day. *)
Theorem traffic_history_queries_spec (url : string) (r : Z) (sd : option string)
    (rev : bool) (w : World) :
  run (Pkg.traffic_history_queries url r sd rev) w
  = match run (Pkg.search_start r sd rev) w with
    | (Ok d, w') => (Ok (render url <$> plan r (toordinal d)), w')
    | (Raise e, w') => (Raise e, w')
    end.
Proof. apply run_traffic_history_queries. Qed.

(** C11: Every query the method builds is for days before the day the clock
    showed at the last check. *)
Theorem traffic_history_queries_safe (url : string) (r : Z) (sd : option string)
    (rev : bool) (w w' : World) (qs : list string) :
  run (Pkg.traffic_history_queries url r sd rev) w = (Ok qs, w') →
  ∃ d t w0, w' = tick w0 ∧ today_of w0 = Ok t ∧ valid_date d ∧
    qs = render url <$> plan r (toordinal d) ∧
    Forall (λ q, toordinal d ≤ q.2 ∧ q.2 + q.1 < toordinal t) (plan r (toordinal d)).
Proof.
  unfold Pkg.traffic_history_queries. rewrite run_bind.
  destruct (run (Pkg.search_start _ _ _) w) as [[d|e] w1] eqn:E; [|done].
  apply search_start_inv in E as (Hr & Hv & w0 & t & -> & Ht & Hlt).
  pose proof (toordinal_range t (local_date_valid _ _ _ Ht)).
  rewrite run_lift, build_queries_plan by (done || lia). intros [= <-].
  exists d, t, w0. repeat (split; [done|]).
  eapply Forall_impl; [by apply plan_within|]. simpl. intros q ?. lia.
Qed.

(** C38: The two versions run the same checks: the same first day and the same
    readings of the clock, or an exception on both sides. *)
Theorem search_start_legacy (r : Z) (sd : option string) (rev : bool) (w : World) :
  same_outcome (run (Legacy.search_start r sd rev) w) (run (Pkg.search_start r sd rev) w).
Proof.
  unfold Legacy.search_start, Pkg.search_start, same_outcome. case_test; [done|].
  destruct sd, rev; cbn; repeat (case_match; cbn; try done).
Qed.

(** *** The first version *)

Section LegacyLoop.
Context `{HashFn}.

Lemma request_loop_spec (self : Legacy.AWIS) (url : string) (rem n s : Z) (k : nat) :
  0 ≤ rem ≤ 31 →
  ∀ (i : Z) (date : date) (reqs : list Legacy.AsyncRequest) (w : World),
  let range j := if bool_decide (j ≠ n - 1) then 31 else rem in
  valid_date date → toordinal date = s + 31 * i →
  i + Z.of_nat k ≤ n →
  (∀ j, i ≤ j < i + Z.of_nat k → s + 31 * j + range j ≤ MAXORDINAL) →
  run (Legacy.request_loop self url rem n (seqZ i (Z.of_nat k)) date reqs) w
  = run (rs ← mapM_io (Legacy.create_request self)
           (render url <$> ((λ j, (range j, s + 31 * j)) <$> seqZ i (Z.of_nat k)));
         mret (reqs ++ rs)) w.
Proof.
  intros Hrem. induction k as [|k IH]; intros i date reqs w range Hv Ho Hn Hmax.
  { simpl. by rewrite app_nil_r. }
  rewrite seqZ_cons by lia.
  replace (Z.pred (Z.of_nat (S k))) with (Z.of_nat k) by lia.
  cbn [Legacy.request_loop fmap list_fmap].
  change (if bool_decide (i ≠ n - 1) then Legacy.MAX_SEARCH_RANGE else rem) with (range i).
  assert (0 ≤ range i ≤ 31) as Hr by (unfold range; case_bool_decide; lia).
  pose proof (toordinal_range date Hv) as Hd.
  specialize (Hmax i ltac:(lia)) as Hi.
  destruct (date_add_ok date (range i) Hv ltac:(lia)) as (d' & Hadd & Hv' & Ho').
  unfold Legacy.DATE_STAMP_FORMAT. rewrite date_strftime_Ymd.
  assert (render url (range i, s + 31 * i)
          = Legacy.canonical_query (range i) (strftime_Ymd date) url) as ->.
  { unfold render. simpl. by rewrite <- Ho, ord2ymd_toordinal. }
  rewrite !run_bind, run_mapM_io_cons.
  destruct (run (Legacy.create_request _ _) w) as [[req|e] w1]; [|done].
  rewrite run_bind_lift, timedelta_small by (rewrite Z.abs_eq; lia).
  rewrite run_bind_lift, Hadd.
  destruct (decide (k = 0%nat)) as [->|Hk]; [done|].
  rewrite IH; [|done| |lia|intros; apply Hmax; lia].
  - rewrite run_bind. destruct (run (mapM_io _ _) w1) as [[ys|e] w2]; [|done].
    by rewrite !run_ret, <- app_assoc.
  - rewrite Ho', Ho. unfold range. rewrite bool_decide_eq_true_2 by lia. lia.
Qed.

(** C30: The first version builds the signed requests of the queries of the
    plan, one after the other. *)
Theorem build_requests_plan (self : Legacy.AWIS) (url : string) (r : Z) (date : date)
    (w : World) :
  1 ≤ r → valid_date date → toordinal date + r ≤ MAXORDINAL →
  run (Legacy.build_requests self url r date) w
  = run (mapM_io (Legacy.create_request self) (render url <$> plan r (toordinal date))) w.
Proof.
  intros Hr Hv Hmax. pose proof (num_requests_pos r Hr) as Hn.
  unfold Legacy.build_requests, Legacy.MAX_SEARCH_RANGE, plan. fold (num_requests r).
  replace (seqZ 0 (num_requests r))
    with (seqZ 0 (Z.of_nat (Z.to_nat (num_requests r)))) by (f_equal; lia).
  rewrite (request_loop_spec self url (r mod 31) (num_requests r) (toordinal date));
    [| |done|lia|lia|].
  - rewrite run_bind. by destruct (run (mapM_io _ _) w) as [[ys|e] w2].
  - Z.div_mod_to_equations. lia.
  - intros j Hj. unfold num_requests in *. case_bool_decide; Z.div_mod_to_equations; lia.
Qed.

End LegacyLoop.

(** *** The theorems at concrete inputs *)

Lemma canonical_query_sigv4_witness :
  Pkg.canonical_query 31 "20200101" "example.com/a"
  ≠ sigv4_query (traffic_history_params 31 (Date 2020 1 1) "example.com/a").
Proof.
  intros H%(canonical_query_sigv4 31 (Date 2020 1 1) "example.com/a");
    [apply H|]; apply (bool_decide_eq_true_1 _); by vm_compute.
Defined.

Lemma search_start_range_error_witness :
  run (Pkg.search_start 0 None false) example_world
  = (raise ValueError "search_range must be at least 1.", example_world).
Proof. apply search_start_range_error. lia. Defined.

Lemma search_start_explicit_witness :
  run (Pkg.search_start 45 (Some "20191101") false) example_world
  = (Ok (Date 2019 11 1), tick example_world).
Proof.
  apply (search_start_explicit 45 "20191101" false (Date 2019 11 1) (Date 2020 1 1)
           example_world); by vm_compute.
Defined.

Lemma build_queries_partition_witness :
  let l := plan 45 (toordinal (Date 2019 11 1)) in
  Pkg.build_queries "example.com" 45 (Date 2019 11 1) = Ok (render "example.com" <$> l) ∧
  snd <$> head l = Some (toordinal (Date 2019 11 1)) ∧ contiguous l ∧
  Forall (λ q, 1 ≤ q.1 ≤ 31) l ∧ covered l = 45.
Proof. apply build_queries_partition; by vm_compute. Defined.

Lemma build_queries_multiple_of_31_witness :
  ∃ qs, Pkg.build_queries "example.com" 62 (Date 2019 10 1)
        = Ok (qs ++ [Pkg.canonical_query 0
                       (strftime_Ymd (ord2ymd (toordinal (Date 2019 10 1) + 62 - 31)))
                       "example.com"])
        ∧ length qs = Z.to_nat (62 / 31 - 1).
Proof. apply build_queries_multiple_of_31; by vm_compute. Defined.

Lemma build_queries_multiple_of_31_days_witness :
  let l := plan 62 (toordinal (Date 2019 10 1)) in
  Pkg.build_queries "example.com" 62 (Date 2019 10 1) = Ok (render "example.com" <$> l) ∧
  snd <$> head l = Some (toordinal (Date 2019 10 1)) ∧ contiguous l ∧
  Forall (λ q, q.2 + q.1 ≤ toordinal (Date 2019 10 1) + 62 - 31) l ∧ covered l = 62 - 31.
Proof. apply build_queries_multiple_of_31_days; by vm_compute. Defined.

Lemma search_start_default_raises_witness :
  run (Pkg.search_start 31 None false) example_world
  = (raise ValueError "Cannot search past today's date", tick (tick example_world)).
Proof.
  apply (search_start_default_raises 31 (Date 2020 1 1) example_world); by vm_compute.
Defined.

Lemma search_start_default_reverse_witness :
  run (Pkg.search_start 31 None true) example_world
  = (Ok (ord2ymd (toordinal (Date 2020 1 1) - 2 * 31)), tick (tick example_world)).
Proof.
  apply (search_start_default_reverse 31 (Date 2020 1 1) (Date 2020 1 1) example_world);
    by vm_compute.
Defined.

Lemma search_start_default_never_ok_witness :
  is_ok (run (Pkg.search_start 31 None false) example_world).1 = false.
Proof. apply search_start_default_never_ok. reflexivity. Defined.

Lemma traffic_history_queries_safe_witness :
  ∃ d t w0, tick example_world = tick w0 ∧ today_of w0 = Ok t ∧ valid_date d ∧
    render "example.com" <$> plan 45 (toordinal (Date 2019 11 1))
    = render "example.com" <$> plan 45 (toordinal d) ∧
    Forall (λ q, toordinal d ≤ q.2 ∧ q.2 + q.1 < toordinal t) (plan 45 (toordinal d)).
Proof.
  apply (traffic_history_queries_safe "example.com" 45 (Some "20191101") false example_world).
  vm_compute. reflexivity.
Defined.

Lemma build_requests_plan_witness :
  run (Legacy.build_requests legacy_client "example.com" 45 (Date 2019 11 1)) example_world
  = run (mapM_io (Legacy.create_request legacy_client)
           (render "example.com" <$> plan 45 (toordinal (Date 2019 11 1)))) example_world.
Proof. apply build_requests_plan; by vm_compute. Defined.
