(* ===== verification/Xml.v ===== *)
(** * Xml: element trees, as the sources read them

    The part of [lxml.etree] the parsers use: an element with its tag, text
    and children; [iter], the elements of a tree with a given tag in
    document order; [find], the first element an ElementPath of tags
    selects; [text].  Tags are in Clark notation, [{namespace}name]. *)

From S2P Require Import Prelude Text.

(** ** Definitions *)

(** An element: its tag, its attributes, the text before its first child,
    its children, and the text after its end tag. *)
#[local] Unset Elimination Schemes.

Inductive element : Type :=
  | Element (tag : string) (attrib : list (string * string)) (text : option string)
      (children : list element) (tail : option string).

#[local] Set Elimination Schemes.

Definition tag (e : element) : string := let 'Element t _ _ _ _ := e in t.
Definition attrib (e : element) : list (string * string) := let 'Element _ a _ _ _ := e in a.
Definition text (e : element) : option string := let 'Element _ _ x _ _ := e in x.
Definition children (e : element) : list element := let 'Element _ _ _ c _ := e in c.
Definition tail (e : element) : option string := let 'Element _ _ _ _ x := e in x.

(** [has_tag t e]: the test of [iter] and of a step of a path, for a tag
    without wildcard. *)
Definition has_tag (t : string) (e : element) : Prop := tag e = t.

#[export] Instance has_tag_dec (t : string) (e : element) : Decision (has_tag t e).
Proof. unfold has_tag. apply _. Defined.

(** [descendants e]: [e] and the elements below it, in document order. *)
Fixpoint descendants (e : element) : list element :=
  let 'Element _ _ _ cs _ := e in
  e :: (fix go (l : list element) : list element :=
          match l with
          | [] => []
          | c :: l' => descendants c ++ go l'
          end) cs.

(** [e.iter(t)] *)
Definition iter (t : string) (e : element) : list element :=
  filter (has_tag t) (descendants e).

(** [size e]: the number of elements of the tree. *)
Definition size (e : element) : nat := length (descendants e).

(** [split_path_chars depth cur l]: the steps of a path, cut at each [/]
    that is not within the braces of a namespace; [cur] holds the
    characters of the current step, latest first. *)
Fixpoint split_path_chars (in_braces : bool) (cur : list ascii) (l : list ascii) :
    list string :=
  match l with
  | [] => [Text.text (rev cur)]
  | c :: l' =>
      if in_braces then
        split_path_chars (negb (Ascii.eqb c "}")) (c :: cur) l'
      else if Ascii.eqb c "/" then Text.text (rev cur) :: split_path_chars false [] l'
      else split_path_chars (Ascii.eqb c "{") (c :: cur) l'
  end.

(** The steps of an ElementPath that is made of tags and [/]. *)
Definition split_path (path : string) : list string :=
  split_path_chars false [] (chars path).

(** One step of a path: the children with the tag, of each element of the
    context in turn. *)
Definition select_child (t : string) (ctx : list element) : list element :=
  ctx ≫= λ e, filter (has_tag t) (children e).

(** [e.findall(path)] *)
Definition findall (path : string) (e : element) : list element :=
  foldl (λ ctx t, select_child t ctx) [e] (split_path path).

(** [e.find(path)]: the first match, or [None]. *)
Definition find (path : string) (e : element) : option element :=
  head (findall path e).

(** ** Theorems *)

(** Induction on elements, with the hypothesis on every child. *)
Lemma element_ind (P : element → Prop) :
  (∀ t a x cs tl, Forall P cs → P (Element t a x cs tl)) → ∀ e, P e.
Proof.
  intros HP. fix IH 1. intros [t a x cs tl]. apply HP.
  induction cs as [|c cs IHcs]; constructor; [apply IH | apply IHcs].
Qed.

(** [descendants] of an element: itself, then the descendants of its
    children in order. *)
Lemma descendants_eq (e : element) :
  descendants e = e :: (children e ≫= descendants).
Proof. by destruct e. Qed.

Lemma size_pos (e : element) : (1 ≤ size e)%nat.
Proof. unfold size. rewrite descendants_eq. simpl. lia. Qed.

(** The children of an element are among its descendants, and the
    descendants of a descendant are descendants. *)
Lemma child_descendant (e c : element) : c ∈ children e → c ∈ descendants e.
Proof.
  intros Hc. rewrite descendants_eq. apply elem_of_cons. right.
  apply list_elem_of_bind. exists c. split; [|done].
  rewrite descendants_eq. by left.
Qed.

Lemma descendants_trans (e : element) :
  ∀ d x, d ∈ descendants e → x ∈ descendants d → x ∈ descendants e.
Proof.
  induction e as [t a tx cs tl IH] using element_ind. intros d x Hd Hx.
  rewrite descendants_eq in Hd |- *. simpl in *.
  apply elem_of_cons in Hd as [->|Hd]; [by rewrite descendants_eq in Hx|].
  apply elem_of_cons. right.
  apply list_elem_of_bind in Hd as (c & Hd & Hc). apply list_elem_of_bind.
  exists c. split; [|done]. rewrite Forall_forall in IH. by eapply IH.
Qed.

(** [iter] gives elements of the tree with the tag, and all of them. *)
Lemma elem_of_iter (t : string) (e x : element) :
  x ∈ iter t e ↔ x ∈ descendants e ∧ tag x = t.
Proof.
  unfold iter. rewrite list_elem_of_filter. unfold has_tag. tauto.
Qed.

Lemma iter_length (t : string) (e : element) : (length (iter t e) ≤ size e)%nat.
Proof. apply length_filter. Qed.

(** One step selects among the children. *)
Lemma elem_of_select_child (t : string) (ctx : list element) (x : element) :
  x ∈ select_child t ctx ↔ ∃ e, e ∈ ctx ∧ x ∈ children e ∧ tag x = t.
Proof.
  unfold select_child. rewrite list_elem_of_bind. apply exist_proper. intros e.
  rewrite list_elem_of_filter. unfold has_tag. tauto.
Qed.

(** What [find] returns is below the element. *)
Lemma findall_descendants (steps : list string) (e : element) :
  ∀ ctx, Forall (λ x, x ∈ descendants e) ctx →
  Forall (λ x, x ∈ descendants e) (foldl (λ ctx t, select_child t ctx) ctx steps).
Proof.
  induction steps as [|t steps IH]; intros ctx Hctx; [done|]. simpl. apply IH.
  apply Forall_forall. intros x (c & Hc & Hx & _)%elem_of_select_child.
  rewrite Forall_forall in Hctx. eauto using descendants_trans, child_descendant.
Qed.

Lemma find_descendant (path : string) (e x : element) :
  find path e = Some x → x ∈ descendants e.
Proof.
  unfold find, findall. intros Hx%head_Some_elem_of.
  assert (Forall (λ x, x ∈ descendants e) [e]) as H0.
  { apply Forall_singleton. rewrite descendants_eq. by left. }
  pose proof (findall_descendants (split_path path) e [e] H0) as H.
  rewrite Forall_forall in H. by apply H.
Qed.

(** What [find] returns with a path of one step: the first child with the
    tag. *)
Lemma find_child (t : string) (e : element) :
  split_path t = [t] → find t e = head (filter (has_tag t) (children e)).
Proof.
  intros Hp. unfold find, findall. rewrite Hp. simpl. by rewrite app_nil_r.
Qed.

(** [find] gives [None] exactly when no element matches. *)
Lemma find_None (path : string) (e : element) :
  find path e = None ↔ findall path e = [].
Proof. unfold find. by destruct (findall path e). Qed.

(** The paths of the sources.  The [/] of the namespace are within braces
    and do not cut the path. *)
Example split_path_tag :
  split_path "{http://awis.amazonaws.com/doc/2005-07-11}Date"
  = ["{http://awis.amazonaws.com/doc/2005-07-11}Date"].
Proof. reflexivity. Qed.

Example split_path_two_steps :
  split_path ("{http://awis.amazonaws.com/doc/2005-07-11}Reach/"
              +:+ "{http://awis.amazonaws.com/doc/2005-07-11}PerMillion")
  = ["{http://awis.amazonaws.com/doc/2005-07-11}Reach";
     "{http://awis.amazonaws.com/doc/2005-07-11}PerMillion"].
Proof. reflexivity. Qed.
