(* ===== verification/Numeric.v ===== *)
(** * Numeric: [int()] and [float()] of a string

    [int(s)] and [float(s)] as CPython computes them for a [str] of ASCII
    characters: surrounding white space, a sign, digits with single
    underscores between them and, for [float], a fraction, an exponent and
    the names of the infinities and of NaN.  A [float] is a binary64 number
    ([spec_float] of the standard library); [float(s)] is the number nearest
    to the decimal, ties to even, computed on integers. *)

From Corelib Require Import SpecFloat.
From Stdlib Require Import DecimalString DecimalZ DecimalPos.
From S2P Require Import Prelude Text.

(** ** Definitions *)

(** *** White space and [repr] *)

(** The white space [int] and [float] skip: tab, line feed, vertical tab,
    form feed, carriage return and space. *)
Definition is_space (c : ascii) : bool :=
  let b := byte_of_char c in ((9 <=? b) && (b <=? 13)) || (b =? 32).

Fixpoint lstrip (l : list ascii) : list ascii :=
  match l with
  | c :: l' => if is_space c then lstrip l' else l
  | [] => []
  end.

Definition strip (l : list ascii) : list ascii := rev (lstrip (rev (lstrip l))).

(** The characters [repr] treats apart. *)
Definition backslash : ascii := "092"%char.
Definition quote1 : ascii := "039"%char.
Definition quote2 : ascii := "034"%char.

(** [repr_char q c]: a character within the quotes [q] of a [repr]. *)
Definition repr_char (q : ascii) (c : ascii) : string :=
  let b := byte_of_char c in
  let esc (x : ascii) := String backslash (String x EmptyString) in
  if Ascii.eqb c backslash then esc backslash
  else if Ascii.eqb c q then esc c
  else if b =? 10 then esc "n"%char
  else if b =? 13 then esc "r"%char
  else if b =? 9 then esc "t"%char
  else if (b <? 32) || (b =? 127) then
    esc "x"%char +:+ String (hex_digit (b / 16)) (String (hex_digit (b mod 16)) EmptyString)
  else String c EmptyString.

(** [repr s] for a [str]: in single quotes, or in double quotes when the
    string holds a single quote and no double quote. *)
Definition repr (s : string) : string :=
  let l := chars s in
  let q : ascii :=
    if existsb (Ascii.eqb quote1) l && negb (existsb (Ascii.eqb quote2) l)
    then quote2 else quote1 in
  String q (String.concat EmptyString (repr_char q <$> l)) +:+ String q EmptyString.

(** *** [int()] *)

(** [digits_value acc us l]: the value of digits with single underscores
    between them; [us] says that the character before is an underscore. *)
Fixpoint digits_value (acc : Z) (us : bool) (l : list ascii) : option Z :=
  match l with
  | [] => if us then None else Some acc
  | c :: l' =>
      if is_digit c then digits_value (acc * 10 + digit_val c) false l'
      else if Ascii.eqb c "_" then (if us then None else digits_value acc true l')
      else None
  end.

(** A digit first, then [digits_value]. *)
Definition parse_digits (l : list ascii) : option Z :=
  match l with
  | c :: _ => if is_digit c then digits_value 0 false l else None
  | [] => None
  end.

Definition int_of_chars (l : list ascii) : option Z :=
  match strip l with
  | c :: l' =>
      if Ascii.eqb c "+" then parse_digits l'
      else if Ascii.eqb c "-" then Z.opp <$> parse_digits l'
      else parse_digits (c :: l')
  | [] => None
  end.

(** [int(x)] for the text of an element: [None] is no number, and a string
    is read in base 10. *)
Definition int (x : option string) : result Z :=
  match x with
  | None =>
      raise TypeError
        "int() argument must be a string, a bytes-like object or a real number, not 'NoneType'"
  | Some s =>
      match int_of_chars (chars s) with
      | Some n => Ok n
      | None => raise ValueError ("invalid literal for int() with base 10: " +:+ repr s)
      end
  end.

(** *** [float()] *)

(** A binary64 number. *)
Definition float : Type := spec_float.

Definition prec : Z := 53.
Definition emax : Z := 1024.

(** [round_ratio neg n d]: the binary64 number nearest to [n / d], ties to
    even, with the sign [neg].  The quotient is computed with at least two
    bits more than the precision, and the remainder says where the ratio
    lies between the quotient and the next integer. *)
Definition round_ratio (neg : bool) (n d : Z) : float :=
  let k := Z.max 0 (prec + 2 + Z.log2 d - Z.log2 n) in
  let num := n * 2 ^ k in
  let q := num / d in
  let r := num mod d in
  let loc := if r =? 0 then loc_Exact else loc_Inexact (Z.compare (2 * r) d) in
  binary_round_aux prec emax neg q (- k) loc.

(** [float_of_decimal neg m e]: the binary64 number nearest to
    [m * 10 ^ e]. *)
Definition float_of_decimal (neg : bool) (m e : Z) : float :=
  if m =? 0 then S754_zero neg
  else if 0 <=? e then round_ratio neg (m * 10 ^ e) 1
  else round_ratio neg m (10 ^ (- e)).

(** [drop_underscores prev l]: the characters of [l] without its
    underscores, when each of them is between two digits; [prev] is the
    character before. *)
Fixpoint drop_underscores (prev : option ascii) (l : list ascii) : option (list ascii) :=
  let digit_before := from_option is_digit false prev in
  match l with
  | [] => if from_option (Ascii.eqb "_") false prev then None else Some []
  | c :: l' =>
      if Ascii.eqb c "_" then
        if digit_before then drop_underscores (Some c) l' else None
      else if from_option (Ascii.eqb "_") false prev && negb (is_digit c) then None
      else (c ::.) <$> drop_underscores (Some c) l'
  end.

(** [span_digits l]: the digits [l] starts with, and the rest. *)
Fixpoint span_digits (l : list ascii) : list ascii * list ascii :=
  match l with
  | c :: l' =>
      if is_digit c then let '(d, r) := span_digits l' in (c :: d, r) else ([], l)
  | [] => ([], [])
  end.

(** [to_lower c] for an ASCII letter. *)
Definition to_lower (c : ascii) : ascii :=
  let b := byte_of_char c in
  if (65 <=? b) && (b <=? 90) then char_of_byte (b + 32) else c.

(** The exponent part: [e] or [E], a sign, digits; it counts only with a
    digit, and the literal ends with it. *)
Definition parse_exponent (l : list ascii) : option Z :=
  match l with
  | [] => Some 0
  | c :: l' =>
      if Ascii.eqb (to_lower c) "e" then
        let '(neg, l'') :=
          match l' with
          | s :: r => if Ascii.eqb s "-" then (true, r)
                      else if Ascii.eqb s "+" then (false, r) else (false, l')
          | [] => (false, l')
          end in
        match span_digits l'' with
        | ((_ :: _) as ds, []) =>
            let x := nat_of_digits 0 ds in Some (if neg then - x else x)
        | _ => None
        end
      else None
  end.

(** [parse_decimal l]: mantissa and exponent of an unsigned decimal
    literal: the mantissa is the digits before and after the point, read as
    one integer. *)
Definition parse_decimal (l : list ascii) : option (Z * Z) :=
  let '(ip, r1) := span_digits l in
  let '(fp, r2) :=
    match r1 with
    | c :: r => if Ascii.eqb c "." then span_digits r else ([], r1)
    | [] => ([], r1)
    end in
  match ip ++ fp with
  | [] => None
  | ds => x ← parse_exponent r2; Some (nat_of_digits 0 ds, x - Z.of_nat (length fp))
  end.

(** The literal after its sign: an infinity, NaN or a decimal. *)
Definition float_of_unsigned (neg : bool) (l : list ascii) : option float :=
  let name := Text.text (to_lower <$> l) in
  if String.eqb name "inf" || String.eqb name "infinity" then Some (S754_infinity neg)
  else if String.eqb name "nan" then Some S754_nan
  else
    l' ← drop_underscores (Some (if neg then "-" else "+")%char) l;
    '(m, e) ← parse_decimal l';
    Some (float_of_decimal neg m e).

Definition float_of_chars (l : list ascii) : option float :=
  match strip l with
  | c :: l' =>
      if Ascii.eqb c "+" then float_of_unsigned false l'
      else if Ascii.eqb c "-" then float_of_unsigned true l'
      else float_of_unsigned false (c :: l')
  | [] => None
  end.

(** [float(x)] for the text of an element. *)
Definition float_of (x : option string) : result float :=
  match x with
  | None =>
      raise TypeError "float() argument must be a string or a real number, not 'NoneType'"
  | Some s =>
      match float_of_chars (chars s) with
      | Some f => Ok f
      | None => raise ValueError ("could not convert string to float: " +:+ repr s)
      end
  end.

(** ** Theorems *)

(** *** White space *)

Lemma lstrip_id (c : ascii) (l : list ascii) :
  is_space c = false → lstrip (c :: l) = c :: l.
Proof. intros Hc. simpl. by rewrite Hc. Qed.

(** A string that neither starts nor ends with white space is its own
    [strip]. *)
Lemma strip_id (l : list ascii) :
  from_option is_space false (head l) = false →
  from_option is_space false (last l) = false → strip l = l.
Proof.
  intros Hh Hl. unfold strip.
  assert (lstrip l = l) as -> by (destruct l; [done | by apply lstrip_id]).
  destruct (rev l) as [|c r] eqn:E; [by rewrite <- (rev_involutive l), E|].
  rewrite lstrip_id, <- E, rev_involutive; [done|].
  rewrite <- (rev_involutive l), E in Hl. simpl in Hl. by rewrite last_snoc in Hl.
Qed.

Lemma is_digit_not_space (c : ascii) : is_digit c = true → is_space c = false.
Proof.
  unfold is_digit, is_space. intros [H1 H2]%andb_true_iff.
  apply orb_false_iff. split; [apply andb_false_iff; right|]; lia.
Qed.

(** *** [int()] reads what an f-string writes *)

(** The digits of a decimal numeral, read after the digits that make
    [acc]. *)
Lemma digits_value_uint_acc (d : Decimal.uint) (acc : positive) :
  digits_value (Zpos acc) false (chars (NilEmpty.string_of_uint d))
  = Some (Zpos (Pos.of_uint_acc d acc)).
Proof.
  revert acc. induction d; intros acc; simpl; [done|..];
    (etransitivity; [|apply IHd]); f_equal; vm_compute digit_val; lia.
Qed.

Lemma digits_value_uint (d : Decimal.uint) :
  digits_value 0 false (chars (NilEmpty.string_of_uint d)) = Some (Z.of_N (Pos.of_uint d)).
Proof.
  induction d; simpl; [done | done |..];
    (etransitivity; [|apply digits_value_uint_acc]); f_equal.
Qed.

(** A numeral is written with digits, and with one at least. *)
Lemma string_of_uint_digits (d : Decimal.uint) :
  Forall (λ c, is_digit c = true) (chars (NilEmpty.string_of_uint d)).
Proof. induction d; simpl; by constructor. Qed.

Lemma string_of_uint_nonnil (d : Decimal.uint) :
  d ≠ Decimal.Nil → NilZero.string_of_uint d = NilEmpty.string_of_uint d
                    ∧ chars (NilEmpty.string_of_uint d) ≠ [].
Proof. by destruct d. Qed.

(** Digits only: nothing to strip, no sign. *)
Lemma strip_digits (l : list ascii) (c : ascii) :
  is_space c = false → Forall (λ c, is_digit c = true) l → strip (c :: l) = c :: l.
Proof.
  intros Hc Hl. apply strip_id; [done|].
  destruct (last (c :: l)) as [x|] eqn:E; [|done]. simpl.
  apply last_Some_elem_of, elem_of_cons in E as [->|E]; [done|].
  rewrite Forall_forall in Hl. by apply is_digit_not_space, Hl.
Qed.

Lemma int_of_chars_digits (l : list ascii) :
  l ≠ [] → Forall (λ c, is_digit c = true) l →
  int_of_chars l = digits_value 0 false l.
Proof.
  destruct l as [|c l]; [done|]. intros _ [Hc Hl]%Forall_cons.
  unfold int_of_chars. rewrite strip_digits by auto using is_digit_not_space.
  assert (Ascii.eqb c "+" = false ∧ Ascii.eqb c "-" = false) as [-> ->].
  { split; apply Ascii.eqb_neq; intros ->; done. }
  unfold parse_digits. by rewrite Hc.
Qed.

Lemma int_of_chars_minus (l : list ascii) :
  l ≠ [] → Forall (λ c, is_digit c = true) l →
  int_of_chars ("-"%char :: l) = Z.opp <$> digits_value 0 false l.
Proof.
  intros Hne Hl. unfold int_of_chars. rewrite strip_digits by done. simpl.
  destruct l as [|c l]; [done|]. apply Forall_cons in Hl as [Hc Hl].
  unfold parse_digits. by rewrite Hc.
Qed.

(** Round trip: [int] reads the decimal writing of every integer. *)
Theorem int_str_of_int (n : Z) : int (Some (str_of_int n)) = Ok n.
Proof.
  unfold int, str_of_int. destruct n as [|p|p]; [done|..]; simpl;
    destruct (string_of_uint_nonnil (Pos.to_uint p)) as [-> Hne];
    try apply DecimalPos.Unsigned.to_uint_nonnil.
  - rewrite int_of_chars_digits, digits_value_uint by auto using string_of_uint_digits.
    by rewrite DecimalPos.Unsigned.of_to.
  - rewrite int_of_chars_minus, digits_value_uint by auto using string_of_uint_digits.
    by rewrite DecimalPos.Unsigned.of_to.
Qed.

(** [int] does not see the white space around a number. *)
Lemma lstrip_idemp (l : list ascii) : lstrip (lstrip l) = lstrip l.
Proof.
  induction l as [|c l IH]; [done|]. simpl. destruct (is_space c) eqn:E; [done|].
  simpl. by rewrite E.
Qed.

Lemma lstrip_spaces (sp l : list ascii) :
  forallb is_space sp = true → lstrip (sp ++ l) = lstrip l.
Proof.
  induction sp as [|c sp IH]; [done|]. simpl. intros [-> H]%andb_true_iff. auto.
Qed.

Lemma lstrip_all_spaces (sp : list ascii) : forallb is_space sp = true → lstrip sp = [].
Proof. intros H. rewrite <- (app_nil_r sp). by rewrite lstrip_spaces. Qed.

Lemma lstrip_app (l k : list ascii) :
  lstrip (l ++ k) = if forallb is_space l then lstrip k else lstrip l ++ k.
Proof.
  induction l as [|c l IH]; [done|]. simpl. by destruct (is_space c).
Qed.

Lemma forallb_rev {A : Type} (f : A → bool) (l : list A) :
  forallb f (rev l) = forallb f l.
Proof.
  induction l as [|x l IH]; [done|]. simpl. rewrite forallb_app, IH. simpl.
  rewrite andb_true_r. apply andb_comm.
Qed.

Lemma strip_padded (sp1 sp2 l : list ascii) :
  forallb is_space sp1 = true → forallb is_space sp2 = true →
  strip (sp1 ++ l ++ sp2) = strip l.
Proof.
  intros H1 H2. unfold strip. rewrite lstrip_spaces, lstrip_app by done.
  destruct (forallb is_space l) eqn:E.
  - rewrite (lstrip_all_spaces l), (lstrip_all_spaces sp2) by done. done.
  - by rewrite rev_app_distr, lstrip_spaces by by rewrite forallb_rev.
Qed.

Theorem int_of_chars_padded (sp1 sp2 l : list ascii) :
  forallb is_space sp1 = true → forallb is_space sp2 = true →
  int_of_chars (sp1 ++ l ++ sp2) = int_of_chars l.
Proof. intros H1 H2. unfold int_of_chars. by rewrite strip_padded. Qed.

(** The values of the fixture of the specification. *)
Example int_fixture : int (Some "1000") = Ok 1000 ∧ int (Some "500") = Ok 500.
Proof. done. Qed.

Example float_fixture :
  float_of (Some "2.5") = Ok (S754_finite false 5629499534213120 (-51)).
Proof. vm_compute. reflexivity. Qed.

(** Decimals that are no binary fractions are rounded to the nearest
    number, ties to even; past the largest number they are infinite, and
    below half of the smallest they are zero. *)
Example float_rounding :
  float_of (Some "0.1") = Ok (S754_finite false 7205759403792794 (-56)) ∧
  float_of (Some "9007199254740993") = Ok (S754_finite false 4503599627370496 1) ∧
  float_of (Some "1e400") = Ok (S754_infinity false) ∧
  float_of (Some "4.9e-324") = Ok (S754_finite false 1 (-1074)) ∧
  float_of (Some "2.4703282292062327e-324") = Ok (S754_zero false) ∧
  float_of (Some "2.4703282292062328e-324") = Ok (S754_finite false 1 (-1074)).
Proof. vm_compute. done. Qed.

(** What [int] and [float] refuse. *)
Example int_errors :
  raises TypeError (int None) = true ∧ raises ValueError (int (Some "")) = true ∧
  raises ValueError (int (Some "1.0")) = true ∧ raises ValueError (int (Some "1__0")) = true ∧
  raises ValueError (int (Some "12 3")) = true.
Proof. done. Qed.

Example float_errors :
  raises TypeError (float_of None) = true ∧ raises ValueError (float_of (Some ".")) = true ∧
  raises ValueError (float_of (Some "1e")) = true ∧
  raises ValueError (float_of (Some "1._5")) = true ∧
  raises ValueError (float_of (Some "0x1p3")) = true.
Proof. vm_compute. done. Qed.
