(* ===== verification/Dict.v ===== *)
(** * Dict: Python's [dict], in the order of insertion

    A [dict] keeps its keys in the order they were first inserted; setting
    a key that is present changes its value and leaves its place.  The
    model is a list of pairs without repeated keys.  [dict_to_map] forgets
    the order: the finite map of stdpp the list stands for. *)

From stdpp Require Import gmap.
From S2P Require Import Prelude.

(** ** Definitions *)

Section DictDefs.
Context {K V : Type} `{EqDecision K}.

Definition dict : Type := list (K * V).

(** [d[k] = v] *)
Fixpoint dict_set (k : K) (v : V) (d : dict) : dict :=
  match d with
  | [] => [(k, v)]
  | (k', v') :: d' =>
      if decide (k = k') then (k', v) :: d' else (k', v') :: dict_set k v d'
  end.

(** [d.get(k)] *)
Fixpoint dict_get (k : K) (d : dict) : option V :=
  match d with
  | [] => None
  | (k', v') :: d' => if decide (k = k') then Some v' else dict_get k d'
  end.

(** [list(d)]: the keys, in order. *)
Definition dict_keys (d : dict) : list K := fst <$> d.

(** [d.update(d2)]: the items of [d2] are set in [d], in order. *)
Definition dict_update (d d2 : dict) : dict :=
  foldl (λ acc kv, dict_set kv.1 kv.2 acc) d d2.

(** [dict_wf d]: no key twice. *)
Definition dict_wf (d : dict) : Prop := NoDup (dict_keys d).

End DictDefs.

Arguments dict : clear implicits.

(** The finite map a [dict] stands for. *)
Definition dict_to_map {K V : Type} `{Countable K} (d : dict K V) : gmap K V :=
  list_to_map d.

(** ** Theorems *)

Section DictFacts.
Context {K V : Type} `{EqDecision K}.
Implicit Types (d : dict K V) (k : K) (v : V).

Lemma dict_get_set k k' v d :
  dict_get k' (dict_set k v d) = if decide (k' = k) then Some v else dict_get k' d.
Proof.
  induction d as [|[k1 v1] d IH]; simpl.
  - by destruct (decide (k' = k)).
  - destruct (decide (k = k1)) as [->|Hne]; simpl.
    + by destruct (decide (k' = k1)).
    + rewrite IH. destruct (decide (k' = k1)) as [->|]; [|done].
      by rewrite decide_False by done.
Qed.

(** Setting a key keeps the keys in place, with the new key last. *)
Lemma dict_keys_set k v d :
  dict_keys (dict_set k v d) = if decide (k ∈ dict_keys d) then dict_keys d
                               else dict_keys d ++ [k].
Proof.
  unfold dict_keys. induction d as [|[k1 v1] d IH]; cbn [dict_set fmap list_fmap fst].
  - by rewrite decide_False by apply not_elem_of_nil.
  - destruct (decide (k = k1)) as [->|Hne]; cbn [fmap list_fmap fst].
    + by rewrite decide_True by by left.
    + rewrite IH. destruct (decide (k ∈ fst <$> d)) as [Hin|Hnin].
      * by rewrite decide_True by by right.
      * rewrite decide_False; [done|]. by intros [?|?]%elem_of_cons.
Qed.

Lemma dict_wf_set k v d : dict_wf d → dict_wf (dict_set k v d).
Proof.
  unfold dict_wf. rewrite dict_keys_set. destruct (decide _) as [|Hnin]; [done|].
  intros Hd. apply NoDup_app. split; [done|]. split; [|apply NoDup_singleton].
  intros x Hx ->%list_elem_of_singleton. done.
Qed.

Lemma dict_wf_update d d2 : dict_wf d → dict_wf (dict_update d d2).
Proof.
  unfold dict_update. revert d. induction d2 as [|[k v] d2 IH]; intros d Hd; [done|].
  simpl. by apply IH, dict_wf_set.
Qed.

Lemma dict_get_None k d : dict_get k d = None ↔ k ∉ dict_keys d.
Proof.
  unfold dict_keys. induction d as [|[k1 v1] d IH]; simpl.
  - split; [intros _; apply not_elem_of_nil | done].
  - destruct (decide (k = k1)) as [->|Hne].
    + split; [done | intros []; by left].
    + rewrite IH, not_elem_of_cons. tauto.
Qed.

(** The value of a key after [update]: the last value the second [dict]
    gives it, or the value it had. *)
Lemma dict_get_update k d d2 :
  dict_get k (dict_update d d2)
  = match dict_get k (reverse d2) with Some v => Some v | None => dict_get k d end.
Proof.
  unfold dict_update. revert d. induction d2 as [|[k1 v1] d2 IH]; intros d; [done|].
  simpl. rewrite IH, dict_get_set, reverse_cons.
  assert (∀ l, dict_get k (l ++ [(k1, v1)])
               = match dict_get k l with
                 | Some v => Some v
                 | None => if decide (k = k1) then Some v1 else None
                 end) as ->.
  { induction l as [|[k2 v2] l IHl]; simpl; [done|]. by destruct (decide (k = k2)). }
  destruct (dict_get k (reverse d2)); [done|]. by destruct (decide (k = k1)).
Qed.

Lemma dict_get_snoc k d k1 v1 :
  dict_get k (d ++ [(k1, v1)])
  = match dict_get k d with
    | Some v => Some v
    | None => if decide (k = k1) then Some v1 else None
    end.
Proof. induction d as [|[k2 v2] d IH]; simpl; [done|]. by destruct (decide (k = k2)). Qed.

(** In a [dict] without a key twice the order of the items does not matter
    for reading. *)
Lemma dict_get_reverse k d : dict_wf d → dict_get k (reverse d) = dict_get k d.
Proof.
  unfold dict_wf, dict_keys. induction d as [|[k1 v1] d IH]; [done|].
  rewrite fmap_cons, NoDup_cons. intros [Hk1 Hd].
  rewrite reverse_cons, dict_get_snoc, IH by done. simpl.
  destruct (decide (k = k1)) as [->|Hne]; [|by destruct (dict_get k d)].
  by rewrite (proj2 (dict_get_None k1 d) Hk1).
Qed.

Lemma dict_get_update_wf k d d2 :
  dict_wf d2 →
  dict_get k (dict_update d d2)
  = match dict_get k d2 with Some v => Some v | None => dict_get k d end.
Proof. intros Hwf. by rewrite dict_get_update, dict_get_reverse. Qed.

End DictFacts.

Section DictMap.
Context {K V : Type} `{Countable K}.
Implicit Types (d : dict K V) (k : K) (v : V).

(** Refinement: reading a [dict] is reading the map it stands for. *)
Lemma dict_to_map_lookup d k : dict_to_map d !! k = dict_get k d.
Proof.
  unfold dict_to_map. induction d as [|[k1 v1] d IH]; simpl; [done|].
  destruct (decide (k = k1)) as [->|Hne].
  - by rewrite lookup_insert_eq.
  - by rewrite lookup_insert_ne.
Qed.

Lemma dict_to_map_set d k v : dict_to_map (dict_set k v d) = <[k := v]> (dict_to_map d).
Proof.
  apply map_eq. intros k'. rewrite dict_to_map_lookup, dict_get_set.
  destruct (decide (k' = k)) as [->|Hne].
  - by rewrite lookup_insert_eq.
  - by rewrite lookup_insert_ne, dict_to_map_lookup.
Qed.

(** [update] is the union that prefers the second map. *)
Lemma dict_to_map_update d d2 :
  dict_wf d2 → dict_to_map (dict_update d d2) = dict_to_map d2 ∪ dict_to_map d.
Proof.
  intros Hwf. apply map_eq. intros k.
  rewrite dict_to_map_lookup, dict_get_update, lookup_union, !dict_to_map_lookup.
  assert (dict_get k (reverse d2) = dict_get k d2) as ->.
  { rewrite <- !dict_to_map_lookup. unfold dict_to_map.
    f_equal. apply list_to_map_proper; [|by rewrite reverse_Permutation].
    by rewrite reverse_Permutation. }
  destruct (dict_get k d2), (dict_get k d); done.
Qed.

End DictMap.
