(* ===== verification/Parser.v ===== *)
(** * Parser: the parsers of the answers

    [parse_traffic_history] parses the XML of an answer and makes a record
    of each [Data] element of the tree, in document order; the packaged
    version returns the list of [TrafficHistory] tuples, the first version a
    [dict] from the date to the four numbers.  [parse_url_info] and
    [parse_response] return the bytes they are given.

    The XML parser is a parameter ([XmlParser]): the definitions and the
    theorems hold for every function from bytes to a tree or an
    exception. *)

From stdpp Require Import gmap.
From Corelib Require Import SpecFloat.
From S2P Require Import Prelude Text Xml Numeric Dict World.

(** ** Definitions *)

(** [ET.parse(BytesIO(content)).getroot()]: the root of the tree, or the
    exception of the parser. *)
Class XmlParser : Type := { ET_parse : list Z → result element }.

(** [x.text] and [x.find(path)] for what [find] returned: [None] has no
    attribute. *)
Definition attr_text (x : option element) : result (option string) :=
  match x with
  | Some e => Ok (text e)
  | None => raise AttributeError "'NoneType' object has no attribute 'text'"
  end.

Definition attr_find (x : option element) (path : string) : result (option element) :=
  match x with
  | Some e => Ok (find path e)
  | None => raise AttributeError "'NoneType' object has no attribute 'find'"
  end.

Module Pkg.

(** The named tuple of a day. *)
Record TrafficHistory : Type := mkTrafficHistory {
  date : option string;
  page_view_per_million : Z;
  page_view_per_user : float;
  rank : Z;
  reach : Z
}.

Definition aws_tag : string := "{http://awis.amazonaws.com/doc/2005-07-11}".

(** The body of the [for] loop: the record of one [Data] element. *)
Definition parse_data (element : element) : result TrafficHistory :=
  date ← attr_text (find (aws_tag +:+ "Date") element);
  let pageview_el := find (aws_tag +:+ "PageViews") element in
  pageview_pmil ← (attr_find pageview_el (aws_tag +:+ "PerMillion") ≫= attr_text) ≫= int;
  pageview_puser ← (attr_find pageview_el (aws_tag +:+ "PerUser") ≫= attr_text) ≫= float_of;
  rank ← attr_text (find (aws_tag +:+ "Rank") element) ≫= int;
  reach ← attr_text (find (aws_tag +:+ "Reach/" +:+ aws_tag +:+ "PerMillion") element) ≫= int;
  let traffic_history_record :=
    mkTrafficHistory date pageview_pmil pageview_puser rank reach in
  Ok traffic_history_record.

(** The [for] loop over [root.iter(aws_tag + 'Data')], from the elements
    still to visit and the [output] so far. *)
Fixpoint data_loop (elements : list element) (output : list TrafficHistory) :
    result (list TrafficHistory) :=
  match elements with
  | [] => Ok output
  | element :: elements' =>
      traffic_history_record ← parse_data element;
      data_loop elements' (output ++ [traffic_history_record])
  end.

(** [AWIS.parse_traffic_history(content)] *)
Definition parse_traffic_history `{XmlParser} (content : list Z) :
    result (list TrafficHistory) :=
  root ← ET_parse content;
  data_loop (iter (aws_tag +:+ "Data") root) [].

(** [AWIS.parse_url_info(content)] *)
Definition parse_url_info (content : list Z) : list Z := content.

End Pkg.

Module Legacy.

(** The value of a date in the [dict] of the first version: a [dict] with
    the keys ['PageViewPerMillion'], ['PageViewPerUser'], ['Rank'] and
    ['Reach']. *)
Record entry : Type := mkEntry {
  PageViewPerMillion : Z;
  PageViewPerUser : float;
  Rank : Z;
  Reach : Z
}.

Definition aws_tag : string := "{http://awis.amazonaws.com/doc/2005-07-11}".

(** The body of the [for] loop: the date and the entry of one [Data]
    element. *)
Definition parse_data (element : element) : result (option string * entry) :=
  date ← attr_text (find (aws_tag +:+ "Date") element);
  let pageview_el := find (aws_tag +:+ "PageViews") element in
  pageview_pmil ← (attr_find pageview_el (aws_tag +:+ "PerMillion") ≫= attr_text) ≫= int;
  pageview_puser ← (attr_find pageview_el (aws_tag +:+ "PerUser") ≫= attr_text) ≫= float_of;
  rank ← attr_text (find (aws_tag +:+ "Rank") element) ≫= int;
  reach ← attr_text (find (aws_tag +:+ "Reach/" +:+ aws_tag +:+ "PerMillion") element) ≫= int;
  Ok (date, mkEntry pageview_pmil pageview_puser rank reach).

(** The [for] loop: [output[date] = {...}] at each turn. *)
Fixpoint data_loop (elements : list element) (output : dict (option string) entry) :
    result (dict (option string) entry) :=
  match elements with
  | [] => Ok output
  | element :: elements' =>
      '(date, e) ← parse_data element;
      data_loop elements' (dict_set date e output)
  end.

(** [AWIS.parse_traffic_history(content)] *)
Definition parse_traffic_history `{XmlParser} (content : list Z) :
    result (dict (option string) entry) :=
  root ← ET_parse content;
  data_loop (iter (aws_tag +:+ "Data") root) [].

(** [AWIS.parse_url_info(content)] *)
Definition parse_url_info (content : list Z) : list Z := content.

(** [AWIS.parse_response(response)] *)
Definition parse_response (response : http_response) : list Z := resp_content response.

End Legacy.

(** *** Documents *)

(** The values of a day as the service writes them: the date and the
    decimal writing of the four numbers. *)
Record row : Type := mkRow {
  row_date : string;
  row_page_views_per_million : Z;
  row_page_views_per_user : string;
  row_rank : Z;
  row_reach : Z
}.

(** [leaf t x]: an element with a text and no child. *)
Definition leaf (t : string) (x : string) : element :=
  Element (Pkg.aws_tag +:+ t) [] (Some x) [] None.

(** [node t cs]: an element with children and no text. *)
Definition node (t : string) (cs : list element) : element :=
  Element (Pkg.aws_tag +:+ t) [] None cs None.

(** The [Data] element of a day. *)
Definition data_element (r : row) : element :=
  node "Data"
    [ leaf "Date" (row_date r);
      node "PageViews"
        [ leaf "PerMillion" (str_of_int (row_page_views_per_million r));
          leaf "PerUser" (row_page_views_per_user r) ];
      leaf "Rank" (str_of_int (row_rank r));
      node "Reach" [ leaf "PerMillion" (str_of_int (row_reach r)) ] ].

(** An answer of the action [TrafficHistory] with the days [rows]. *)
Definition history_document (site start : string) (rows : list row) : element :=
  node "TrafficHistoryResponse"
    [ node "Response"
        [ node "OperationRequest" [ leaf "RequestId" "0" ];
          node "TrafficHistoryResult"
            [ node "Alexa"
                [ node "TrafficHistory"
                    [ leaf "Range" (str_of_int (Z.of_nat (length rows)));
                      leaf "Site" site;
                      leaf "Start" start;
                      node "HistoricalData" (data_element <$> rows) ] ] ];
          node "ResponseStatus" [ leaf "StatusCode" "Success" ] ] ].

(** The record and the entry a row stands for, given the number its
    [PerUser] text writes. *)
Definition record_of_row (r : row) (per_user : float) : Pkg.TrafficHistory :=
  Pkg.mkTrafficHistory (Some (row_date r)) (row_page_views_per_million r) per_user
    (row_rank r) (row_reach r).

(** [entry_of r] and [dict_of_records]: the [dict] of the first version
    for the records of the packaged one. *)
Definition entry_of (r : Pkg.TrafficHistory) : Legacy.entry :=
  Legacy.mkEntry (Pkg.page_view_per_million r) (Pkg.page_view_per_user r)
    (Pkg.rank r) (Pkg.reach r).

Definition dict_of_records (output : dict (option string) Legacy.entry)
    (l : list Pkg.TrafficHistory) : dict (option string) Legacy.entry :=
  foldl (λ d r, dict_set (Pkg.date r) (entry_of r) d) output l.

(** *** Examples *)

(** A day, and a parser of XML that reads the document of that day in
    every content. *)
Definition example_rows : list row := [mkRow "2019-11-01" 12 "3.5" 1000 20].

Definition example_parser : XmlParser :=
  {| ET_parse := λ _, Ok (history_document "example.com" "20191101" example_rows) |}.

(** The number the text ["3.5"] writes. *)
Definition three_and_a_half : float := SpecFloat.S754_finite false (7 * 2 ^ 50) (-51).

(** The answer of the service to a request it refuses, and a parser that
    reads it in every content. *)
Definition error_document : element :=
  node "TrafficHistoryResponse"
    [ node "Response"
        [ node "ResponseStatus" [ leaf "StatusCode" "AuthFailure" ] ] ].

Definition error_parser : XmlParser := {| ET_parse := λ _, Ok error_document |}.

(** A [Data] element whose [PerMillion] element is empty. *)
Definition empty_per_million : element :=
  node "Data"
    [ leaf "Date" "2019-11-01";
      node "PageViews" [ node "PerMillion" []; leaf "PerUser" "3.5" ] ].

(** ** Theorems *)

(** *** The loop *)

(** The loop is a map that stops at the first exception. *)
Lemma data_loop_mapM (elements : list element) (output : list Pkg.TrafficHistory) :
  Pkg.data_loop elements output
  = (λ l, output ++ l) <$> mapM_result Pkg.parse_data elements.
Proof.
  revert output. induction elements as [|e es IH]; intros output; simpl.
  - by rewrite app_nil_r.
  - destruct (Pkg.parse_data e) as [r|x]; [|done]. simpl. rewrite IH.
    destruct (mapM_result _ es); [|done]. simpl. by rewrite <- app_assoc.
Qed.

(** One record for each [Data] element. *)
Lemma data_loop_length (elements : list element) (l : list Pkg.TrafficHistory) :
  Pkg.data_loop elements [] = Ok l → length l = length elements.
Proof.
  rewrite data_loop_mapM. destruct (mapM_result _ _) eqn:E; [|done].
  intros [= <-]. by apply mapM_result_length in E.
Qed.

(** The first element that has no record stops the loop with its
    exception. *)
Lemma data_loop_raise (es1 es2 : list element) (e : element) (x : exn)
    (l : list Pkg.TrafficHistory) :
  mapM_result Pkg.parse_data es1 = Ok l → Pkg.parse_data e = Raise x →
  Pkg.data_loop (es1 ++ e :: es2) [] = Raise x.
Proof.
  rewrite data_loop_mapM. revert l. induction es1 as [|e1 es1 IH]; intros l H1 H2; simpl in *.
  - by rewrite H2.
  - destruct (Pkg.parse_data e1); [|done]. simpl in *.
    destruct (mapM_result _ es1) eqn:E; [|done]. simpl in *.
    specialize (IH _ eq_refl H2). by destruct (mapM_result _ (es1 ++ _)).
Qed.

(** *** The two versions *)

Lemma parse_data_legacy (e : element) :
  Legacy.parse_data e = (λ r, (Pkg.date r, entry_of r)) <$> Pkg.parse_data e.
Proof.
  unfold Legacy.parse_data, Pkg.parse_data.
  change Legacy.aws_tag with Pkg.aws_tag.
  repeat (match goal with |- context [?m ≫= _] =>
            match m with
            | attr_text _ => destruct m
            | attr_find _ _ => destruct m
            | int _ => destruct m
            | float_of _ => destruct m
            end end; simpl; try done).
Qed.

(** The [dict] of the first version is the [dict] of the records of the
    packaged version: a date that comes twice keeps its place and takes the
    later numbers. *)
Lemma data_loop_legacy (elements : list element) (output : dict (option string) Legacy.entry) :
  Legacy.data_loop elements output
  = dict_of_records output <$> mapM_result Pkg.parse_data elements.
Proof.
  revert output. induction elements as [|e es IH]; intros output; [done|].
  simpl. rewrite parse_data_legacy. destruct (Pkg.parse_data e) as [r|x]; [|done].
  simpl. rewrite IH. by destruct (mapM_result _ es).
Qed.

(** *** Documents of the service *)

Section Documents.
Context `{XmlParser}.

Lemma iter_element (t : string) (e : element) :
  iter t e = (if decide (has_tag t e) then [e] else []) ++ (children e ≫= iter t).
Proof.
  unfold iter. rewrite descendants_eq. rewrite filter_cons.
  assert (filter (has_tag t) (children e ≫= descendants)
          = children e ≫= λ c, filter (has_tag t) (descendants c)) as ->.
  { induction (children e) as [|c cs IH]; [done|]. cbn [mbind list_bind].
    by rewrite filter_app, IH. }
  by destruct (decide (has_tag t e)).
Qed.

Lemma iter_data_element (r : row) :
  iter (Pkg.aws_tag +:+ "Data") (data_element r) = [data_element r].
Proof. by vm_compute. Qed.

Lemma iter_data_elements (rows : list row) :
  (data_element <$> rows) ≫= iter (Pkg.aws_tag +:+ "Data") = data_element <$> rows.
Proof.
  induction rows as [|r rows IH]; [done|]. cbn [fmap list_fmap mbind list_bind].
  by rewrite iter_data_element, IH.
Qed.

(** The [Data] elements of an answer are its days, in order. *)
Lemma iter_history_document (site start : string) (rows : list row) :
  iter (Pkg.aws_tag +:+ "Data") (history_document site start rows) = data_element <$> rows.
Proof.
  unfold history_document, node.
  repeat (rewrite iter_element; cbn [children mbind list_bind];
          rewrite decide_False by (by vm_compute); cbn [app]).
  unfold leaf. cbn [children mbind list_bind app]. rewrite !app_nil_r.
  apply iter_data_elements.
Qed.


(** What [find] gives in the [Data] element of a day. *)
Lemma find_data_element (r : row) :
  let e := data_element r in
  find (Pkg.aws_tag +:+ "Date") e = Some (leaf "Date" (row_date r)) ∧
  find (Pkg.aws_tag +:+ "PageViews") e
    = Some (node "PageViews"
              [ leaf "PerMillion" (str_of_int (row_page_views_per_million r));
                leaf "PerUser" (row_page_views_per_user r) ]) ∧
  find (Pkg.aws_tag +:+ "Rank") e = Some (leaf "Rank" (str_of_int (row_rank r))) ∧
  find (Pkg.aws_tag +:+ "Reach/" +:+ Pkg.aws_tag +:+ "PerMillion") e
    = Some (leaf "PerMillion" (str_of_int (row_reach r))).
Proof. by vm_compute. Qed.

Lemma find_page_views (a b : string) :
  let e := node "PageViews" [leaf "PerMillion" a; leaf "PerUser" b] in
  find (Pkg.aws_tag +:+ "PerMillion") e = Some (leaf "PerMillion" a) ∧
  find (Pkg.aws_tag +:+ "PerUser") e = Some (leaf "PerUser" b).
Proof. by vm_compute. Qed.

(** Round trip for a day: the parser reads the record a row stands for. *)
Lemma parse_data_element (r : row) (per_user : float) :
  float_of (Some (row_page_views_per_user r)) = Ok per_user →
  Pkg.parse_data (data_element r) = Ok (record_of_row r per_user).
Proof.
  intros Hf. unfold Pkg.parse_data.
  destruct (find_data_element r) as (-> & -> & -> & ->).
  destruct (find_page_views (str_of_int (row_page_views_per_million r))
              (row_page_views_per_user r)) as (Hpm & Hpu).
  cbn [attr_text attr_find mbind result_bind text leaf]. rewrite Hpm, Hpu.
  cbn [attr_text attr_find mbind result_bind text leaf].
  by rewrite !int_str_of_int, Hf.
Qed.

(** When the parser of XML gives the tree of an answer,
    [parse_traffic_history] returns the records of its days, in order. *)
Lemma parse_history_document_ok (content : list Z) (site start : string)
    (rows : list row) (per_user : list float) :
  ET_parse content = Ok (history_document site start rows) →
  Forall2 (λ r f, float_of (Some (row_page_views_per_user r)) = Ok f) rows per_user →
  Pkg.parse_traffic_history content = Ok (zip_with record_of_row rows per_user).
Proof.
  intros Hp Hf. unfold Pkg.parse_traffic_history. rewrite Hp. cbn [mbind result_bind].
  clear Hp.
  rewrite iter_history_document, data_loop_mapM.
  assert (mapM_result Pkg.parse_data (data_element <$> rows)
          = Ok (zip_with record_of_row rows per_user)) as ->; [|done].
  induction Hf as [|r f rows fs Hr Hf IH]; [done|]. cbn [fmap list_fmap mapM_result].
  rewrite (parse_data_element r f Hr). cbn [mbind result_bind]. by rewrite IH.
Qed.

(** C5: Round trip for an answer of the service: the records
    [parse_traffic_history] returns for the document of the days [rows]
    are the days, in order, with the numbers their texts write. *)
Theorem parse_history_document (content : list Z) (site start : string)
    (rows : list row) (per_user : list float) :
  ET_parse content = Ok (history_document site start rows) →
  Forall2 (λ r f, float_of (Some (row_page_views_per_user r)) = Ok f) rows per_user →
  Pkg.parse_traffic_history content = Ok (zip_with record_of_row rows per_user).
Proof. apply parse_history_document_ok. Qed.

End Documents.

(** *** Answers without days, and answers that are no XML *)

Section Answers.
Context `{XmlParser}.

(** C34: A tree without [Data] element gives no record and no exception,
    whatever it says. *)
Lemma parse_no_data (content : list Z) (root : element) :
  ET_parse content = Ok root → iter (Pkg.aws_tag +:+ "Data") root = [] →
  Pkg.parse_traffic_history content = Ok [].
Proof.
  intros Hp Hi. unfold Pkg.parse_traffic_history. rewrite Hp.
  cbn [mbind result_bind]. by rewrite Hi.
Qed.

(** The exception of the XML parser is the exception of the method. *)
Lemma parse_syntax_error (content : list Z) (x : exn) :
  ET_parse content = Raise x → Pkg.parse_traffic_history content = Raise x.
Proof. intros Hp. unfold Pkg.parse_traffic_history. by rewrite Hp. Qed.

(** One record for each [Data] element of the tree. *)
Lemma parse_traffic_history_length (content : list Z) (root : element)
    (l : list Pkg.TrafficHistory) :
  ET_parse content = Ok root → Pkg.parse_traffic_history content = Ok l →
  length l = length (iter (Pkg.aws_tag +:+ "Data") root).
Proof.
  intros Hp. unfold Pkg.parse_traffic_history. rewrite Hp. apply data_loop_length.
Qed.

(** C29: The first version returns the [dict] of the records of the packaged
    version, for the same content. *)
Lemma parse_traffic_history_legacy (content : list Z) :
  Legacy.parse_traffic_history content
  = dict_of_records [] <$> Pkg.parse_traffic_history content.
Proof.
  unfold Legacy.parse_traffic_history, Pkg.parse_traffic_history.
  change Legacy.aws_tag with Pkg.aws_tag.
  destruct (ET_parse content) as [root|x]; [|done]. cbn [mbind result_bind].
  rewrite data_loop_legacy, data_loop_mapM. by destruct (mapM_result _ _).
Qed.

End Answers.

(** *** What a [Data] element must hold *)

(** Without [Date] element the loop stops with [AttributeError]. *)
Lemma parse_data_no_date (e : element) :
  find (Pkg.aws_tag +:+ "Date") e = None →
  Pkg.parse_data e = raise AttributeError "'NoneType' object has no attribute 'text'".
Proof. intros Hd. unfold Pkg.parse_data. by rewrite Hd. Qed.

(** Without [PageViews] element, [AttributeError] for [find]. *)
Lemma parse_data_no_page_views (e d : element) :
  find (Pkg.aws_tag +:+ "Date") e = Some d →
  find (Pkg.aws_tag +:+ "PageViews") e = None →
  Pkg.parse_data e = raise AttributeError "'NoneType' object has no attribute 'find'".
Proof. intros Hd Hp. unfold Pkg.parse_data. by rewrite Hd, Hp. Qed.

(** C35: An element that is there and holds no text gives [TypeError]. *)
Lemma parse_data_empty_number (e d pv pm : element) :
  find (Pkg.aws_tag +:+ "Date") e = Some d →
  find (Pkg.aws_tag +:+ "PageViews") e = Some pv →
  find (Pkg.aws_tag +:+ "PerMillion") pv = Some pm → text pm = None →
  raises TypeError (Pkg.parse_data e) = true.
Proof.
  intros Hd Hp Hm Ht. unfold Pkg.parse_data. rewrite Hd, Hp.
  cbn [attr_text attr_find mbind result_bind]. rewrite Hm.
  cbn [attr_text mbind result_bind]. by rewrite Ht.
Qed.

(** The records of the [dict]: its keys are dates of records, each once. *)
Lemma dict_of_records_wf (output : dict (option string) Legacy.entry)
    (l : list Pkg.TrafficHistory) :
  dict_wf output → dict_wf (dict_of_records output l).
Proof.
  unfold dict_of_records. revert output.
  induction l as [|r l IH]; intros output Hwf; [done|]. simpl. by apply IH, dict_wf_set.
Qed.

(** The value of a date in the [dict] is the entry of the last record of
    that date. *)
Lemma dict_of_records_get (l : list Pkg.TrafficHistory) (d : option string) :
  dict_get d (dict_of_records [] l)
  = entry_of <$> last (filter (λ r, Pkg.date r = d) l).
Proof.
  assert (∀ output, dict_get d (dict_of_records output l)
            = match last (filter (λ r, Pkg.date r = d) l) with
              | Some r => Some (entry_of r)
              | None => dict_get d output
              end) as Hgen; [|by rewrite Hgen; destruct (last _)].
  unfold dict_of_records. induction l as [|r l IH]; intros output; [done|].
  simpl. rewrite IH, dict_get_set, filter_cons.
  destruct (decide (Pkg.date r = d)) as [<-|Hne].
  - rewrite !decide_True by done. destruct (filter _ l) as [|x l'] eqn:E; [done|].
    rewrite last_cons_cons. destruct (last (x :: l')) eqn:El; [done|].
    by apply last_None in El.
  - by rewrite decide_False by done.
Qed.

(** *** The theorems at concrete inputs *)

Lemma parse_history_document_witness :
  Pkg.parse_traffic_history (H := example_parser) []
  = Ok (zip_with record_of_row example_rows [three_and_a_half]).
Proof.
  apply (parse_history_document (H := example_parser) [] "example.com" "20191101").
  - done.
  - constructor; [by vm_compute | constructor].
Defined.

Lemma parse_no_data_witness :
  Pkg.parse_traffic_history (H := error_parser) [] = Ok [].
Proof. apply (parse_no_data (H := error_parser) [] error_document); by vm_compute. Defined.

Lemma parse_data_empty_number_witness :
  raises TypeError (Pkg.parse_data empty_per_million) = true.
Proof.
  apply (parse_data_empty_number empty_per_million (leaf "Date" "2019-11-01")
           (node "PageViews" [ node "PerMillion" []; leaf "PerUser" "3.5" ])
           (node "PerMillion" [])); by vm_compute.
Defined.
