(* ===== verification/Threads.v ===== *)
(** * Threads: threads, and a pool of workers

    A thread is a sequence of atomic actions on the world; which action
    comes next may depend on the world the one before has seen.  A pool
    runs the threads it is given on a bounded number of workers: a worker
    that is free starts the thread that waits longest, and the scheduler of
    the world says which of the threads that have started makes the next
    step.  The caller collects the results in the order of the threads and
    is stopped by the first exception in that order.

    This is the behaviour of [multiprocessing.pool.ThreadPool] with
    [apply_async] and [get], and of the greenlets of [grequests.map]. *)

From S2P Require Import Prelude World.

(** ** Definitions *)

(** *** Threads *)

(** A thread that has finished with a result, or one more atomic action:
    the rest of the thread and the world after the action, both from the
    world before. *)
Inductive thread (A : Type) : Type :=
  | Done (r : result A)
  | Step (next : World → thread A) (effect : World → World).

Arguments Done {A} r.
Arguments Step {A} next effect.

(** [atomic m k]: the computation [m] as one action, then [k] on its
    value; an exception of [m] ends the thread. *)
Definition atomic {A B : Type} (m : io B) (k : B → thread A) : thread A :=
  Step (λ w, match (run m w).1 with Ok b => k b | Raise e => Done (Raise e) end)
       (λ w, (run m w).2).

(** [run_thread t]: the thread alone, from start to end. *)
Fixpoint run_thread {A : Type} (t : thread A) (w : World) : result A * World :=
  match t with
  | Done r => (r, w)
  | Step next effect => run_thread (next w) (effect w)
  end.

(** [height_le t n]: the thread ends after [n] actions at most, whatever
    the world. *)
Inductive height_le {A : Type} : thread A → nat → Prop :=
  | height_done (r : result A) (n : nat) : height_le (Done r) n
  | height_step (next : World → thread A) (effect : World → World) (n : nat) :
      (∀ w, height_le (next w) n) → height_le (Step next effect) (S n).

(** [residual I t t']: [t'] is what is left of [t] after some of its
    actions, each in a world in which [I] holds. *)
Inductive residual {A : Type} (I : World → Prop) : thread A → thread A → Prop :=
  | residual_refl (t : thread A) : residual I t t
  | residual_step (next : World → thread A) (effect : World → World) (w : World)
      (t' : thread A) :
      I w → residual I (next w) t' → residual I (Step next effect) t'.

(** [stable I t]: the actions of [t] keep [I]. *)
Inductive stable {A : Type} (I : World → Prop) : thread A → Prop :=
  | stable_done (r : result A) : stable I (Done r)
  | stable_step (next : World → thread A) (effect : World → World) :
      (∀ w, I w → I (effect w)) → (∀ w, stable I (next w)) →
      stable I (Step next effect).

(** *** The pool *)

(** The state of a thread in the pool. *)
Inductive slot (A : Type) : Type :=
  | Queued (t : thread A)
  | Running (next : World → thread A) (effect : World → World)
  | Finished (r : result A).

Arguments Queued {A} t.
Arguments Running {A} next effect.
Arguments Finished {A} r.

(** A pool: the slots of its threads, in the order they were given. *)
Abbreviation pool A := (list (slot A)).

Definition is_queued {A : Type} (s : slot A) : bool :=
  match s with Queued _ => true | _ => false end.

Definition is_running {A : Type} (s : slot A) : bool :=
  match s with Running _ _ => true | _ => false end.

Definition is_finished {A : Type} (s : slot A) : bool :=
  match s with Finished _ => true | _ => false end.

(** [settle t]: a thread with no action left has finished. *)
Definition settle {A : Type} (t : thread A) : slot A :=
  match t with Done r => Finished r | Step next effect => Running next effect end.

(** [running P]: the number of workers at work. *)
Definition running {A : Type} (P : pool A) : nat := length (List.filter is_running P).

(** [indices f P]: the indices of the slots that satisfy [f], in order,
    counted from [i]. *)
Fixpoint indices {A : Type} (f : slot A → bool) (i : nat) (P : pool A) : list nat :=
  match P with
  | [] => []
  | s :: P' => (if f s then [i] else []) ++ indices f (S i) P'
  end.

(** [enabled size P]: the threads that can make a step: those that run,
    in order, and then the first that waits, when a worker is free. *)
Definition enabled {A : Type} (size : nat) (P : pool A) : list nat :=
  indices is_running 0 P
  ++ (if (running P <? size)%nat then take 1 (indices is_queued 0 P) else []).

(** [act i P]: the step of the thread [i]: it starts, or it makes its next
    action. *)
Definition act {A : Type} (i : nat) (P : pool A) (w : World) : pool A * World :=
  match P !! i with
  | Some (Queued t) => (<[i := settle t]> P, w)
  | Some (Running next effect) => (<[i := settle (next w)]> P, effect w)
  | _ => (P, w)
  end.

(** [collect P]: what the caller gets from [get] on each thread in order:
    the results, or the first exception, or nothing yet. *)
Fixpoint collect {A : Type} (P : pool A) : option (result (list A)) :=
  match P with
  | [] => Some (Ok [])
  | Finished (Ok a) :: P' => fmap (M := option) (fmap (cons a)) (collect P')
  | Finished (Raise e) :: _ => Some (Raise e)
  | _ => None
  end.

(** [pick n w]: the choice of the scheduler among [n], and the world with
    the choices that are left. *)
Definition pick (n : nat) (w : World) : nat * World :=
  match run (choose n) w with
  | (Ok c, w') => (c, w')
  | (Raise _, w') => (0%nat, w')
  end.

(** [pool_loop size fuel P]: the pool at work until the caller has all the
    results or an exception.  When an exception is first in the order of
    the threads, the caller leaves at the next choice [0] of the scheduler,
    and the threads that still run are left behind.  [None]: out of
    [fuel], or no thread can make a step. *)
Fixpoint pool_loop {A : Type} (size fuel : nat) (P : pool A) (w : World) :
    option (result (list A) * World) :=
  match fuel with
  | O => None
  | S fuel' =>
      match collect P, enabled size P with
      | Some r, [] => Some (r, w)
      | Some r, acts =>
          let '(c, w1) := pick (S (length acts)) w in
          match c with
          | O => Some (r, w1)
          | S c' =>
              let '(P', w2) := act (default 0%nat (acts !! c')) P w1 in
              pool_loop size fuel' P' w2
          end
      | None, [] => None
      | None, acts =>
          let '(c, w1) := pick (length acts) w in
          let '(P', w2) := act (default 0%nat (acts !! c)) P w1 in
          pool_loop size fuel' P' w2
      end
  end.

(** One step of the pool, as a relation: a thread starts on a free worker,
    or a thread that runs makes its next action. *)
Inductive pool_step {A : Type} (size : nat) : pool A * World → pool A * World → Prop :=
  | step_start (P : pool A) (w : World) (i : nat) (t : thread A) :
      P !! i = Some (Queued t) →
      (∀ j s, (j < i)%nat → P !! j = Some s → is_queued s = false) →
      (running P < size)%nat →
      pool_step size (P, w) (<[i := settle t]> P, w)
  | step_run (P : pool A) (w : World) (i : nat) (next : World → thread A)
      (effect : World → World) :
      P !! i = Some (Running next effect) →
      pool_step size (P, w) (<[i := settle (next w)]> P, effect w)
  | step_choice (P : pool A) (w : World) (n : nat) :
      pool_step size (P, w) (P, (pick n w).2).

(** [steps size]: any number of steps. *)
Inductive steps {A : Type} (size : nat) : pool A * World → pool A * World → Prop :=
  | steps_refl (x : pool A * World) : steps size x x
  | steps_cons (x y z : pool A * World) :
      pool_step size x y → steps size y z → steps size x z.

(** [slot_of t s]: the slot [s] holds the thread [t], or what is left of
    it, or a result of it. *)
Definition slot_of {A : Type} (I : World → Prop) (t : thread A) (s : slot A) : Prop :=
  match s with
  | Queued t' => t' = t
  | Running next effect => residual I t (Step next effect)
  | Finished r => residual I t (Done r)
  end.

(** [seq_run ts]: the threads one after the other, up to the first
    exception. *)
Fixpoint seq_run {A : Type} (ts : list (thread A)) (w : World) : result (list A) * World :=
  match ts with
  | [] => (Ok [], w)
  | t :: ts' =>
      match run_thread t w with
      | (Ok a, w') => let '(r, w'') := seq_run ts' w' in (cons a <$> r, w'')
      | (Raise e, w') => (Raise e, w')
      end
  end.

(** [slot_weight s k]: the thread of the slot needs [k] steps of the pool
    at most to finish. *)
Definition slot_weight {A : Type} (s : slot A) (k : nat) : Prop :=
  match s with
  | Queued t => ∃ n, height_le t n ∧ (S n ≤ k)%nat
  | Running next effect => height_le (Step next effect) k
  | Finished _ => True
  end.

(** [slot_thread s]: what is left of the thread of a slot. *)
Definition slot_thread {A : Type} (s : slot A) : thread A :=
  match s with
  | Queued t => t
  | Running next effect => Step next effect
  | Finished r => Done r
  end.

(** [quiet t]: no action of the thread touches the choices of the
    scheduler. *)
Inductive quiet {A : Type} : thread A → Prop :=
  | quiet_done (r : result A) : quiet (Done r)
  | quiet_step (next : World → thread A) (effect : World → World) :
      (∀ w, w_sched (effect w) = w_sched w) → (∀ w, quiet (next w)) →
      quiet (Step next effect).

(** [is_step t]: the thread has an action to make. *)
Definition is_step {A : Type} (t : thread A) : bool :=
  match t with Step _ _ => true | Done _ => false end.

(** [spent m t t' c]: [t'] is what is left of [t] after actions that have
    changed the measure [m] of the world by [c] in all. *)
Inductive spent {A : Type} (m : World → Z) : thread A → thread A → Z → Prop :=
  | spent_refl (t : thread A) : spent m t t 0
  | spent_step (next : World → thread A) (effect : World → World) (w : World)
      (t' : thread A) (c : Z) :
      spent m (next w) t' c →
      spent m (Step next effect) t' (m (effect w) - m w + c).

(** [slot_spent m t s c]: the slot [s] holds the thread [t] after actions
    that have changed [m] by [c]. *)
Definition slot_spent {A : Type} (m : World → Z) (t : thread A) (s : slot A) (c : Z) : Prop :=
  match s with
  | Queued t' => t' = t ∧ c = 0
  | Running next effect => spent m t (Step next effect) c
  | Finished r => spent m t (Done r) c
  end.

(** [pool_spent m ts P C]: the slots of [P] hold the threads [ts] after
    actions that have changed [m] by [C] in all. *)
Inductive pool_spent {A : Type} (m : World → Z) : list (thread A) → pool A → Z → Prop :=
  | pool_spent_nil : pool_spent m [] [] 0
  | pool_spent_cons (t : thread A) (s : slot A) (c : Z) (ts : list (thread A))
      (P : pool A) (C : Z) :
      slot_spent m t s c → pool_spent m ts P C → pool_spent m (t :: ts) (s :: P) (c + C).

(** ** Theorems *)

(** *** Threads *)

Lemma run_thread_atomic {A B : Type} (m : io B) (k : B → thread A) (w : World) :
  run_thread (atomic m k) w
  = match run m w with
    | (Ok b, w') => run_thread (k b) w'
    | (Raise e, w') => (Raise e, w')
    end.
Proof. simpl. by destruct (run m w) as [[b|e] w']. Qed.

Lemma residual_trans {A : Type} (I : World → Prop) (t1 t2 t3 : thread A) :
  residual I t1 t2 → residual I t2 t3 → residual I t1 t3.
Proof. induction 1; [done|]. intros. econstructor; eauto. Qed.

Lemma residual_next {A : Type} (I : World → Prop) (t : thread A)
    (next : World → thread A) (effect : World → World) (w : World) :
  I w → residual I t (Step next effect) → residual I t (next w).
Proof.
  intros Hw Hr. eapply residual_trans; [done|]. econstructor; [done | constructor].
Qed.

Lemma stable_residual {A : Type} (I : World → Prop) (t t' : thread A) :
  stable I t → residual I t t' → stable I t'.
Proof.
  intros Hs Hr. induction Hr as [|next effect w t' Hw Hr IH]; [done|].
  inversion Hs; subst. auto.
Qed.

Lemma stable_atomic {A B : Type} (I : World → Prop) (m : io B) (k : B → thread A) :
  (∀ w, I w → I (run m w).2) → (∀ b, stable I (k b)) → stable I (atomic m k).
Proof.
  intros Hm Hk. constructor; [done|]. intros w. destruct (run m w).1; [done | constructor].
Qed.

Lemma height_le_mono {A : Type} (t : thread A) (n m : nat) :
  height_le t n → (n ≤ m)%nat → height_le t m.
Proof.
  intros Hh. revert m. induction Hh as [r n|next effect n _ IH]; intros m Hm.
  - constructor.
  - destruct m as [|m]; [lia|]. constructor. intros w. apply IH. lia.
Qed.

Lemma height_le_atomic {A B : Type} (m : io B) (k : B → thread A) (n : nat) :
  (∀ b, height_le (k b) n) → height_le (atomic m k) (S n).
Proof.
  intros Hk. constructor. intros w. destruct (run m w).1; [done | constructor].
Qed.

Lemma quiet_atomic {A B : Type} (m : io B) (k : B → thread A) :
  (∀ w, w_sched (run m w).2 = w_sched w) → (∀ b, quiet (k b)) → quiet (atomic m k).
Proof.
  intros Hm Hk. constructor; [done|]. intros w. destruct (run m w).1; [done | constructor].
Qed.

(** What is left of [atomic m k]: all of it, or the exception of [m], or
    what is left of [k] on a value of [m]. *)
Lemma residual_atomic {A B : Type} (I : World → Prop) (m : io B) (k : B → thread A)
    (t' : thread A) :
  residual I (atomic m k) t' →
  t' = atomic m k
  ∨ (∃ w e, I w ∧ (run m w).1 = Raise e ∧ t' = Done (Raise e))
  ∨ ∃ w b, I w ∧ (run m w).1 = Ok b ∧ residual I (k b) t'.
Proof.
  inversion 1 as [|next effect w t'' Hw Hr]; subst; [by left | right].
  destruct (run m w).1 as [b|e] eqn:E; [right; eauto|left].
  inversion Hr; subst. eauto.
Qed.

Lemma spent_snoc {A : Type} (m : World → Z) (t : thread A) (next : World → thread A)
    (effect : World → World) (w : World) (c : Z) :
  spent m t (Step next effect) c → spent m t (next w) (c + (m (effect w) - m w)).
Proof.
  intros Hs. remember (Step next effect) as t' eqn:Et.
  induction Hs as [t|next0 effect0 w0 t' c Hs IH]; subst.
  - replace (0 + (m (effect w) - m w)) with (m (effect w) - m w + 0) by lia.
    constructor. constructor.
  - replace (m (effect0 w0) - m w0 + c + (m (effect w) - m w))
      with (m (effect0 w0) - m w0 + (c + (m (effect w) - m w))) by lia.
    constructor. by apply IH.
Qed.

(** What [atomic m0 k] has spent: nothing yet, or what [m0] spends and
    then what [k] spends. *)
Lemma spent_atomic {A B : Type} (m : World → Z) (m0 : io B) (k : B → thread A)
    (t' : thread A) (c : Z) :
  spent m (atomic m0 k) t' c →
  (t' = atomic m0 k ∧ c = 0)
  ∨ (∃ w e, (run m0 w).1 = Raise e ∧ t' = Done (Raise e) ∧ c = m (run m0 w).2 - m w)
  ∨ ∃ w b c', (run m0 w).1 = Ok b ∧ spent m (k b) t' c' ∧ c = m (run m0 w).2 - m w + c'.
Proof.
  inversion 1 as [|next effect w t'' c' Hr]; subst; [by left | right].
  destruct (run m0 w).1 as [b|e] eqn:E; [right; eauto 10|left].
  inversion Hr; subst. exists w, e. split_and!; [done..|lia].
Qed.

(** *** The pool: steps and invariants *)

Section PoolFacts.
Context {A : Type}.
Implicit Types (P : pool A) (s : slot A) (t : thread A) (w : World).

Lemma running_cons s P :
  running (s :: P) = ((if is_running s then 1 else 0) + running P)%nat.
Proof. unfold running. simpl. by destruct (is_running s). Qed.

Lemma running_insert P i s s' :
  P !! i = Some s →
  (running (<[i := s']> P) + (if is_running s then 1 else 0)
   = running P + (if is_running s' then 1 else 0))%nat.
Proof.
  revert i. induction P as [|s0 P IH]; intros i Hi; [done|].
  destruct i as [|i].
  - injection Hi as ->. change (<[0%nat := s']> (s :: P)) with (s' :: P).
    rewrite !running_cons. lia.
  - change (<[S i := s']> (s0 :: P)) with (s0 :: <[i := s']> P).
    rewrite !running_cons. specialize (IH i Hi). lia.
Qed.

Lemma settle_not_queued t : is_queued (settle t) = false.
Proof. by destruct t. Qed.

(** A step keeps the number of threads, and never has more threads at work
    than the pool has workers. *)
Lemma pool_step_length size P w P' w' :
  pool_step size (P, w) (P', w') → length P' = length P.
Proof. inversion 1; subst; by rewrite ?length_insert. Qed.

Lemma pool_step_running size P w P' w' :
  pool_step size (P, w) (P', w') → (running P ≤ size)%nat → (running P' ≤ size)%nat.
Proof.
  inversion 1 as [? ? i t Hi _ Hlt|? ? i next effect Hi|]; subst; intros Hle; [..|done].
  - pose proof (running_insert _ _ _ (settle t) Hi) as Hr. simpl in Hr.
    destruct (is_running _); lia.
  - pose proof (running_insert _ _ _ (settle (next w)) Hi) as Hr. simpl in Hr.
    destruct (is_running _); lia.
Qed.

Theorem steps_running size P w P' w' :
  steps size (P, w) (P', w') → (running P ≤ size)%nat → (running P' ≤ size)%nat.
Proof.
  intros Hs. remember (P, w) as x eqn:Ex. remember (P', w') as y eqn:Ey.
  revert P w Ex. induction Hs as [x|x [P1 w1] z Hstep Hs IH]; intros P w -> Hle.
  - by simplify_eq.
  - eapply IH; [done..|]. by eapply pool_step_running.
Qed.

(** A step keeps each slot with its thread, and the invariant of the
    world that the threads and the scheduler keep. *)
Section Invariant.
Context (I : World → Prop) (I_pick : ∀ n w, I w → I (pick n w).2).

Lemma pool_step_slots size (ts : list (thread A)) P w P' w' :
  Forall (stable I) ts → pool_step size (P, w) (P', w') →
  I w ∧ Forall2 (slot_of I) ts P → I w' ∧ Forall2 (slot_of I) ts P'.
Proof.
  intros Hst. inversion 1 as [? ? i t Hi _ _|? ? i next effect Hi|]; subst;
    intros [Hw HF]; [| |by split; [exact (I_pick 1%nat w Hw)|]];
    destruct (Forall2_lookup_r _ _ _ _ _ HF Hi) as (t0 & Ht0 & Hs); simpl in Hs.
  - subst t0. split; [done|].
    rewrite <- (list_insert_id ts i t Ht0). apply Forall2_insert; [done|].
    destruct t; simpl; constructor.
  - pose proof (stable_residual I _ _ (proj1 (Forall_lookup _ _) Hst _ _ Ht0) Hs) as Hst'.
    inversion Hst'; subst. split; [auto|].
    rewrite <- (list_insert_id ts i t0 Ht0). apply Forall2_insert; [done|].
    pose proof (residual_next I _ _ _ w Hw Hs) as Hn. by destruct (next w).
Qed.

Lemma steps_slots size (ts : list (thread A)) P w P' w' :
  Forall (stable I) ts → steps size (P, w) (P', w') →
  I w ∧ Forall2 (slot_of I) ts P → I w' ∧ Forall2 (slot_of I) ts P'.
Proof.
  intros Hst Hs. remember (P, w) as x eqn:Ex. remember (P', w') as y eqn:Ey.
  revert P w Ex. induction Hs as [x|x [P1 w1] z Hstep Hs IH]; intros P w -> HF.
  - by simplify_eq.
  - eapply IH; [done..|]. by eapply pool_step_slots.
Qed.

End Invariant.

(** A step of a thread adds what the action spends to what the pool has
    spent; a choice of the scheduler spends nothing. *)
Section Spent.
Context (m : World → Z) (m_pick : ∀ n w, m (pick n w).2 = m w).

Lemma pool_spent_insert (ts : list (thread A)) P (C : Z) (i : nat) (s : slot A) :
  pool_spent m ts P C → P !! i = Some s →
  ∃ t c, slot_spent m t s c
         ∧ ∀ s' c', slot_spent m t s' c' → pool_spent m ts (<[i := s']> P) (C - c + c').
Proof.
  intros Hp. revert i. induction Hp as [|t s0 c ts P C Hs Hp IH]; intros i Hi; [done|].
  destruct i as [|i]; simpl in Hi.
  - injection Hi as ->. exists t, c. split; [done|]. intros s' c' Hs'. simpl.
    replace (c + C - c + c') with (c' + C) by lia. by constructor.
  - destruct (IH i Hi) as (t' & c0 & Hs0 & Hins). exists t', c0. split; [done|].
    intros s' c' Hs'. simpl. replace (c + C - c0 + c') with (c + (C - c0 + c')) by lia.
    constructor; auto.
Qed.

Lemma pool_step_spent size (ts : list (thread A)) P w P' w' (C : Z) :
  pool_step size (P, w) (P', w') → pool_spent m ts P C →
  ∃ C', pool_spent m ts P' C' ∧ m w' - m w = C' - C.
Proof.
  inversion 1 as [? ? i t Hi _ _|? ? i next effect Hi|]; subst; intros Hp.
  - destruct (pool_spent_insert ts P C i _ Hp Hi) as (t0 & c & [-> ->] & Hins).
    exists (C - 0 + 0). split; [|lia]. apply Hins. destruct t0; simpl; constructor.
  - destruct (pool_spent_insert ts P C i _ Hp Hi) as (t0 & c & Hs & Hins). simpl in Hs.
    exists (C - c + (c + (m (effect w) - m w))). split; [|lia]. apply Hins.
    pose proof (spent_snoc m _ _ _ w _ Hs) as Hn. by destruct (next w).
  - exists C. split; [done|]. pose proof (m_pick 1%nat w) as Hm. simpl in *. lia.
Qed.

Lemma steps_spent size (ts : list (thread A)) P w P' w' (C : Z) :
  steps size (P, w) (P', w') → pool_spent m ts P C →
  ∃ C', pool_spent m ts P' C' ∧ m w' - m w = C' - C.
Proof.
  intros Hs. remember (P, w) as x eqn:Ex. remember (P', w') as y eqn:Ey.
  revert P w C Ex. induction Hs as [x|x [P1 w1] z Hstep Hs IH]; intros P w C -> Hp.
  - simplify_eq. exists C. split; [done|lia].
  - destruct (pool_step_spent _ _ _ _ _ _ _ Hstep Hp) as (C1 & Hp1 & Hm1).
    destruct (IH Ey P1 w1 C1 eq_refl Hp1) as (C' & Hp' & Hm'). exists C'. split; [done|lia].
Qed.

Lemma pool_spent_queued (ts : list (thread A)) : pool_spent m ts (Queued <$> ts) 0.
Proof.
  induction ts as [|t ts IH]; [constructor|].
  replace 0 with (0 + 0) by lia. by constructor.
Qed.

(** What the pool has spent when each thread spends between [lo] and
    [hi], whatever is left of it. *)
Lemma pool_spent_bounds (ts : list (thread A)) P (C lo hi : Z) :
  (∀ t s c, t ∈ ts → slot_spent m t s c → lo ≤ c ≤ hi) → pool_spent m ts P C →
  lo * Z.of_nat (length ts) ≤ C ≤ hi * Z.of_nat (length ts).
Proof.
  intros Hb Hp. induction Hp as [|t s c ts P C Hs Hp IH]; [simpl; lia|].
  pose proof (Hb t s c ltac:(by left) Hs).
  assert (lo * Z.of_nat (length ts) ≤ C ≤ hi * Z.of_nat (length ts))
    by (apply IH; intros t' s' c' Ht'; apply Hb; by right).
  rewrite length_cons. lia.
Qed.

(** What the pool has spent when the thread at each place spends no more
    than the bound at that place. *)
Lemma pool_spent_weights (ts : list (thread A)) P (C : Z) (hs : list Z) :
  Forall2 (λ t h, ∀ s c, slot_spent m t s c → 0 ≤ c ≤ h) ts hs → pool_spent m ts P C →
  0 ≤ C ≤ sumZ hs.
Proof.
  intros Hb Hp. revert hs Hb.
  induction Hp as [|t s c ts P C Hs Hp IH]; intros hs Hb; inversion Hb as [|? h ? hs' Hh Hb'];
    subst; [done|].
  specialize (Hh s c Hs). specialize (IH hs' Hb'). simpl. lia.
Qed.

(** What the pool has spent when every thread has a result and a thread
    that ends with a result has spent [k]. *)
Lemma pool_spent_results (ts : list (thread A)) P (C k : Z) (l : list A) :
  (∀ t a c, t ∈ ts → spent m t (Done (Ok a)) c → c = k) → pool_spent m ts P C →
  collect P = Some (Ok l) → C = k * Z.of_nat (length ts).
Proof.
  intros Hk Hp. revert l. induction Hp as [|t s c ts P C Hs Hp IH]; intros l Hc; [simpl; lia|].
  simpl in Hc. destruct s as [| |[a|e]]; try done.
  destruct (collect P) as [[l'|e]|] eqn:Ec; try done.
  rewrite (Hk t a c ltac:(by left) Hs), (IH ltac:(by intros t' a' c' Ht'; apply Hk; right) l')
    by done.
  rewrite length_cons. lia.
Qed.

End Spent.

(** *** The loop makes steps of the pool *)

Lemma elem_of_indices (f : slot A → bool) (k : nat) P (i : nat) :
  i ∈ indices f k P ↔ ∃ s, (k ≤ i)%nat ∧ P !! (i - k)%nat = Some s ∧ f s = true.
Proof.
  revert k. induction P as [|s0 P IH]; intros k; simpl.
  - split; [by intros ?%elem_of_nil | by intros (? & _ & ? & _)].
  - rewrite elem_of_app, IH. split.
    + intros [Hi|(s & Hk & Hl & Hf)].
      * destruct (f s0) eqn:E; [|by apply elem_of_nil in Hi].
        apply list_elem_of_singleton in Hi as ->. exists s0.
        by rewrite Nat.sub_diag.
      * exists s. split; [lia|]. split; [|done].
        by replace (i - k)%nat with (S (i - S k)) by lia.
    + intros (s & Hk & Hl & Hf). destruct (decide (i = k)) as [->|Hne].
      * left. rewrite Nat.sub_diag in Hl. injection Hl as ->. rewrite Hf.
        by apply list_elem_of_singleton.
      * right. exists s. split; [lia|]. split; [|done].
        by replace (i - k)%nat with (S (i - S k)) in Hl by lia.
Qed.

(** The first index of [indices] is the least. *)
Lemma head_indices (f : slot A → bool) (k : nat) P (i : nat) :
  head (indices f k P) = Some i →
  ∃ s, (k ≤ i)%nat ∧ P !! (i - k)%nat = Some s ∧ f s = true ∧
       ∀ j s', (j < i - k)%nat → P !! j = Some s' → f s' = false.
Proof.
  revert k. induction P as [|s0 P IH]; intros k; simpl; [done|].
  destruct (f s0) eqn:E; simpl.
  - intros [= <-]. exists s0. rewrite Nat.sub_diag. repeat split; [lia|done|lia].
  - intros (s & Hk & Hl & Hf & Hlt)%IH. exists s. split; [lia|].
    replace (i - k)%nat with (S (i - S k)) by lia. repeat split; [done..|].
    intros [|j] s' Hj; simpl; [by intros [= <-]|]. apply Hlt. lia.
Qed.

(** Every thread the loop may choose makes a step of the pool. *)
Lemma enabled_step size P w (i : nat) :
  i ∈ enabled size P → pool_step size (P, w) (act i P w).
Proof.
  unfold enabled, act. rewrite elem_of_app. intros [Hi|Hi].
  - apply elem_of_indices in Hi as (s & _ & Hl & Hf). rewrite Nat.sub_0_r in Hl.
    rewrite Hl. destruct s; try done. by constructor.
  - destruct (running P <? size)%nat eqn:E; [|by apply elem_of_nil in Hi].
    apply Nat.ltb_lt in E.
    destruct (indices is_queued 0 P) as [|i0 l] eqn:Ei; [by apply elem_of_nil in Hi|].
    simpl in Hi. apply list_elem_of_singleton in Hi as ->.
    destruct (head_indices is_queued 0 P i0) as (s & _ & Hl & Hf & Hlt); [by rewrite Ei|].
    rewrite Nat.sub_0_r in Hl, Hlt. rewrite Hl. destruct s; try done.
    constructor; [done| |done]. intros j s' Hj. by apply Hlt.
Qed.

Lemma pick_lt (n : nat) w : (0 < n)%nat → ((pick n w).1 < n)%nat.
Proof. intros Hn. unfold pick. simpl. apply Nat.mod_upper_bound. lia. Qed.

Lemma chosen_enabled (acts : list nat) (c : nat) :
  (c < length acts)%nat → default 0%nat (acts !! c) ∈ acts.
Proof.
  intros Hc. destruct (lookup_lt_is_Some_2 acts c Hc) as [i Hi]. rewrite Hi.
  by eapply list_elem_of_lookup_2.
Qed.

Lemma steps_trans size (x y z : pool A * World) :
  steps size x y → steps size y z → steps size x z.
Proof. induction 1; [done|]. intros. econstructor; eauto. Qed.

Lemma steps_once size (x y : pool A * World) : pool_step size x y → steps size x y.
Proof. intros. econstructor; [done | constructor]. Qed.

(** A choice of the scheduler and the step of the thread it chooses. *)
Lemma chosen_steps size P w (n c c' : nat) w1 :
  pick n w = (c, w1) → (c' < length (enabled size P))%nat →
  steps size (P, w) (act (default 0%nat (enabled size P !! c')) P w1).
Proof.
  intros Ep Hc. apply (steps_cons _ _ (P, w1)); [|apply steps_once].
  - assert (w1 = (pick n w).2) as -> by by rewrite Ep. apply step_choice.
  - by apply enabled_step, chosen_enabled.
Qed.

(** Refinement: what the loop returns is what the caller collects from a
    pool that the steps of the relation lead to. *)
Theorem pool_loop_steps size fuel P w (r : result (list A)) w' :
  pool_loop size fuel P w = Some (r, w') →
  ∃ P', steps size (P, w) (P', w') ∧ collect P' = Some r.
Proof.
  revert P w. induction fuel as [|fuel IH]; intros P w; [done|]. cbn [pool_loop].
  destruct (collect P) as [r0|] eqn:Ec, (enabled size P) as [|i0 acts] eqn:Ea;
    [by intros [= <- <-]; exists P; split; [apply steps_refl|] | | done |];
    match goal with |- context [pick ?n w] =>
      pose proof (pick_lt n w ltac:(simpl; lia)) as Hlt;
      destruct (pick n w) as [c w1] eqn:Ep end; simpl in Hlt.
  - destruct c as [|c].
    + intros [= <- <-]. exists P. split; [|done]. apply steps_once.
      assert (w1 = (pick (S (length (i0 :: acts))) w).2) as -> by by rewrite Ep.
      constructor.
    + destruct (act _ P w1) as [P' w2] eqn:Eact. intros (P'' & Hs & Hc)%IH.
      exists P''. split; [|done]. eapply steps_trans; [|done].
      rewrite <- Eact, <- Ea. eapply chosen_steps; [done|]. rewrite Ea. simpl. lia.
  - destruct (act _ P w1) as [P' w2] eqn:Eact. intros (P'' & Hs & Hc)%IH.
    exists P''. split; [|done]. eapply steps_trans; [|done].
    rewrite <- Eact, <- Ea. eapply chosen_steps; [done|]. by rewrite Ea.
Qed.

(** *** The results, in the order of the threads *)

Section Results.
Context (I : World → Prop) (I_pick : ∀ n w, I w → I (pick n w).2).

Lemma collect_ok (ts : list (thread A)) P (l : list A) :
  Forall2 (slot_of I) ts P → collect P = Some (Ok l) →
  Forall2 (λ t a, residual I t (Done (Ok a))) ts l.
Proof.
  intros HF. revert l. induction HF as [|t s ts P Hs HF IH]; intros l; simpl.
  - by intros [= <-].
  - destruct s as [|? ?|[a|e]]; try done.
    destruct (collect P) as [[l'|e]|]; try done. intros [= <-]. constructor; auto.
Qed.

Lemma collect_raise (ts : list (thread A)) P (e : exn) :
  Forall2 (slot_of I) ts P → collect P = Some (Raise e) →
  ∃ (i : nat) t (l : list A), ts !! i = Some t ∧ residual I t (Done (Raise e)) ∧
    Forall2 (λ t a, residual I t (Done (Ok a))) (take i ts) l.
Proof.
  intros HF. induction HF as [|t s ts P Hs HF IH]; simpl; [done|].
  destruct s as [|? ?|[a|e']]; try done.
  - destruct (collect P) as [[l'|e']|]; try done. intros [= <-].
    destruct IH as (i & t' & l & Hi & Hr & Hl); [done|].
    exists (S i), t', (a :: l). repeat split; [done..|]. by constructor.
  - intros [= <-]. exists 0%nat, t, []. repeat split; [done..|]. constructor.
Qed.

Lemma slots_queued (ts : list (thread A)) : Forall2 (slot_of I) ts (Queued <$> ts).
Proof. induction ts; constructor; done. Qed.

(** The results the caller gets are results of the threads, in their
    order, whatever the scheduler does; each action of a thread has seen a
    world in which the invariant holds, and the invariant holds at the
    end. *)
Theorem pool_results size fuel (ts : list (thread A)) w (l : list A) w' :
  I w → Forall (stable I) ts →
  pool_loop size fuel (Queued <$> ts) w = Some (Ok l, w') →
  I w' ∧ Forall2 (λ t a, residual I t (Done (Ok a))) ts l.
Proof.
  intros Hw Hst (P' & Hs & Hc)%pool_loop_steps.
  destruct (steps_slots I I_pick size ts _ _ _ _ Hst Hs) as [Hw' HF];
    [by split; [|apply slots_queued]|].
  split; [done|]. by eapply collect_ok.
Qed.

(** An exception the caller gets is the exception of a thread, and the
    threads before it have results. *)
Theorem pool_exception size fuel (ts : list (thread A)) w (e : exn) w' :
  I w → Forall (stable I) ts →
  pool_loop size fuel (Queued <$> ts) w = Some (Raise e, w') →
  I w' ∧ ∃ (i : nat) t (l : list A), ts !! i = Some t ∧ residual I t (Done (Raise e)) ∧
    Forall2 (λ t a, residual I t (Done (Ok a))) (take i ts) l.
Proof.
  intros Hw Hst (P' & Hs & Hc)%pool_loop_steps.
  destruct (steps_slots I I_pick size ts _ _ _ _ Hst Hs) as [Hw' HF];
    [by split; [|apply slots_queued]|].
  split; [done|]. by eapply collect_raise.
Qed.

End Results.

(** What the loop has spent is what its threads have spent. *)
Theorem pool_spends (m : World → Z) size fuel (ts : list (thread A)) w
    (r : result (list A)) w' :
  (∀ n w, m (pick n w).2 = m w) →
  pool_loop size fuel (Queued <$> ts) w = Some (r, w') →
  ∃ P' C, collect P' = Some r ∧ pool_spent m ts P' C ∧ m w' = m w + C.
Proof.
  intros Hm (P' & Hs & Hc)%pool_loop_steps.
  destruct (steps_spent m Hm size ts _ _ _ _ 0 Hs (pool_spent_queued m ts)) as (C & Hp & HC).
  exists P', C. split_and!; [done..|lia].
Qed.

(** Never more threads at work than workers. *)
Lemma running_queued (ts : list (thread A)) : running (Queued <$> ts) = 0%nat.
Proof. induction ts as [|t ts IH]; [done|]. by rewrite fmap_cons, running_cons, IH. Qed.

Theorem pool_bound size (ts : list (thread A)) w P' w' :
  steps size (Queued <$> ts, w) (P', w') → (running P' ≤ size)%nat.
Proof. intros Hs. eapply steps_running; [done|]. rewrite running_queued. lia. Qed.

(** The pool fills its workers: from the start the steps of the pool lead
    to a state in which the first [k] threads are at work, for every [k]
    up to the number of workers and of threads. *)
Lemma running_app P1 P2 : running (P1 ++ P2) = (running P1 + running P2)%nat.
Proof. unfold running. by rewrite List.filter_app, length_app. Qed.

Lemma running_settle (ts : list (thread A)) :
  Forall (λ t, is_step t = true) ts → running (settle <$> ts) = length ts.
Proof.
  induction 1 as [|t ts Ht _ IH]; [done|]. rewrite fmap_cons, running_cons, IH.
  by destruct t.
Qed.

Lemma pool_fill size (ts : list (thread A)) w (k : nat) :
  (k ≤ size)%nat → (k ≤ length ts)%nat → Forall (λ t, is_step t = true) ts →
  let P := (settle <$> take k ts) ++ (Queued <$> drop k ts) in
  steps size (Queued <$> ts, w) (P, w) ∧ running P = k.
Proof.
  intros Hsize Hlen Hst P. split.
  - subst P. induction k as [|k IH]; [rewrite take_0, drop_0; apply steps_refl|].
    destruct (lookup_lt_is_Some_2 ts k ltac:(lia)) as [t Ht].
    eapply steps_trans; [apply IH; lia|]. apply steps_once.
    rewrite (take_S_r _ _ _ Ht), (drop_S _ _ _ Ht), fmap_app, <- app_assoc. simpl.
    assert (length (settle <$> take k ts) = k) as Hk by (rewrite length_fmap, length_take; lia).
    replace ((settle <$> take k ts) ++ settle t :: (Queued <$> drop (S k) ts))
      with (<[k := settle t]> ((settle <$> take k ts) ++ Queued t :: (Queued <$> drop (S k) ts)))
      by (rewrite <- Hk at 1; by rewrite (insert_app_r_alt _ _ _ _ (le_n _)), Nat.sub_diag).
    apply step_start.
    + rewrite lookup_app_r, Hk, Nat.sub_diag by lia. done.
    + intros j s Hj Hs. rewrite lookup_app_l in Hs by lia.
      apply list_lookup_fmap_Some in Hs as (t' & -> & _). apply settle_not_queued.
    + rewrite running_app, running_settle, running_cons, running_queued, length_take
        by by apply Forall_take.
      simpl. lia.
  - subst P. rewrite running_app, running_settle, running_queued, length_take by by apply Forall_take.
    lia.
Qed.

(** *** The loop ends *)

Lemma enabled_cases size P (i : nat) :
  i ∈ enabled size P →
  (∃ t, P !! i = Some (Queued t)) ∨ (∃ next effect, P !! i = Some (Running next effect)).
Proof.
  unfold enabled. rewrite elem_of_app. intros [Hi|Hi].
  - apply elem_of_indices in Hi as (s & _ & Hl & Hf). rewrite Nat.sub_0_r in Hl.
    destruct s; try done. right. eauto.
  - destruct (running P <? size)%nat; [|by apply elem_of_nil in Hi].
    destruct (indices is_queued 0 P) as [|i1 l] eqn:Ei; [by apply elem_of_nil in Hi|].
    simpl in Hi. apply list_elem_of_singleton in Hi as ->.
    assert (i1 ∈ indices is_queued 0 P) as Hi by (rewrite Ei; left).
    apply elem_of_indices in Hi as (s & _ & Hl & Hf). rewrite Nat.sub_0_r in Hl.
    destruct s; try done. left. eauto.
Qed.

Lemma sum_list_insert (ks : list nat) (i k k' : nat) :
  ks !! i = Some k → (sum_list (<[i := k']> ks) + k = sum_list ks + k')%nat.
Proof.
  revert i. induction ks as [|k0 ks IH]; intros [|i] Hi; simplify_eq/=; [lia|].
  specialize (IH i Hi). lia.
Qed.

Lemma settle_weight (t : thread A) (n : nat) : height_le t n → slot_weight (settle t) n.
Proof. destruct 1; simpl; [done | by constructor]. Qed.

(** A step of a thread brings the pool nearer to its end. *)
Lemma act_weight size P (ks : list nat) w (i : nat) :
  i ∈ enabled size P → Forall2 slot_weight P ks →
  ∃ ks', Forall2 slot_weight (act i P w).1 ks' ∧ (sum_list ks' < sum_list ks)%nat.
Proof.
  intros Hi HF. unfold act.
  destruct (enabled_cases _ _ _ Hi) as [(t & Hl)|(next & effect & Hl)]; rewrite Hl; simpl;
    destruct (Forall2_lookup_l _ _ _ _ _ HF Hl) as (k & Hk & Hw); simpl in Hw.
  - destruct Hw as (n & Hh & Hn). exists (<[i := n]> ks). split.
    + apply Forall2_insert; [done | by apply settle_weight].
    + pose proof (sum_list_insert ks i k n Hk). lia.
  - inversion Hw as [|? ? n Hh]; subst. exists (<[i := n]> ks). split.
    + apply Forall2_insert; [done | by apply settle_weight].
    + pose proof (sum_list_insert ks i (S n) n Hk). lia.
Qed.

Lemma indices_nil (f : slot A → bool) (k : nat) P :
  indices f k P = [] → Forall (λ s, f s = false) P.
Proof.
  revert k. induction P as [|s P IH]; intros k; simpl; [done|].
  destruct (f s) eqn:E; [done|]. intros H. constructor; eauto.
Qed.

Lemma running_indices P : running P = length (indices is_running 0 P).
Proof.
  unfold running. generalize 0%nat. induction P as [|s P IH]; intros k; simpl; [done|].
  destruct (is_running s); simpl; by rewrite (IH (S k)).
Qed.

Lemma collect_finished P :
  Forall (λ s, is_running s = false) P → Forall (λ s, is_queued s = false) P →
  is_Some (collect P).
Proof.
  induction P as [|s P IH]; [done|].
  intros [Hr HR]%Forall_cons_1 [Hq HQ]%Forall_cons_1. simpl.
  destruct s as [| |[a|e]]; try done. by destruct (IH HR HQ) as [r ->].
Qed.

(** With a worker, a pool that waits for a result has a thread that can
    make a step. *)
Lemma no_deadlock size P : (0 < size)%nat → collect P = None → enabled size P ≠ [].
Proof.
  intros Hsize Hc He. unfold enabled in He. apply app_eq_nil in He as [Hr Hq].
  pose proof (running_indices P) as Hn. rewrite Hr in Hn. simpl in Hn.
  rewrite Hn in Hq. rewrite (proj2 (Nat.ltb_lt _ _)) in Hq by done.
  assert (indices is_queued 0 P = []) as Hq' by by destruct (indices is_queued 0 P).
  destruct (collect_finished P) as [r Hr']; [by eapply indices_nil..|congruence].
Qed.

(** Termination: with a worker and fuel for every step of every thread,
    the loop ends with the results or an exception, whatever the scheduler
    does. *)
Theorem pool_loop_total size fuel P (ks : list nat) w :
  (0 < size)%nat → Forall2 slot_weight P ks → (sum_list ks < fuel)%nat →
  is_Some (pool_loop size fuel P w).
Proof.
  intros Hsize. revert P ks w.
  induction fuel as [|fuel IH]; intros P ks w HF Hlt; [lia|]. cbn [pool_loop].
  pose proof (no_deadlock size P Hsize) as Hnd.
  destruct (collect P) as [r0|] eqn:Ec, (enabled size P) as [|i0 acts] eqn:Ea;
    [done | | by destruct Hnd |];
    match goal with |- context [pick ?n w] =>
      pose proof (pick_lt n w ltac:(simpl; lia)) as Hc;
      destruct (pick n w) as [c w1] eqn:Ep end; simpl in Hc.
  - destruct c as [|c]; [done|].
    destruct (act_weight size P ks w1 (default 0%nat ((i0 :: acts) !! c)))
      as (ks' & HF' & Hlt'); [rewrite <- Ea; apply chosen_enabled; rewrite Ea; simpl; lia|done|].
    destruct (act _ P w1) as [P' w2]. apply (IH _ ks'); [done|lia].
  - destruct (act_weight size P ks w1 (default 0%nat ((i0 :: acts) !! c)))
      as (ks' & HF' & Hlt'); [rewrite <- Ea; apply chosen_enabled; by rewrite Ea|done|].
    destruct (act _ P w1) as [P' w2]. apply (IH _ ks'); [done|lia].
Qed.

(** *** The scheduler that always takes the first thread *)

Lemma pick_nil (n : nat) w : w_sched w = [] → pick n w = (0%nat, w).
Proof.
  intros Hs. unfold pick. destruct w as [c t o sn net sc]. simpl in *. subst sc.
  simpl. by rewrite Nat.Div0.mod_0_l.
Qed.

Lemma collect_app_ok (done : list A) P :
  collect (((λ a, Finished (Ok a)) <$> done) ++ P)
  = fmap (M := option) (fmap (app done)) (collect P).
Proof.
  induction done as [|a done IH].
  - simpl. by destruct (collect P) as [[|]|].
  - rewrite fmap_cons. cbn [app collect]. rewrite IH.
    by destruct (collect P) as [[|]|].
Qed.

Lemma indices_app (f : slot A → bool) (k : nat) P1 P2 :
  indices f k (P1 ++ P2) = indices f k P1 ++ indices f (k + length P1) P2.
Proof.
  revert k. induction P1 as [|s P1 IH]; intros k; simpl.
  - by rewrite Nat.add_0_r.
  - rewrite IH, <- app_assoc. do 3 f_equal. lia.
Qed.

Lemma indices_false (f : slot A → bool) (k : nat) P :
  Forall (λ s, f s = false) P → indices f k P = [].
Proof.
  revert k. induction P as [|s P IH]; intros k HF; [done|].
  apply Forall_cons_1 in HF as [Hs HF]. simpl. by rewrite Hs, IH.
Qed.

(** The pool in which the first [done] threads have finished with a
    result, the next is [s], and the others wait. *)
Lemma enabled_seq size (done : list A) (s : slot A) (rest : list (thread A)) :
  (0 < size)%nat → is_finished s = false →
  head (enabled size (((λ a, Finished (Ok a)) <$> done) ++ s :: (Queued <$> rest)))
  = Some (length done).
Proof.
  intros Hsize Hs. unfold enabled. rewrite running_indices, !indices_app.
  rewrite !(indices_false _ _ (_ <$> done)) by by apply Forall_fmap, Forall_true.
  rewrite length_fmap. cbn [app indices plus]. destruct s; try done; simpl.
  rewrite (indices_false is_running) by by apply Forall_fmap, Forall_true.
  simpl. by rewrite (proj2 (Nat.ltb_lt _ _)) by done.
Qed.

Lemma act_seq (done : list A) (s : slot A) (rest : list (thread A)) w :
  act (length done) (((λ a, Finished (Ok a)) <$> done) ++ s :: (Queued <$> rest)) w
  = match s with
    | Queued t => (((λ a, Finished (Ok a)) <$> done) ++ settle t :: (Queued <$> rest), w)
    | Running next effect =>
        (((λ a, Finished (Ok a)) <$> done) ++ settle (next w) :: (Queued <$> rest), effect w)
    | Finished _ => (((λ a, Finished (Ok a)) <$> done) ++ s :: (Queued <$> rest), w)
    end.
Proof.
  unfold act. rewrite <- (length_fmap (λ a, Finished (Ok a)) done) at 1.
  rewrite list_lookup_middle by done.
  destruct s; [| |done]; by rewrite <- (length_fmap (λ a, Finished (Ok a)) done),
    insert_app_r_alt, Nat.sub_diag by done.
Qed.

Lemma pool_loop_all_done size fuel (done : list A) w :
  pool_loop size (S fuel) ((λ a, Finished (Ok a)) <$> done) w = Some (Ok done, w).
Proof.
  cbn [pool_loop]. rewrite <- (app_nil_r (_ <$> done)), collect_app_ok. simpl.
  rewrite app_nil_r. unfold enabled.
  rewrite !indices_false by by apply Forall_fmap, Forall_true.
  simpl. rewrite app_nil_r. by destruct (_ <? _)%nat.
Qed.

Lemma pool_loop_raised size fuel (done : list A) (e : exn) (rest : list (thread A)) w :
  w_sched w = [] →
  pool_loop size (S fuel)
    (((λ a, Finished (Ok a)) <$> done) ++ Finished (Raise e) :: (Queued <$> rest)) w
  = Some (Raise e, w).
Proof.
  intros Hs. cbn [pool_loop]. rewrite collect_app_ok.
  cbn [collect fmap option_fmap option_map result_fmap].
  destruct (enabled size _); [done|]. by rewrite pick_nil.
Qed.

(** The state of the sequential run: results, then a thread that has not
    finished, then threads that wait. *)
Lemma pool_loop_seq size fuel :
  (0 < size)%nat →
  ∀ (done : list A) (s : slot A) (rest : list (thread A)) (k : nat) (ks : list nat) w,
  w_sched w = [] → is_finished s = false →
  quiet (slot_thread s) → Forall quiet rest →
  slot_weight s k → Forall2 slot_weight (Queued <$> rest) ks →
  (k + sum_list ks < fuel)%nat →
  pool_loop size fuel (((λ a, Finished (Ok a)) <$> done) ++ s :: (Queued <$> rest)) w
  = Some (let '(r, w') := seq_run (slot_thread s :: rest) w in (app done <$> r, w')).
Proof.
  intros Hsize. induction fuel as [|fuel IH];
    intros done s rest k ks w Hs Hf Hq HQ Hk Hks Hlt; [lia|].
  (* what one step leads to *)
  assert (∀ (t' : thread A) (n : nat) w', w_sched w' = [] → quiet t' → height_le t' n →
            (n + sum_list ks < fuel)%nat →
            pool_loop size fuel
              (((λ a, Finished (Ok a)) <$> done) ++ settle t' :: (Queued <$> rest)) w'
            = Some (let '(r, w'') := seq_run (t' :: rest) w' in (app done <$> r, w'')))
    as Hpost.
  { intros t' n w' Hs' Hq' Hh' Hlt'. destruct t' as [[a|e]|next effect].
    - replace (((λ a, Finished (Ok a)) <$> done) ++ settle (Done (Ok a)) :: (Queued <$> rest))
        with (((λ a, Finished (Ok a)) <$> (done ++ [a])) ++ (Queued <$> rest))
        by by rewrite fmap_app, <- app_assoc.
      destruct rest as [|t rest].
      + destruct fuel; [lia|]. rewrite app_nil_r, pool_loop_all_done. done.
      + apply Forall_cons_1 in HQ as [Hqt HQ].
        apply Forall2_cons_inv_l in Hks as (kt & ks' & Hkt & Hks' & ->).
        rewrite fmap_cons, (IH _ (Queued t) rest kt ks') by (done || simpl in *; lia).
        simpl. destruct (run_thread t w') as [[b|e] w2]; [|done].
        destruct (seq_run rest w2) as [[l|e] w3]; simpl; [|done].
        by rewrite <- app_assoc.
    - destruct fuel; [lia|]. cbn [settle]. by rewrite pool_loop_raised.
    - apply (IH _ (Running next effect) rest n ks); done || lia. }
  cbn [pool_loop]. rewrite collect_app_ok.
  assert (collect (s :: (Queued <$> rest)) = None) as -> by by destruct s.
  cbn [fmap option_fmap option_map].
  pose proof (enabled_seq size done s rest Hsize Hf) as He.
  destruct (enabled size _) as [|i acts]; [done|]. injection He as ->.
  rewrite pick_nil by done. cbn [lookup list_lookup default].
  unfold id. rewrite act_seq. destruct s as [t|next effect|]; [| |done]; simpl in Hq, Hk.
  - destruct Hk as (n & Hh & Hn). rewrite (Hpost t n) by (done || lia). done.
  - inversion Hq as [|? ? Hsched Hnext]; subst. inversion Hk as [|? ? n Hh]; subst.
    rewrite (Hpost (next w) n) by (rewrite ?Hsched; done || lia). done.
Qed.

(** Sequential refinement: under the scheduler that always takes the
    first thread that can move, the pool runs the threads one after the other
    and stops at the first exception. *)
Theorem pool_loop_sequential size fuel (ts : list (thread A)) (ks : list nat) w :
  (0 < size)%nat → w_sched w = [] → Forall quiet ts →
  Forall2 slot_weight (Queued <$> ts) ks → (sum_list ks < fuel)%nat →
  pool_loop size fuel (Queued <$> ts) w = Some (seq_run ts w).
Proof.
  intros Hsize Hs HQ Hks Hlt. destruct ts as [|t rest].
  - destruct fuel; [lia|]. apply (pool_loop_all_done size fuel []).
  - apply Forall_cons_1 in HQ as [Hq HQ].
    apply Forall2_cons_inv_l in Hks as (k & ks' & Hk & Hks' & ->).
    rewrite (pool_loop_seq size fuel Hsize [] (Queued t) rest k ks') by done.
    cbn [slot_thread]. destruct (seq_run (t :: rest) w) as [[l|e] w']; done.
Qed.

End PoolFacts.
