(* ===== verification/Dispatch.v ===== *)
(** * Dispatch: sending the requests of a search

    The package sends the queries of a search through a pool of eight
    threads ([bulk_request]): each thread runs [create_request] on one
    query, and the caller takes the answers in the order of the queries.
    The module of the first version hands its requests to [grequests.map],
    which sends them all at once, waits for all of them and calls the
    handler of exceptions on each request that failed.

    The threads are the threads of [Threads]; what the world sees of
    [create_request] are its two readings of the clock and the sending of
    the request, so these are its three atomic actions.

    [bulk_request] ends when the caller has its answers or its exception.
    The workers finish the calls they have in flight then; these steps are
    steps of the relation [pool_step], and the bounds on the requests sent
    and on the threads at work are theorems on every state it reaches. *)

From S2P Require Import Prelude Text Calendar World Hash Sha256 Config Signer Request Threads.

(** ** Definitions *)

Module Pkg.
Export Request.Pkg.

Section WithHash.
Context `{HashFn}.

(** The number of workers of [ThreadPool(8)]. *)
Definition POOL_SIZE : nat := 8.

(** [pool.apply_async(self.create_request, (query, session))]: the call of
    [create_request] as a thread of the pool. *)
Definition create_request_task (self : AWIS) (query : string)
    (session : option session) : thread http_response :=
  atomic amz_date (λ amz,
    atomic date_stamp (λ ds,
      atomic (create_request_body self query session amz ds) (λ response,
        Done (Ok response)))).

(** The steps of the pool that are enough for [n] threads: one to start
    each thread and three for its actions, and one for the caller. *)
Definition pool_fuel (n : nat) : nat := S (4 * n).

(** [self.bulk_request(queries)] *)
Definition bulk_request (self : AWIS) (queries : list string) : io (list http_response) :=
  let session := Session in
  let async_requests :=
    (λ query, create_request_task self query (Some session)) <$> queries in
  IO (λ w,
    match pool_loop POOL_SIZE (pool_fuel (length queries)) (Queued <$> async_requests) w with
    | Some responses => responses
    | None => (raise RuntimeError "the pool has not finished", w)
    end).

End WithHash.
End Pkg.

(** [grequests.send]: a request of [grequests] as a greenlet.  The request
    is sent; its answer or its exception is kept in the request. *)
Definition send_task (r : http_request) : thread (result http_response) :=
  Step (λ w, Done (Ok (w_net w (w_sent w) r))) (send r).

(** [handled handler o]: what [grequests.map] puts in its list for a
    request with the outcome [o]. *)
Definition handled (handler : list unit → result (option http_response))
    (o : result http_response) : result (option http_response) :=
  match o with
  | Ok response => Ok (Some response)
  | Raise _ => handler [(); ()]
  end.

(** [grequests.map(requests, exception_handler=handler)]: all the requests
    at once, each in its greenlet; when all have finished, the answers in
    the order of the requests, with the value of the handler (called with
    the request and its exception) where a request has failed. *)
Definition grequests_map (requests : list http_request)
    (handler : list unit → result (option http_response)) :
    io (list (option http_response)) :=
  IO (λ w,
    let jobs := send_task <$> requests in
    match pool_loop (length requests) (S (2 * length requests)) (Queued <$> jobs) w with
    | Some (Ok outcomes, w') =>
        (mapM_result (handled handler) outcomes, w')
    | Some (Raise e, w') => (Raise e, w')
    | None => (raise RuntimeError "the greenlets have not finished", w)
    end).

Module Legacy.
Export Request.Legacy.

(** [exception_handler()], which takes no argument: a call with arguments
    is a [TypeError] before its body runs; the body warns and returns
    [None]. *)
Definition exception_handler (args : list unit) : result (option http_response) :=
  match args with
  | [] => Ok None
  | [_] => raise TypeError
             "exception_handler() takes 0 positional arguments but 1 was given"
  | _ => raise TypeError
           ("exception_handler() takes 0 positional arguments but "
            +:+ str_of_int (Z.of_nat (length args)) +:+ " were given")
  end.

(** [grequests.map(reqs, exception_handler=exception_handler)] *)
Definition send_requests (reqs : list AsyncRequest) : io (list (option http_response)) :=
  grequests_map reqs exception_handler.

End Legacy.

(** *** Specification *)

(** [unsched w]: the world after a choice of the scheduler. *)
Definition unsched (w : World) : World :=
  {| w_clock := w_clock w; w_ticks := w_ticks w; w_utcoff := w_utcoff w;
     w_sent := w_sent w; w_net := w_net w; w_sched := tl (w_sched w) |}.

Section Spec.
Context `{HashFn}.

(** [answers w self query response]: [response] is the answer of the
    network of [w], after the requests of [w] and some more, to a request
    for [query] that is signed with the keys of [self], with the time stamp
    and the date stamp of two readings of the clock after [w]. *)
Definition answers (w : World) (self : Pkg.AWIS) (query : string)
    (response : http_response) : Prop :=
  ∃ (more : list http_request) (k1 k2 : nat) (t1 t2 : datetime),
    utcfromtimestamp (w_clock (ticks k1 w)) = Ok t1
    ∧ utcfromtimestamp (w_clock (ticks k2 w)) = Ok t2
    ∧ w_net w (more ++ w_sent w)
        (signed_request self query (strftime_amz t1) (strftime_Ymd (dt_date t2)))
      = Ok response.

(** [fails w self query e]: [e] is the exception of a reading of the clock
    after [w], or of the network of [w] on a signed request for [query]. *)
Definition fails (w : World) (self : Pkg.AWIS) (query : string) (e : exn) : Prop :=
  (∃ k : nat, utcfromtimestamp (w_clock (ticks k w)) = Raise e)
  ∨ ∃ (more : list http_request) (amz ds : string),
      w_net w (more ++ w_sent w) (signed_request self query amz ds) = Raise e.

(** [sent_count w]: the number of requests sent. *)
Definition sent_count (w : World) : Z := Z.of_nat (length (w_sent w)).

(** [to_query self q r]: the request [r] goes to the URL of the query
    [q]. *)
Definition to_query (self : Pkg.AWIS) (q : string) (r : http_request) : Prop :=
  req_url r = Pkg.AWS_BASE_URL self +:+ "?" +:+ q.

#[export] Instance to_query_dec (self : Pkg.AWIS) (q : string) (r : http_request) :
  Decision (to_query self q r).
Proof. unfold to_query. apply _. Defined.

(** [sent_to self q w]: the number of requests sent to the URL of [q]. *)
Definition sent_to (self : Pkg.AWIS) (q : string) (w : World) : Z :=
  Z.of_nat (length (filter (to_query self q) (w_sent w))).

(** [sent_for self qs w w0]: the requests sent in [w0] are those of [w]
    and, in front, signed requests for queries of [qs]. *)
Definition sent_for (self : Pkg.AWIS) (qs : list string) (w w0 : World) : Prop :=
  ∃ more, w_sent w0 = more ++ w_sent w
          ∧ Forall (λ r, ∃ q amz ds, q ∈ qs ∧ r = signed_request self q amz ds) more.

(** [tasks self queries]: the threads of [bulk_request]. *)
Definition tasks (self : Pkg.AWIS) (queries : list string) : list (thread http_response) :=
  (λ query, Pkg.create_request_task self query (Some Session)) <$> queries.

End Spec.

(** *** Examples *)

(** A world in which it is noon (UTC) of the first day of 2020, the clock
    stands still and the network is down. *)
Definition offline_world : World :=
  {| w_clock := 1577880000; w_ticks := []; w_utcoff := 0; w_sent := [];
     w_net := λ _ _, raise RequestException "Connection refused"; w_sched := [] |}.

(** The same with a network that answers, and a scheduler that has
    choices to make. *)
Definition busy_world : World :=
  {| w_clock := 1577880000; w_ticks := [1; 1; 1]; w_utcoff := 0; w_sent := [];
     w_net := λ _ _, Ok (HttpResponse 200 [60; 47; 62]);
     w_sched := [1; 0; 2; 1; 1; 0]%nat |}.

(** ** Theorems *)

Section DispatchFacts.
Context `{HashFn}.

Lemma tick_sent_count (w : World) : sent_count (tick w) - sent_count w = 0.
Proof. unfold sent_count. simpl. lia. Qed.

Lemma send_sent_count (r : http_request) (w : World) :
  sent_count (send r w) - sent_count w = 1.
Proof. unfold sent_count. simpl. lia. Qed.

Lemma later_pick (w : World) (n : nat) (w0 : World) : later w w0 → later w (pick n w0).2.
Proof. by intros (? & ? & ? & ?). Qed.

(** *** The thread of [create_request] *)

(** Adequacy: the thread alone is [create_request]. *)
Lemma create_request_task_run (self : Pkg.AWIS) (q : string) (s : option session) (w : World) :
  run_thread (Pkg.create_request_task self q s) w = run (Pkg.create_request self q s) w.
Proof.
  unfold Pkg.create_request_task, Pkg.create_request.
  rewrite run_thread_atomic, run_bind.
  destruct (run Pkg.amz_date w) as [[amz|e] w1]; [|done].
  rewrite run_thread_atomic, run_bind.
  destruct (run Pkg.date_stamp w1) as [[ds|e] w2]; [|done].
  rewrite run_thread_atomic.
  by destruct (run (Pkg.create_request_body self q s amz ds) w2) as [[r|e] w3].
Qed.

Lemma create_request_task_height (self : Pkg.AWIS) (q : string) (s : option session) :
  height_le (Pkg.create_request_task self q s) 3.
Proof. repeat (apply height_le_atomic; intros ?). constructor. Qed.

Lemma create_request_task_quiet (self : Pkg.AWIS) (q : string) (s : option session) :
  quiet (Pkg.create_request_task self q s).
Proof.
  unfold Pkg.create_request_task.
  apply quiet_atomic; [by intros w; rewrite run_amz_date | intros amz].
  apply quiet_atomic; [by intros w; rewrite run_date_stamp | intros ds].
  apply quiet_atomic; [by intros w; rewrite run_create_request_body | intros r].
  constructor.
Qed.

Lemma create_request_task_stable (w : World) (self : Pkg.AWIS) (q : string)
    (s : option session) :
  stable (later w) (Pkg.create_request_task self q s).
Proof.
  unfold Pkg.create_request_task.
  apply stable_atomic; [intros w0 Hw; rewrite run_amz_date; by apply later_tick | intros amz].
  apply stable_atomic; [intros w0 Hw; rewrite run_date_stamp; by apply later_tick | intros ds].
  apply stable_atomic; [|intros r; constructor].
  intros w0 Hw. rewrite run_create_request_body. by apply later_send.
Qed.

(** What a thread of [create_request] can end with in the worlds after [w]:
    an answer of the network to a signed request for its query, or the
    exception of the clock or of the network. *)
Lemma create_request_task_result (w : World) (self : Pkg.AWIS) (q : string)
    (s : option session) (r : result http_response) :
  residual (later w) (Pkg.create_request_task self q s) (Done r) →
  match r with Ok response => answers w self q response | Raise e => fails w self q e end.
Proof.
  unfold Pkg.create_request_task.
  intros [[=]|[(w0 & e & Hl & Hm & [= ->])|(w0 & amz & Hl & Hamz & Hr)]]%residual_atomic;
    destruct Hl as (_ & _ & _ & k1 & Hk1 & _); rewrite run_amz_date, Hk1 in *;
    cbn [fst] in *; destruct (utcfromtimestamp (w_clock (ticks k1 w))) as [t1|e1] eqn:E1;
    simplify_eq/=; [by left; exists k1|].
  apply residual_atomic in Hr as [[=]|[(w1 & e & Hl & Hm & [= ->])|(w1 & ds & Hl & Hds & Hr)]];
    destruct Hl as (_ & _ & _ & k2 & Hk2 & _); rewrite run_date_stamp, Hk2 in *;
    cbn [fst] in *; destruct (utcfromtimestamp (w_clock (ticks k2 w))) as [t2|e2] eqn:E2;
    simplify_eq/=; [by left; exists k2|].
  apply residual_atomic in Hr
      as [[=]|[(w2 & e & Hl & Hm & [= ->])|(w2 & resp & Hl & Hm & Hr)]];
    destruct Hl as (Hn & _ & [more Hs] & _);
    rewrite run_create_request_body in Hm; simpl in Hm; rewrite Hn, Hs in Hm.
  - right. by exists more, (strftime_amz t1), (strftime_Ymd (dt_date t2)).
  - inversion Hr; subst. by exists more, k1, k2, t1, t2.
Qed.

(** A thread of [create_request] sends one request at most, and one when
    it ends with an answer. *)
Lemma create_request_task_spent (self : Pkg.AWIS) (q : string) (s : option session)
    (t' : thread http_response) (c : Z) :
  spent sent_count (Pkg.create_request_task self q s) t' c →
  0 ≤ c ≤ 1 ∧ ∀ a, t' = Done (Ok a) → c = 1.
Proof.
  unfold Pkg.create_request_task.
  intros [[-> ->]|[(w0 & e & _ & -> & ->)|(w0 & amz & c1 & _ & Hs & ->)]]%spent_atomic;
    rewrite ?run_amz_date; cbn [snd]; rewrite ?(tick_sent_count w0); [done..|].
  apply spent_atomic in Hs as [[-> ->]|[(w1 & e & _ & -> & ->)|(w1 & ds & c2 & _ & Hs & ->)]];
    rewrite ?run_date_stamp; cbn [snd]; rewrite ?(tick_sent_count w1); [done..|].
  apply spent_atomic in Hs as [[-> ->]|[(w2 & e & _ & -> & ->)|(w2 & resp & c3 & _ & Hs & ->)]];
    rewrite ?run_create_request_body; cbn [snd]; rewrite ?send_sent_count; [done..|].
  inversion Hs; subst. split; [lia|]. intros; lia.
Qed.

Lemma create_request_slot_spent (self : Pkg.AWIS) (q : string) (s : option session)
    (sl : slot http_response) (c : Z) :
  slot_spent sent_count (Pkg.create_request_task self q s) sl c → 0 ≤ c ≤ 1.
Proof.
  destruct sl as [t| |]; simpl; [intros [_ ->]; lia|..];
    by intros [? _]%create_request_task_spent.
Qed.

(** The same for each query: a thread of [create_request] sends one
    request at most to the URL of its query, and none to another. *)
Lemma tick_sent_to (self : Pkg.AWIS) (q : string) (w : World) :
  sent_to self q (tick w) - sent_to self q w = 0.
Proof. unfold sent_to. simpl. lia. Qed.

Lemma send_sent_to (self : Pkg.AWIS) (q q' amz ds : string) (w : World) :
  sent_to self q (send (signed_request self q' amz ds) w) - sent_to self q w
  = if decide (q' = q) then 1 else 0.
Proof.
  unfold sent_to. cbn [send w_sent]. case_decide as Hq.
  - subst. rewrite filter_cons_True by done. simpl. lia.
  - rewrite filter_cons_False; [lia|]. unfold to_query. rewrite signed_request_url.
    by intros ?%(inj (String.append _))%(inj (String.append _)).
Qed.

Lemma create_request_task_spent_to (self : Pkg.AWIS) (q0 q : string) (s : option session)
    (t' : thread http_response) (c : Z) :
  spent (sent_to self q0) (Pkg.create_request_task self q s) t' c →
  0 ≤ c ≤ if decide (q = q0) then 1 else 0.
Proof.
  unfold Pkg.create_request_task.
  intros [[-> ->]|[(w0 & e & _ & -> & ->)|(w0 & amz & c1 & _ & Hs & ->)]]%spent_atomic;
    rewrite ?run_amz_date; cbn [snd]; rewrite ?(tick_sent_to self q0 w0);
    [by case_decide..|].
  apply spent_atomic in Hs as [[-> ->]|[(w1 & e & _ & -> & ->)|(w1 & ds & c2 & _ & Hs & ->)]];
    rewrite ?run_date_stamp; cbn [snd]; rewrite ?(tick_sent_to self q0 w1);
    [by case_decide..|].
  apply spent_atomic in Hs as [[-> ->]|[(w2 & e & _ & -> & ->)|(w2 & resp & c3 & _ & Hs & ->)]];
    rewrite ?run_create_request_body; cbn [snd]; rewrite ?send_sent_to;
    [case_decide; lia..|].
  inversion Hs; subst. case_decide; lia.
Qed.

Lemma create_request_slot_spent_to (self : Pkg.AWIS) (q0 q : string) (s : option session)
    (sl : slot http_response) (c : Z) :
  slot_spent (sent_to self q0) (Pkg.create_request_task self q s) sl c →
  0 ≤ c ≤ if decide (q = q0) then 1 else 0.
Proof.
  destruct sl as [t| |]; simpl; [intros [_ ->]; case_decide; lia|..];
    apply create_request_task_spent_to.
Qed.

(** The queries that are [q], counted. *)
Lemma sumZ_indicator (q : string) (qs : list string) :
  sumZ ((λ q', if decide (q' = q) then 1 else 0) <$> qs)
  = Z.of_nat (length (filter (λ q', q' = q) qs)).
Proof.
  induction qs as [|q' qs IH]; [done|]. rewrite fmap_cons. simpl sumZ. rewrite IH.
  case_decide; [rewrite filter_cons_True by done | rewrite filter_cons_False by done];
    simpl; lia.
Qed.

(** A thread of [create_request] sends signed requests for its query
    only. *)
Lemma create_request_task_sent_for (self : Pkg.AWIS) (qs : list string) (w : World)
    (q : string) (s : option session) :
  q ∈ qs → stable (sent_for self qs w) (Pkg.create_request_task self q s).
Proof.
  intros Hq. unfold Pkg.create_request_task.
  apply stable_atomic; [by intros w0 Hw; rewrite run_amz_date | intros amz].
  apply stable_atomic; [by intros w0 Hw; rewrite run_date_stamp | intros ds].
  apply stable_atomic; [|intros r; constructor].
  intros w0 (more & Hm & HF). rewrite run_create_request_body.
  exists (signed_request self q amz ds :: more). split; [by simpl; rewrite Hm|].
  constructor; [by exists q, amz, ds | done].
Qed.

(** *** [bulk_request] *)

Lemma tasks_weight (self : Pkg.AWIS) (qs : list string) :
  Forall2 slot_weight (Queued <$> tasks self qs) (replicate (length qs) 4%nat).
Proof.
  induction qs as [|q qs IH]; constructor; [|done].
  exists 3%nat. split; [apply create_request_task_height | lia].
Qed.

Lemma tasks_stable (w : World) (self : Pkg.AWIS) (qs : list string) :
  Forall (stable (later w)) (tasks self qs).
Proof. apply Forall_fmap, Forall_true. intros q. apply create_request_task_stable. Qed.

Lemma tasks_quiet (self : Pkg.AWIS) (qs : list string) : Forall quiet (tasks self qs).
Proof. apply Forall_fmap, Forall_true. intros q. apply create_request_task_quiet. Qed.

Lemma pool_fuel_enough (n : nat) : (sum_list (replicate n 4) < Pkg.pool_fuel n)%nat.
Proof. rewrite sum_list_replicate. unfold Pkg.pool_fuel. lia. Qed.

(** The loop of the pool ends within the fuel of [bulk_request], whatever
    the scheduler does: the exception for a pool that has not finished is
    never raised. *)
Lemma run_bulk_request (self : Pkg.AWIS) (qs : list string) (w : World) :
  pool_loop Pkg.POOL_SIZE (Pkg.pool_fuel (length qs)) (Queued <$> tasks self qs) w
  = Some (run (Pkg.bulk_request self qs) w).
Proof.
  destruct (pool_loop_total Pkg.POOL_SIZE (Pkg.pool_fuel (length qs))
              (Queued <$> tasks self qs) (replicate (length qs) 4%nat) w) as [rw Hrw];
    [unfold Pkg.POOL_SIZE; lia | apply tasks_weight | apply pool_fuel_enough |].
  change (run (Pkg.bulk_request self qs) w)
    with (match pool_loop Pkg.POOL_SIZE (Pkg.pool_fuel (length qs))
                  (Queued <$> tasks self qs) w with
          | Some responses => responses
          | None => (raise RuntimeError "the pool has not finished", w)
          end).
  by rewrite Hrw.
Qed.

Lemma seq_run_tasks (self : Pkg.AWIS) (qs : list string) (w : World) :
  seq_run (tasks self qs) w
  = run (mapM_io (λ q, Pkg.create_request self q (Some Session)) qs) w.
Proof.
  revert w. induction qs as [|q qs IH]; intros w; [done|].
  rewrite run_mapM_io_cons, <- create_request_task_run. cbn [tasks fmap list_fmap seq_run].
  destruct (run_thread _ w) as [[a|e] w1]; [|done]. fold (tasks self qs). rewrite IH.
  by destruct (run (mapM_io _ qs) w1) as [[l|e] w2].
Qed.

(** C8: Termination: under every scheduler the pool of [bulk_request] ends in
    the steps it is given, and [bulk_request] returns what the pool ends
    with. *)
Theorem bulk_request_total (self : Pkg.AWIS) (qs : list string) (w : World) :
  ∃ r w', pool_loop Pkg.POOL_SIZE (Pkg.pool_fuel (length qs)) (Queued <$> tasks self qs) w
          = Some (r, w')
          ∧ run (Pkg.bulk_request self qs) w = (r, w').
Proof.
  pose proof (run_bulk_request self qs w) as Hr.
  destruct (run (Pkg.bulk_request self qs) w) as [r w']. by exists r, w'.
Qed.

Lemma run_bulk_request_sequential (self : Pkg.AWIS) (qs : list string) (w : World) :
  w_sched w = [] →
  run (Pkg.bulk_request self qs) w
  = run (mapM_io (λ q, Pkg.create_request self q (Some Session)) qs) w.
Proof.
  intros Hs. pose proof (run_bulk_request self qs w) as Hr.
  rewrite (pool_loop_sequential _ _ _ (replicate (length qs) 4%nat)) in Hr;
    [| unfold Pkg.POOL_SIZE; lia | done | apply tasks_quiet | apply tasks_weight
     | apply pool_fuel_enough].
  rewrite <- seq_run_tasks. symmetry. by apply (inj Some).
Qed.

(** C16: Sequential refinement: when the scheduler always takes the first thread
    that can move, [bulk_request] is [create_request] on each query in
    turn, up to the first exception. *)
Theorem bulk_request_sequential (self : Pkg.AWIS) (qs : list string) (w : World) :
  w_sched w = [] →
  run (Pkg.bulk_request self qs) w
  = run (mapM_io (λ q, Pkg.create_request self q (Some Session)) qs) w.
Proof. apply run_bulk_request_sequential. Qed.

(** [bulk_request] under every scheduler: the world after it is a world
    after the one before; its answers are answers to signed requests for
    the queries, place by place; its exception is the exception of the
    thread of a query, the threads before which have answers. *)
Lemma bulk_request_inv (self : Pkg.AWIS) (qs : list string) (w w' : World)
    (r : result (list http_response)) :
  run (Pkg.bulk_request self qs) w = (r, w') →
  later w w'
  ∧ match r with
    | Ok l => Forall2 (answers w self) qs l
    | Raise e => ∃ (i : nat) (q : string) (l : list http_response),
        qs !! i = Some q ∧ fails w self q e ∧ Forall2 (answers w self) (take i qs) l
    end.
Proof.
  intros Hrun. pose proof (run_bulk_request self qs w) as Hr. rewrite Hrun in Hr.
  assert (∀ ts l, Forall2 (λ t a, residual (later w) t (Done (Ok a)))
                    ((λ q, Pkg.create_request_task self q (Some Session)) <$> ts) l →
                  Forall2 (answers w self) ts l) as Hans.
  { intros ts l Hl%Forall2_fmap_l. eapply Forall2_impl; [done|].
    intros q a Hres. by apply create_request_task_result in Hres. }
  destruct r as [l|e].
  - apply (pool_results (later w) (later_pick w)) in Hr as [Hw' Hr];
      [|apply later_refl | apply tasks_stable]. auto.
  - apply (pool_exception (later w) (later_pick w)) in Hr
        as (Hw' & i & t & l & Ht & Hres & Hl); [|apply later_refl | apply tasks_stable].
    apply list_lookup_fmap_Some in Ht as (q & -> & Hq). split; [done|].
    exists i, q, l. split_and!; [done | by apply create_request_task_result in Hres |].
    unfold tasks in Hl. rewrite <- fmap_take in Hl. auto.
Qed.

(** A query the network fails on, whatever was sent before and whatever
    the stamps, makes [bulk_request] raise under every scheduler. *)
Lemma bulk_request_failing (self : Pkg.AWIS) (qs : list string) (w : World) (q : string) :
  q ∈ qs → (∀ sent amz ds, is_ok (w_net w sent (signed_request self q amz ds)) = false) →
  ∃ e w', run (Pkg.bulk_request self qs) w = (Raise e, w')
          ∧ ∃ q', q' ∈ qs ∧ fails w self q' e.
Proof.
  intros Hq Hfail. destruct (run (Pkg.bulk_request self qs) w) as [[l|e] w'] eqn:Er;
    apply bulk_request_inv in Er as [_ Hr].
  - apply list_elem_of_lookup in Hq as [i Hi].
    destruct (Forall2_lookup_l _ _ _ _ _ Hr Hi) as (a & _ & more & k1 & k2 & t1 & t2 & _ & _ & Hn).
    specialize (Hfail (more ++ w_sent w) (strftime_amz t1) (strftime_Ymd (dt_date t2))).
    by rewrite Hn in Hfail.
  - destruct Hr as (i & q' & l & Hi & Hf & _). exists e, w'. split; [done|].
    exists q'. split; [by eapply list_elem_of_lookup_2 | done].
Qed.

(** C4: Order: under every scheduler, the answers [bulk_request] returns are as
    many as the queries, and the answer at each place is the answer of the
    network to a signed request for the query at that place. *)
Theorem bulk_request_results (self : Pkg.AWIS) (qs : list string) (w w' : World)
    (l : list http_response) :
  run (Pkg.bulk_request self qs) w = (Ok l, w') → Forall2 (answers w self) qs l.
Proof. by intros [_ ?]%bulk_request_inv. Qed.

(** C17: Failure: an exception of [bulk_request] is the exception of the clock or
    of the network in the thread of one query, and the threads of the
    queries before it have answers. *)
Theorem bulk_request_exception (self : Pkg.AWIS) (qs : list string) (w w' : World) (e : exn) :
  run (Pkg.bulk_request self qs) w = (Raise e, w') →
  ∃ (i : nat) (q : string) (l : list http_response),
    qs !! i = Some q ∧ fails w self q e ∧ Forall2 (answers w self) (take i qs) l.
Proof. by intros [_ ?]%bulk_request_inv. Qed.

(** What [bulk_request] sends, under every scheduler: one request at
    most for each query, and one for each when it returns the answers. *)
Lemma bulk_request_sent_count (self : Pkg.AWIS) (qs : list string) (w : World) :
  let '(r, w') := run (Pkg.bulk_request self qs) w in
  sent_count w ≤ sent_count w' ≤ sent_count w + Z.of_nat (length qs)
  ∧ match r with
    | Ok _ => sent_count w' = sent_count w + Z.of_nat (length qs)
    | Raise _ => True
    end.
Proof.
  pose proof (run_bulk_request self qs w) as Hr.
  destruct (run (Pkg.bulk_request self qs) w) as [r w'].
  apply (pool_spends sent_count) in Hr as (P' & C & Hc & Hp & ->); [|done].
  assert (length (tasks self qs) = length qs) as Hlen by apply length_fmap.
  split.
  - pose proof (pool_spent_bounds sent_count (tasks self qs) P' C 0 1) as Hb.
    rewrite Hlen in Hb. apply Hb in Hp; [lia|].
    intros t s c (q & -> & _)%list_elem_of_fmap. apply create_request_slot_spent.
  - destruct r as [l|e]; [|done].
    rewrite (pool_spent_results sent_count (tasks self qs) P' C 1 l), Hlen; [lia| |done..].
    intros t a c (q & -> & _)%list_elem_of_fmap Hs.
    apply create_request_task_spent in Hs as [_ Hc1]. by apply (Hc1 a).
Qed.

(** The requests [bulk_request] sends are signed requests for its
    queries. *)
Lemma bulk_request_sent_for (self : Pkg.AWIS) (qs : list string) (w : World) :
  sent_for self qs w (run (Pkg.bulk_request self qs) w).2.
Proof.
  pose proof (run_bulk_request self qs w) as Hr.
  destruct (run (Pkg.bulk_request self qs) w) as [r w'].
  assert (sent_for self qs w w) as Hw by by exists [].
  assert (Forall (stable (sent_for self qs w)) (tasks self qs)) as Hst.
  { apply Forall_fmap, Forall_forall. intros q Hq. by apply create_request_task_sent_for. }
  assert (∀ n w0, sent_for self qs w w0 → sent_for self qs w (pick n w0).2) as Hpick by done.
  destruct r as [l|e].
  - by apply (pool_results _ Hpick) in Hr as [? _].
  - by apply (pool_exception _ Hpick) in Hr as [? _].
Qed.

(** C15: What [bulk_request] sends, under every scheduler: signed requests for
    its queries, no more of them than there are queries, and as many as the
    queries when it returns the answers. *)
Theorem bulk_request_sends (self : Pkg.AWIS) (qs : list string) (w : World) :
  let '(r, w') := run (Pkg.bulk_request self qs) w in
  ∃ more, w_sent w' = more ++ w_sent w
    ∧ Forall (λ r, ∃ q amz ds, q ∈ qs ∧ r = signed_request self q amz ds) more
    ∧ (length more ≤ length qs)%nat
    ∧ match r with Ok _ => length more = length qs | Raise _ => True end.
Proof.
  pose proof (bulk_request_sent_count self qs w) as Hc.
  pose proof (bulk_request_sent_for self qs w) as (more & Hm & HF).
  destruct (run (Pkg.bulk_request self qs) w) as [r w']. simpl in Hm.
  exists more. unfold sent_count in Hc. rewrite Hm, length_app in Hc.
  split_and!; [done..|lia|]. destruct r; [lia|done].
Qed.


(** What the pool sends to the URL of one query, in every state it can
    reach: no more requests than the query has places in the list. *)
Lemma pool_sent_to (self : Pkg.AWIS) (qs : list string) (w : World)
    (P' : pool http_response) (w' : World) (q : string) :
  steps Pkg.POOL_SIZE (Queued <$> tasks self qs, w) (P', w') →
  sent_to self q w' - sent_to self q w ≤ Z.of_nat (length (filter (λ q', q' = q) qs)).
Proof.
  intros Hs.
  destruct (steps_spent (sent_to self q) ltac:(done) _ _ _ _ _ _ 0 Hs
              (pool_spent_queued (sent_to self q) (tasks self qs))) as (C & Hp & ->).
  apply (pool_spent_weights _ _ _ _ ((λ q', if decide (q' = q) then 1 else 0) <$> qs)) in Hp;
    [rewrite sumZ_indicator in Hp; lia|].
  apply Forall2_fmap, Forall_Forall2_diag, Forall_forall.
  intros q' _ s c. apply create_request_slot_spent_to.
Qed.

(** C19: What the pool of [bulk_request] sends, in every state it can reach,
    the states after the caller has left with its answers or with an
    exception included (the workers finish the calls they have started):
    signed requests for the queries, no more of them than there are
    queries, and to the URL of each query no more than the query has
    places in the list (one at most when the queries differ). *)
Theorem bulk_request_pool_sends (self : Pkg.AWIS) (qs : list string) (w : World)
    (P' : pool http_response) (w' : World) :
  steps Pkg.POOL_SIZE (Queued <$> tasks self qs, w) (P', w') →
  ∃ more, w_sent w' = more ++ w_sent w
    ∧ Forall (λ r, ∃ q amz ds, q ∈ qs ∧ r = signed_request self q amz ds) more
    ∧ (length more ≤ length qs)%nat
    ∧ ∀ q, (length (filter (to_query self q) more)
            ≤ length (filter (λ q', q' = q) qs))%nat.
Proof.
  intros Hs. assert (length (tasks self qs) = length qs) as Hlen by apply length_fmap.
  assert (Forall (stable (sent_for self qs w)) (tasks self qs)) as Hst.
  { apply Forall_fmap, Forall_forall. intros q Hq. by apply create_request_task_sent_for. }
  destruct (steps_slots (sent_for self qs w) ltac:(done) _ _ _ _ _ _ Hst Hs)
    as [(more & Hm & HF) _]; [split; [by exists [] | apply slots_queued]|].
  destruct (steps_spent sent_count ltac:(done) _ _ _ _ _ _ 0 Hs
              (pool_spent_queued sent_count (tasks self qs))) as (C & Hp & HC).
  apply (pool_spent_bounds sent_count _ _ _ 0 1) in Hp;
    [|intros t s c (q & -> & _)%list_elem_of_fmap; apply create_request_slot_spent].
  exists more. unfold sent_count in HC. rewrite Hm, length_app in HC.
  split_and!; [done..|lia|]. intros q. pose proof (pool_sent_to self qs w P' w' q Hs) as Hq.
  unfold sent_to in Hq. rewrite Hm, filter_app, length_app in Hq. lia.
Qed.

(** [bulk_request] is a run of the pool: its outcome is what the caller
    collects in a state the steps of the pool reach. *)
Theorem bulk_request_steps (self : Pkg.AWIS) (qs : list string) (w : World) :
  ∃ P', steps Pkg.POOL_SIZE (Queued <$> tasks self qs, w)
          (P', (run (Pkg.bulk_request self qs) w).2)
        ∧ collect P' = Some (run (Pkg.bulk_request self qs) w).1.
Proof.
  pose proof (run_bulk_request self qs w) as Hr.
  destruct (run (Pkg.bulk_request self qs) w) as [r w']. by apply pool_loop_steps in Hr.
Qed.

End DispatchFacts.

(** *** [grequests.map] and the handler of the first version *)

Lemma send_task_stable (w : World) (r : http_request) : stable (later w) (send_task r).
Proof. constructor; [intros w0; apply later_send | constructor]. Qed.

Lemma send_task_result (w : World) (r : http_request) (x : result (result http_response)) :
  residual (later w) (send_task r) (Done x) →
  ∃ more, x = Ok (w_net w (more ++ w_sent w) r).
Proof.
  inversion 1 as [|next effect w0 t' (Hn & _ & [more Hs] & _) Hr]; subst.
  inversion Hr; subst.
  exists more. by rewrite Hn, Hs.
Qed.

Lemma send_tasks_weight (reqs : list http_request) :
  Forall2 slot_weight (Queued <$> (send_task <$> reqs)) (replicate (length reqs) 2%nat).
Proof.
  induction reqs as [|r reqs IH]; constructor; [|done].
  exists 1%nat. split; [repeat constructor | lia].
Qed.

(** The greenlets all finish, whatever the scheduler does, each with the
    answer or the exception of the network for its request. *)
Lemma run_send_tasks (reqs : list http_request) (w : World) :
  ∃ outcomes w',
    pool_loop (length reqs) (S (2 * length reqs)) (Queued <$> (send_task <$> reqs)) w
    = Some (Ok outcomes, w')
    ∧ Forall2 (λ r o, ∃ more, o = w_net w (more ++ w_sent w) r) reqs outcomes.
Proof.
  destruct (decide (reqs = [])) as [->|Hne]; [by exists [], w; split; [|constructor]|].
  assert (0 < length reqs)%nat by (destruct reqs; simpl; [done|lia]).
  destruct (pool_loop_total (length reqs) (S (2 * length reqs))
              (Queued <$> (send_task <$> reqs)) (replicate (length reqs) 2%nat) w)
    as [[[l|e] w'] Hrw];
    [done | apply send_tasks_weight | rewrite sum_list_replicate; lia | |].
  - exists l, w'. split; [done|].
    apply (pool_results (later w) (later_pick w)) in Hrw as [_ Hrw];
      [|apply later_refl | apply Forall_fmap, Forall_true, send_task_stable].
    apply Forall2_fmap_l in Hrw.
    eapply Forall2_impl; [done|]. intros r o [more [= ->]]%send_task_result. by exists more.
  - apply (pool_exception (later w) (later_pick w)) in Hrw as (_ & i & t & l & Ht & Hres & _);
      [|apply later_refl | apply Forall_fmap, Forall_true, send_task_stable].
    apply list_lookup_fmap_Some in Ht as (r & -> & _).
    by apply send_task_result in Hres as [more [=]].
Qed.

(** One request: the scheduler chooses twice among one, the request is
    sent, and the handler is called if it has failed. *)
Lemma run_grequests_map_one (r : http_request)
    (handler : list unit → result (option http_response)) (w : World) :
  run (grequests_map [r] handler) w
  = ((λ o, [o]) <$> handled handler (w_net w (w_sent w) r), send r (unsched (unsched w))).
Proof.
  change (run (grequests_map [r] handler) w)
    with (mapM_result (handled handler) [w_net w (w_sent w) r], send r (unsched (unsched w))).
  cbn [mapM_result]. by destruct (handled handler _).
Qed.

(** [grequests.map] with the handler of the first version, under every
    scheduler: when it returns, every request was answered, and the
    answers are in the order of the requests; when it raises, a request
    has failed and the exception is the [TypeError] of the call of the
    handler. *)
Lemma send_requests_inv (reqs : list Legacy.AsyncRequest) (w w' : World)
    (x : result (list (option http_response))) :
  run (Legacy.send_requests reqs) w = (x, w') →
  match x with
  | Ok l => Forall2 (λ r o, ∃ more response,
              o = Some response ∧ w_net w (more ++ w_sent w) r = Ok response) reqs l
  | Raise e => exn_cls e = TypeError
               ∧ ∃ r more e0, r ∈ reqs ∧ w_net w (more ++ w_sent w) r = Raise e0
  end.
Proof.
  destruct (run_send_tasks reqs w) as (os & w1 & Hrun & Hos).
  unfold Legacy.send_requests, grequests_map. cbn [run]. rewrite Hrun. intros [= Hm <-].
  clear Hrun. destruct x as [l|e].
  - apply mapM_result_Ok in Hm. revert l Hm.
    induction Hos as [|r o reqs' os' [more ->] _ IH]; intros l Hm; inversion Hm; subst;
      constructor; [|by apply IH].
    exists more. destruct (w_net w (more ++ w_sent w) r) as [resp|e]; [|done].
    simplify_eq/=. eauto.
  - apply mapM_result_Raise in Hm as (o & Ho & Hf).
    destruct o as [resp|e0]; [done|]. injection Hf as <-. split; [done|].
    apply list_elem_of_lookup in Ho as [i Hi].
    destruct (Forall2_lookup_r _ _ _ _ _ Hos Hi) as (r & Hr & more & Hw0).
    exists r, more, e0. split; [by eapply list_elem_of_lookup_2 | done].
Qed.

(** C32: A batch in which every request is answered: the answers, in the order
    of the requests. *)
Theorem send_requests_ok (reqs : list Legacy.AsyncRequest) (w w' : World)
    (l : list (option http_response)) :
  run (Legacy.send_requests reqs) w = (Ok l, w') →
  Forall2 (λ r o, ∃ more response,
             o = Some response ∧ w_net w (more ++ w_sent w) r = Ok response) reqs l.
Proof. apply send_requests_inv. Qed.

(** A request the network fails on makes the batch end in the [TypeError]
    of the handler call. *)
Lemma send_requests_failing (reqs : list Legacy.AsyncRequest) (w : World)
    (r : http_request) :
  r ∈ reqs → (∀ sent, is_ok (w_net w sent r) = false) →
  ∃ e w', run (Legacy.send_requests reqs) w = (Raise e, w') ∧ exn_cls e = TypeError.
Proof.
  intros Hr Hfail. destruct (run (Legacy.send_requests reqs) w) as [[l|e] w'] eqn:Es;
    apply send_requests_inv in Es.
  - apply list_elem_of_lookup in Hr as [i Hi].
    destruct (Forall2_lookup_l _ _ _ _ _ Es Hi) as (o & _ & more & resp & _ & Hn).
    specialize (Hfail (more ++ w_sent w)). by rewrite Hn in Hfail.
  - exists e, w'. by destruct Es.
Qed.

(** C9: A batch in which a request fails whatever was sent before it: the
    handler takes no argument and [grequests.map] calls it with two, so
    the batch ends with a [TypeError] instead of a warning. *)
Theorem send_requests_failure (reqs : list Legacy.AsyncRequest) (w : World)
    (r : http_request) :
  r ∈ reqs → (∀ sent, is_ok (w_net w sent r) = false) →
  ∃ e w', run (Legacy.send_requests reqs) w = (Raise e, w') ∧ exn_cls e = TypeError.
Proof. apply send_requests_failing. Qed.

(** *** The theorems at concrete inputs, with SHA-256 *)

Lemma bulk_request_results_witness :
  Forall2 (answers busy_world example_client) ["Action=A"; "Action=B"]
    [HttpResponse 200 [60; 47; 62]; HttpResponse 200 [60; 47; 62]].
Proof.
  eapply (bulk_request_results example_client ["Action=A"; "Action=B"] busy_world).
  vm_compute. reflexivity.
Defined.

Lemma bulk_request_pool_sends_witness :
  ∃ more,
    w_sent (run (Pkg.bulk_request example_client ["Action=A"; "Action=B"]) offline_world).2
    = more ++ w_sent offline_world
    ∧ Forall (λ r, ∃ q amz ds, q ∈ ["Action=A"; "Action=B"]
                               ∧ r = signed_request example_client q amz ds) more
    ∧ (length more ≤ 2)%nat
    ∧ ∀ q, (length (filter (to_query example_client q) more)
            ≤ length (filter (λ q', q' = q) ["Action=A"; "Action=B"]))%nat.
Proof.
  destruct (bulk_request_steps example_client ["Action=A"; "Action=B"] offline_world)
    as (P' & Hs & _).
  exact (bulk_request_pool_sends example_client ["Action=A"; "Action=B"] offline_world
           P' _ Hs).
Defined.

Lemma bulk_request_exception_witness :
  ∃ (i : nat) (q : string) (l : list http_response),
    ["Action=A"; "Action=B"] !! i = Some q
    ∧ fails offline_world example_client q (Exn RequestException "Connection refused")
    ∧ Forall2 (answers offline_world example_client) (take i ["Action=A"; "Action=B"]) l.
Proof.
  eapply (bulk_request_exception example_client ["Action=A"; "Action=B"] offline_world).
  vm_compute. reflexivity.
Defined.

Lemma bulk_request_sequential_witness :
  run (Pkg.bulk_request example_client ["Action=A"; "Action=B"]) offline_world
  = run (mapM_io (λ q, Pkg.create_request example_client q (Some Session))
           ["Action=A"; "Action=B"]) offline_world.
Proof. by apply (bulk_request_sequential example_client _ offline_world). Defined.

Lemma send_requests_ok_witness :
  Forall2 (λ r o, ∃ more response,
             o = Some response ∧ w_net busy_world (more ++ w_sent busy_world) r = Ok response)
    [HttpRequest "https://awis.amazonaws.com/api?Action=A" ∅]
    [Some (HttpResponse 200 [60; 47; 62])].
Proof.
  eapply (send_requests_ok [HttpRequest "https://awis.amazonaws.com/api?Action=A" ∅]
            busy_world).
  vm_compute. reflexivity.
Defined.

Lemma send_requests_failure_witness :
  ∃ e w', run (Legacy.send_requests
                 [HttpRequest "https://awis.amazonaws.com/api?Action=A" ∅]) offline_world
          = (Raise e, w')
          ∧ exn_cls e = TypeError.
Proof.
  apply (send_requests_failure [HttpRequest "https://awis.amazonaws.com/api?Action=A" ∅]
           offline_world (HttpRequest "https://awis.amazonaws.com/api?Action=A" ∅));
    [by left | done].
Defined.
