(* ===== verification/Client.v ===== *)
(** * Client: the two calls of the client

    [url_info] and [traffic_history], from their arguments to their
    results, for the package and for the module of the first version: the
    plan of the search, the sending of the requests and the parsing of the
    answers put together the way the methods put them together. *)

From stdpp Require Import gmap.
From S2P Require Import Prelude Text Calendar Quote World Hash Sha256 Config Signer.
From S2P Require Import Request Planner Xml Numeric Dict Parser Threads Dispatch.

(** ** Definitions *)

(** An [Iterable[str]]: a list, a tuple, a set or a string, which gives all
    its items each time it is iterated, or an iterator (a generator, a
    [map], a file), which gives its items once. *)
Inductive iterable : Type :=
  | Sequence (items : list string)
  | Iterator (items : list string).

(** [iterate it]: the items an iteration of [it] gives, and [it] after the
    iteration. *)
Definition iterate (it : iterable) : list string * iterable :=
  match it with
  | Sequence items => (items, Sequence items)
  | Iterator items => (items, Iterator [])
  end.

(** [s <= v] for a set [s] and the value of an attribute. *)
Definition set_le (s : gset string) (v : pyval) : result bool :=
  match v with
  | PSet g => Ok (bool_decide (s ⊆ g))
  | PStr _ => raise TypeError "'<=' not supported between instances of 'set' and 'str'"
  | PMethod _ => raise TypeError "'<=' not supported between instances of 'set' and 'method'"
  end.

(** [response.content] for what [grequests.map] has put in its list. *)
Definition attr_content (response : option http_response) : result (list Z) :=
  match response with
  | Some r => Ok (resp_content r)
  | None => raise AttributeError "'NoneType' object has no attribute 'content'"
  end.

(** [l[0]] *)
Definition index0 {A : Type} (l : list A) : result A :=
  match l with
  | x :: _ => Ok x
  | [] => raise IndexError "list index out of range"
  end.

(** [f(x)] for the value [f] of an attribute and a string [x], when the
    result is a response: the call protocol of Python, which the methods
    take as it is.  The only call of this kind in the program is
    [self.request(canonical_query)] in [url_info] of the package. *)
Class PyCall : Type := { py_call : pyval → string → io http_response }.

Module Pkg.
Export Planner.Pkg.
Export Dispatch.Pkg.

Section WithHash.
Context {hash : HashFn} {xml : XmlParser} {call : PyCall}.

(** [self.url_info(url, response_groups)] *)
Definition url_info (self : AWIS) (url : string) (response_groups : iterable) :
    io (list Z) :=
  let '(items, response_groups) := iterate response_groups in
  let str_response_groups := join "," items in
  let '(items, response_groups) := iterate response_groups in
  valid_response_groups ← lift (getattr self "valid_response_groups");
  valid ← lift (set_le (list_to_set items) valid_response_groups);
  if negb valid then io_raise NameError "Not all response groups are valid"
  else
    let canonical_query :=
      "Action=urlInfo&ResponseGroup=" +:+ quote str_response_groups
      +:+ "&Url=" +:+ quote url in
    request ← lift (getattr self "request");
    response ← py_call request canonical_query;
    mret (Parser.Pkg.parse_url_info (resp_content response)).

(** [self.traffic_history(url, search_range, start_date, search_reverse)] *)
Definition traffic_history (self : AWIS) (url : string) (search_range : Z)
    (start_date : option string) (search_reverse : bool) :
    io (list Parser.Pkg.TrafficHistory) :=
  queries ← traffic_history_queries url search_range start_date search_reverse;
  bulk_responses ← bulk_request self queries;
  parsed ← lift (mapM_result (λ r, Parser.Pkg.parse_traffic_history (resp_content r))
                   bulk_responses);
  mret (concat parsed).

End WithHash.
End Pkg.

Module Legacy.
Export Planner.Legacy.
Export Dispatch.Legacy.

Section WithHash.
Context {hash : HashFn} {xml : XmlParser}.

(** [self.url_info(url, response_groups)] *)
Definition url_info (self : AWIS) (url : string) (response_groups : iterable) :
    io (list Z) :=
  let '(items, response_groups) := iterate response_groups in
  let str_response_groups := join "," items in
  let '(items, response_groups) := iterate response_groups in
  if negb (bool_decide (list_to_set items ⊆ valid_response_groups self)) then
    io_raise NameError "Not all response groups are valid"
  else
    let canonical_query :=
      "Action=urlInfo&ResponseGroup=" +:+ quote str_response_groups
      +:+ "&Url=" +:+ quote url in
    request ← create_request self canonical_query;
    responses ← send_requests [request];
    response ← lift (index0 responses);
    content ← lift (attr_content response);
    mret (Parser.Legacy.parse_url_info content).

(** The loop [for d in parsed_responses: output.update(d)]: the generator
    parses an answer when the loop asks for it. *)
Fixpoint update_loop (responses : list (option http_response))
    (output : dict (option string) Parser.Legacy.entry) :
    result (dict (option string) Parser.Legacy.entry) :=
  match responses with
  | [] => Ok output
  | r :: responses' =>
      content ← attr_content r;
      d ← Parser.Legacy.parse_traffic_history content;
      update_loop responses' (dict_update output d)
  end.

(** [self.traffic_history(url, search_range, start_date, search_reverse)] *)
Definition traffic_history (self : AWIS) (url : string) (search_range : Z)
    (start_date : option string) (search_reverse : bool) :
    io (dict (option string) Parser.Legacy.entry) :=
  reqs ← traffic_history_requests self url search_range start_date search_reverse;
  responses ← send_requests reqs;
  lift (update_loop responses []).

End WithHash.
End Legacy.

(** *** Specification *)

(** The query of [url_info] for the text of the response groups. *)
Definition url_info_query (groups url : string) : string :=
  "Action=urlInfo&ResponseGroup=" +:+ quote groups +:+ "&Url=" +:+ quote url.

(** [checked rg]: the items the check of [url_info] sees: the items of the
    second iteration. *)
Definition checked (rg : iterable) : list string := (iterate (iterate rg).2).1.

(** A service in the world [w] for the things asked for, [keys]:
    whatever was sent before, the answer to a request for [k] (a request
    [r] with [request_of k r]) has the content [content k], which is the
    document of the days [days k], whose texts for the page views of a
    user write the numbers [per_user k]. *)
Record service {xml : XmlParser} {K : Type} (w : World) (keys : list K)
    (request_of : K → http_request → Prop) (content : K → list Z)
    (days : K → list row) (per_user : K → list float) : Prop := {
  service_net : ∀ sent k r, k ∈ keys → request_of k r →
    resp_content <$> w_net w sent r = Ok (content k);
  service_xml : ∀ k, k ∈ keys →
    ∃ site start, ET_parse (content k) = Ok (history_document site start (days k));
  service_numbers : ∀ k, k ∈ keys →
    Forall2 (λ r f, float_of (Some (row_page_views_per_user r)) = Ok f) (days k) (per_user k)
}.

(** The records of the days of [k], and of all the [keys] in their order. *)
Definition records {K : Type} (days : K → list row) (per_user : K → list float)
    (k : K) : list Parser.Pkg.TrafficHistory :=
  zip_with record_of_row (days k) (per_user k).

Definition records_of {K : Type} (keys : list K) (days : K → list row)
    (per_user : K → list float) : list Parser.Pkg.TrafficHistory :=
  concat (records days per_user <$> keys).

(** The requests for a query of the package: the query signed with the
    keys of the client, with any stamps. *)
Definition signed_for {hash : HashFn} (self : Pkg.AWIS) (q : string)
    (r : http_request) : Prop :=
  ∃ amz ds, r = signed_request self q amz ds.

(** [merged keys days per_user output]: [output] after the [update] with
    the dict of the records of each of the [keys], in order. *)
Definition merged {K : Type} (keys : list K) (days : K → list row)
    (per_user : K → list float) (output : dict (option string) Parser.Legacy.entry) :
    dict (option string) Parser.Legacy.entry :=
  foldl (λ d k, dict_update d (dict_of_records [] (records days per_user k))) output keys.

(** ** Theorems *)

Section ClientFacts.
Context {hash : HashFn} {xml : XmlParser} {call : PyCall}.

(** C20: The package's [url_info] reads an attribute that the constructor never
    sets. *)
Theorem url_info_attribute_error (self : Pkg.AWIS) (url : string) (rg : iterable)
    (w : World) :
  run (Pkg.url_info self url rg) w
  = (raise AttributeError "'AWIS' object has no attribute 'valid_response_groups'", w).
Proof. unfold Pkg.url_info. by destruct rg. Qed.

(** *** [traffic_history] of the package *)

(** The answers of a service parse to the records of its days. *)
Lemma parse_contents {K : Type} (w : World) (keys : list K)
    (request_of : K → http_request → Prop) (content : K → list Z)
    (days : K → list row) (per_user : K → list float) (k : K) :
  service w keys request_of content days per_user → k ∈ keys →
  Parser.Pkg.parse_traffic_history (content k) = Ok (records days per_user k).
Proof.
  intros [_ Hxml Hnum] Hk. destruct (Hxml k Hk) as (site & start & Hp).
  apply (parse_history_document_ok _ _ _ _ _ Hp (Hnum k Hk)).
Qed.

Lemma parse_answers (w : World) (self : Pkg.AWIS) (qs : list string)
    (content : string → list Z) (days : string → list row)
    (per_user : string → list float) (l : list http_response) :
  service w qs (signed_for self) content days per_user → Forall2 (answers w self) qs l →
  mapM_result (λ r, Parser.Pkg.parse_traffic_history (resp_content r)) l
  = Ok (records days per_user <$> qs).
Proof.
  intros Hserv Hl. apply mapM_result_Forall2.
  eapply Forall2_impl; [apply (Forall2_and_l _ _ _ _ Hl (Forall_forall_in qs))|].
  intros q r [(more & k1 & k2 & t1 & t2 & _ & _ & Hr) Hq].
  pose proof (service_net _ _ _ _ _ _ Hserv (more ++ w_sent w) q _ Hq
                (ex_intro _ (strftime_amz t1) (ex_intro _ (strftime_Ymd (dt_date t2)) eq_refl)))
    as Hnet.
  rewrite Hr in Hnet. injection Hnet as ->. by apply (parse_contents _ _ _ _ _ _ _ Hserv).
Qed.

(** [traffic_history] of the package under every scheduler, from the first
    day the checks give: when no reading of the clock fails and the
    service answers each query of the plan with the document of its days,
    the method returns the records of the days of the plan, in the order
    of the plan. *)
Lemma run_traffic_history (self : Pkg.AWIS) (url : string) (r : Z) (sd : option string)
    (rev : bool) (w w1 : World) (d : date) (content : string → list Z)
    (days : string → list row) (per_user : string → list float) :
  run (Pkg.search_start r sd rev) w = (Ok d, w1) →
  clock_safe w1 →
  service w1 (render url <$> plan r (toordinal d)) (signed_for self) content days per_user →
  ∃ w', later w1 w'
    ∧ run (Pkg.traffic_history self url r sd rev) w
      = (Ok (records_of (render url <$> plan r (toordinal d)) days per_user), w').
Proof.
  intros Hstart Hclock Hserv. unfold Pkg.traffic_history.
  rewrite run_bind, run_traffic_history_queries, Hstart, run_bind.
  destruct (run (Pkg.bulk_request _ _) w1) as [res w'] eqn:Eb. exists w'.
  apply bulk_request_inv in Eb as [Hw' Hres]. split; [done|]. destruct res as [l|e].
  - by rewrite run_bind_lift, (parse_answers _ _ _ _ _ _ _ Hserv Hres), run_ret.
  - exfalso. destruct Hres as (i & q & l & Hq & [[k Hk]|(more & amz & ds & Hn)] & _).
    + specialize (Hclock k). by rewrite Hk in Hclock.
    + pose proof (service_net _ _ _ _ _ _ Hserv (more ++ w_sent w1) q _
                    (list_elem_of_lookup_2 _ _ _ Hq) (ex_intro _ amz (ex_intro _ ds eq_refl)))
        as Hnet.
      by rewrite Hn in Hnet.
Qed.

(** C1: End to end: under every scheduler, when the checks of the search pass,
    no reading of the clock fails and the service answers each query of
    the plan with the document of its days, [traffic_history] returns the
    records of the days of the plan, in the order of the plan. *)
Theorem traffic_history_correct (self : Pkg.AWIS) (url : string) (r : Z)
    (sd : option string) (rev : bool) (w w1 : World) (d : date)
    (content : string → list Z) (days : string → list row)
    (per_user : string → list float) :
  run (Pkg.search_start r sd rev) w = (Ok d, w1) →
  clock_safe w1 →
  service w1 (render url <$> plan r (toordinal d)) (signed_for self) content days per_user →
  ∃ w', later w1 w'
    ∧ run (Pkg.traffic_history self url r sd rev) w
      = (Ok (records_of (render url <$> plan r (toordinal d)) days per_user), w').
Proof. apply run_traffic_history. Qed.

(** C24: One query the service fails on makes the search fail: when the checks
    pass and the network raises on every request for one query of the plan,
    [traffic_history] raises under every scheduler, whatever the answers to
    the other queries; the exception is that of the clock or of the network
    in the thread of a query of the plan. *)
Theorem traffic_history_request_error (self : Pkg.AWIS) (url : string) (r : Z)
    (sd : option string) (rev : bool) (w w1 : World) (d : date) (q : string) :
  run (Pkg.search_start r sd rev) w = (Ok d, w1) →
  q ∈ render url <$> plan r (toordinal d) →
  (∀ sent amz ds, is_ok (w_net w1 sent (signed_request self q amz ds)) = false) →
  ∃ e w', run (Pkg.traffic_history self url r sd rev) w = (Raise e, w')
          ∧ ∃ q', q' ∈ render url <$> plan r (toordinal d) ∧ fails w1 self q' e.
Proof.
  intros Hstart Hq Hfail. unfold Pkg.traffic_history.
  rewrite run_bind, run_traffic_history_queries, Hstart, run_bind.
  destruct (bulk_request_failing self _ w1 q Hq Hfail) as (e & w' & -> & Hf). eauto.
Qed.

(** *** [traffic_history] of the first version *)

(** The merged dict has no date twice, and the value of a date is the
    entry of the last record of that date, in the order of the keys. *)
Lemma merged_wf {K : Type} (keys : list K) (days : K → list row)
    (per_user : K → list float) (output : dict (option string) Parser.Legacy.entry) :
  dict_wf output → dict_wf (merged keys days per_user output).
Proof.
  unfold merged. revert output. induction keys as [|k keys IH]; intros output Hwf; [done|].
  simpl. by apply IH, dict_wf_update.
Qed.

Lemma merged_get {K : Type} (keys : list K) (days : K → list row)
    (per_user : K → list float) (output : dict (option string) Parser.Legacy.entry)
    (date : option string) :
  dict_get date (merged keys days per_user output)
  = match last (filter (λ r, Parser.Pkg.date r = date) (records_of keys days per_user)) with
    | Some r => Some (entry_of r)
    | None => dict_get date output
    end.
Proof.
  unfold merged, records_of. revert output.
  induction keys as [|k keys IH]; intros output; [done|].
  cbn [foldl fmap list_fmap concat]. rewrite IH, filter_app, last_app.
  destruct (last (filter _ (concat _))); [done|].
  rewrite dict_get_update_wf by by apply dict_of_records_wf, NoDup_nil.
  rewrite dict_of_records_get. by destruct (last _).
Qed.

(** The loop over the answers of a service merges the dicts of their
    records. *)
Lemma update_loop_merged {K : Type} (w : World) (keys all : list K)
    (request_of : K → http_request → Prop) (content : K → list Z)
    (days : K → list row) (per_user : K → list float)
    (l : list (option http_response))
    (output : dict (option string) Parser.Legacy.entry) :
  service w all request_of content days per_user → Forall (λ k, k ∈ all) keys →
  Forall2 (λ k o, ∃ response, o = Some response ∧ resp_content response = content k) keys l →
  Legacy.update_loop l output = Ok (merged keys days per_user output).
Proof.
  intros Hserv Hin Hl. revert output Hin.
  induction Hl as [|k o keys l (resp & -> & Hc) Hl IH]; intros output Hin; [done|].
  apply Forall_cons_1 in Hin as [Hk Hin]. cbn [Legacy.update_loop attr_content mbind result_bind].
  rewrite Hc, parse_traffic_history_legacy, (parse_contents _ _ _ _ _ _ _ Hserv Hk).
  cbn [fmap result_fmap mbind result_bind]. by rewrite IH.
Qed.

(** [traffic_history] of the first version under every scheduler, from the
    requests the loop has built: when the service answers each of them
    with the document of its days, the method returns a dict with each
    date once, in which the value of a date is the entry of the last record
    of that date, in the order of the requests. *)
Lemma run_traffic_history_legacy (self : Legacy.AWIS) (url : string) (r : Z)
    (sd : option string) (rev : bool) (w w1 : World) (reqs : list http_request)
    (content : http_request → list Z) (days : http_request → list row)
    (per_user : http_request → list float) :
  run (Legacy.traffic_history_requests self url r sd rev) w = (Ok reqs, w1) →
  service w1 reqs eq content days per_user →
  ∃ w', run (Legacy.traffic_history self url r sd rev) w
        = (Ok (merged reqs days per_user []), w').
Proof.
  intros Hreqs Hserv. unfold Legacy.traffic_history. rewrite run_bind, Hreqs, run_bind.
  destruct (run (Legacy.send_requests reqs) w1) as [[l|e] w'] eqn:Es; exists w';
    apply send_requests_inv in Es.
  - rewrite run_lift. f_equal.
    apply (update_loop_merged w1 reqs reqs eq content days per_user); [done| |].
    + by apply Forall_forall.
    + eapply Forall2_impl; [apply (Forall2_and_l _ _ _ _ Es (Forall_forall_in reqs))|].
      intros q o [(more & resp & -> & Hn) Hq]. exists resp. split; [done|].
      pose proof (service_net _ _ _ _ _ _ Hserv (more ++ w_sent w1) q q Hq eq_refl) as Hc.
      rewrite Hn in Hc. by injection Hc.
  - exfalso. destruct Es as (_ & q & more & e0 & Hq & Hn).
    pose proof (service_net _ _ _ _ _ _ Hserv (more ++ w_sent w1) q q Hq eq_refl) as Hc.
    by rewrite Hn in Hc.
Qed.

(** C13: End to end for the first version, under every scheduler: when the
    checks pass and the service answers each request of the loop with the
    document of its days, [traffic_history] returns a dict in which each
    date is a key once, and the value of a date is the entry of the last
    record of that date in the order of the requests. *)
Theorem traffic_history_legacy_correct (self : Legacy.AWIS) (url : string) (r : Z)
    (sd : option string) (rev : bool) (w w1 : World) (reqs : list http_request)
    (content : http_request → list Z) (days : http_request → list row)
    (per_user : http_request → list float) :
  run (Legacy.traffic_history_requests self url r sd rev) w = (Ok reqs, w1) →
  service w1 reqs eq content days per_user →
  ∃ w' output,
    run (Legacy.traffic_history self url r sd rev) w = (Ok output, w')
    ∧ dict_wf output
    ∧ ∀ date, dict_get date output
              = entry_of <$> last (filter (λ r, Parser.Pkg.date r = date)
                                     (records_of reqs days per_user)).
Proof.
  intros Hreqs Hserv.
  destruct (run_traffic_history_legacy _ _ _ _ _ _ _ _ _ _ _ Hreqs Hserv) as [w' Hrun].
  exists w', (merged reqs days per_user []). split_and!; [done| |].
  - apply merged_wf, NoDup_nil_2.
  - intros date. rewrite merged_get. by destruct (last _).
Qed.

(** *** [url_info] of the first version *)


(** [url_info] on every world: the check of the groups the second
    iteration gives, two readings of the clock, one request, and the
    handler when the request has failed. *)
Lemma run_url_info_legacy (self : Legacy.AWIS) (url : string) (rg : iterable) (w : World) :
  run (Legacy.url_info self url rg) w
  = if negb (bool_decide (list_to_set (checked rg) ⊆ Legacy.valid_response_groups self))
    then (raise NameError "Not all response groups are valid", w)
    else
      match utcfromtimestamp (w_clock w) with
      | Raise e => (Raise e, tick w)
      | Ok t1 =>
          match utcfromtimestamp (w_clock (tick w)) with
          | Raise e => (Raise e, tick (tick w))
          | Ok t2 =>
              let r := signed_request (as_pkg self)
                         (url_info_query (join "," (iterate rg).1) url)
                         (strftime_amz t1) (strftime_Ymd (dt_date t2)) in
              (match w_net w (w_sent w) r with
               | Ok response => Ok (resp_content response)
               | Raise _ =>
                   raise TypeError
                     "exception_handler() takes 0 positional arguments but 2 were given"
               end,
               send r (unsched (unsched (tick (tick w)))))
          end
      end.
Proof.
  unfold Legacy.url_info, checked. destruct (iterate rg) as [items rg1]. cbn [fst snd].
  destruct (iterate rg1) as [items2 rg2]. cbn [fst snd].
  destruct (negb _); [done|]. fold (url_info_query (join "," items) url).
  rewrite run_bind, run_create_request_legacy.
  destruct (utcfromtimestamp (w_clock w)) as [t1|e]; [|done].
  destruct (utcfromtimestamp (w_clock (tick w))) as [t2|e]; [|done].
  unfold Legacy.send_requests. rewrite run_bind, run_grequests_map_one. cbn [w_net w_sent tick].
  by destruct (w_net w (w_sent w) _) as [resp|e].
Qed.

(** C21: [url_info] of the first version on a list of valid response groups,
    when the clock gives two times and the network answers: one request,
    signed, for the groups joined by commas; the result is the content of
    the answer. *)
Theorem url_info_legacy_answer (self : Legacy.AWIS) (url : string) (items : list string)
    (w : World) (t1 t2 : datetime) (response : http_response) :
  list_to_set items ⊆ Legacy.valid_response_groups self →
  utcfromtimestamp (w_clock w) = Ok t1 →
  utcfromtimestamp (w_clock (tick w)) = Ok t2 →
  let r := signed_request (as_pkg self) (url_info_query (join "," items) url)
             (strftime_amz t1) (strftime_Ymd (dt_date t2)) in
  w_net w (w_sent w) r = Ok response →
  run (Legacy.url_info self url (Sequence items)) w
  = (Ok (resp_content response), send r (unsched (unsched (tick (tick w))))).
Proof.
  intros Hv Hc1 Hc2 r Hn. rewrite run_url_info_legacy, Hc1, Hc2. cbn [checked iterate fst snd].
  rewrite bool_decide_eq_true_2 by done. cbn [negb]. fold r. by rewrite Hn.
Qed.

(** C23: A request of [url_info] that fails: the handler of [grequests.map] is
    called with two arguments and takes none, so the call ends with a
    [TypeError], after the request is sent. *)
Theorem url_info_legacy_failure (self : Legacy.AWIS) (url : string) (items : list string)
    (w : World) (t1 t2 : datetime) (e : exn) :
  list_to_set items ⊆ Legacy.valid_response_groups self →
  utcfromtimestamp (w_clock w) = Ok t1 →
  utcfromtimestamp (w_clock (tick w)) = Ok t2 →
  let r := signed_request (as_pkg self) (url_info_query (join "," items) url)
             (strftime_amz t1) (strftime_Ymd (dt_date t2)) in
  w_net w (w_sent w) r = Raise e →
  run (Legacy.url_info self url (Sequence items)) w
  = (raise TypeError "exception_handler() takes 0 positional arguments but 2 were given",
     send r (unsched (unsched (tick (tick w))))).
Proof.
  intros Hv Hc1 Hc2 r Hn. rewrite run_url_info_legacy, Hc1, Hc2. cbn [checked iterate fst snd].
  rewrite bool_decide_eq_true_2 by done. cbn [negb]. fold r. by rewrite Hn.
Qed.

(** C36: A list with a response group that is not valid: [NameError], and
    nothing is read or sent. *)
Theorem url_info_legacy_invalid (self : Legacy.AWIS) (url : string) (items : list string)
    (g : string) (w : World) :
  g ∈ items → g ∉ Legacy.valid_response_groups self →
  run (Legacy.url_info self url (Sequence items)) w
  = (raise NameError "Not all response groups are valid", w).
Proof.
  intros Hg Hn. rewrite run_url_info_legacy. cbn [checked iterate fst snd].
  rewrite bool_decide_eq_false_2; [done|]. intros Hsub. apply Hn, Hsub.
  by apply elem_of_list_to_set.
Qed.

(** C22: Response groups given as an iterator are not checked: the [join] uses
    the iterator up, the check sees no item and passes, and the request
    for the groups, valid or not, is sent. *)
Theorem url_info_iterator_unchecked (self : Legacy.AWIS) (url : string)
    (items : list string) (w : World) (t1 t2 : datetime) :
  utcfromtimestamp (w_clock w) = Ok t1 →
  utcfromtimestamp (w_clock (tick w)) = Ok t2 →
  w_sent (run (Legacy.url_info self url (Iterator items)) w).2
  = signed_request (as_pkg self) (url_info_query (join "," items) url)
      (strftime_amz t1) (strftime_Ymd (dt_date t2)) :: w_sent w.
Proof.
  intros Hc1 Hc2. rewrite run_url_info_legacy, Hc1, Hc2. cbn [checked iterate fst snd].
  rewrite bool_decide_eq_true_2 by (rewrite list_to_set_nil; apply empty_subseteq). done.
Qed.

End ClientFacts.

(** *** The theorems at concrete inputs, with SHA-256 *)

Lemma traffic_history_correct_witness :
  let qs := render "example.com" <$> plan 45 (toordinal (Date 2019 11 1)) in
  ∃ w', later (tick example_world) w'
    ∧ run (Pkg.traffic_history (xml := example_parser) example_client "example.com" 45
             (Some "20191101") false) example_world
      = (Ok (records_of qs (λ _, example_rows) (λ _, [three_and_a_half])), w').
Proof.
  apply (traffic_history_correct (xml := example_parser) example_client "example.com" 45
           (Some "20191101") false example_world (tick example_world) (Date 2019 11 1)
           (λ _, [])).
  - by vm_compute.
  - by apply clock_safe_still.
  - split; [done | by intros; eexists _, _ |].
    intros. constructor; [by vm_compute | constructor].
Defined.

Lemma url_info_legacy_answer_witness :
  run (Legacy.url_info legacy_client "example.com" (Sequence ["Rank"; "Speed"])) example_world
  = (Ok [],
     send (signed_request (as_pkg legacy_client)
             (url_info_query "Rank,Speed" "example.com") "20200101T120000Z" "20200101")
       (unsched (unsched (tick (tick example_world))))).
Proof.
  apply (url_info_legacy_answer legacy_client "example.com" ["Rank"; "Speed"] example_world
           (DateTime (Date 2020 1 1) 12 0 0) (DateTime (Date 2020 1 1) 12 0 0)
           (HttpResponse 200 [])); [|by vm_compute..].
  apply (bool_decide_eq_true_1 _). by vm_compute.
Defined.

Lemma url_info_legacy_failure_witness :
  run (Legacy.url_info legacy_client "example.com" (Sequence ["Rank"])) offline_world
  = (raise TypeError "exception_handler() takes 0 positional arguments but 2 were given",
     send (signed_request (as_pkg legacy_client)
             (url_info_query "Rank" "example.com") "20200101T120000Z" "20200101")
       (unsched (unsched (tick (tick offline_world))))).
Proof.
  apply (url_info_legacy_failure legacy_client "example.com" ["Rank"] offline_world
           (DateTime (Date 2020 1 1) 12 0 0) (DateTime (Date 2020 1 1) 12 0 0)
           (Exn RequestException "Connection refused")); [|by vm_compute..].
  apply (bool_decide_eq_true_1 _). by vm_compute.
Defined.

Lemma url_info_legacy_invalid_witness :
  run (Legacy.url_info legacy_client "example.com" (Sequence ["Rank"; "Weather"]))
    example_world
  = (raise NameError "Not all response groups are valid", example_world).
Proof.
  apply (url_info_legacy_invalid legacy_client "example.com" ["Rank"; "Weather"] "Weather").
  - apply (bool_decide_eq_true_1 _). by vm_compute.
  - apply (bool_decide_eq_false_1 _). by vm_compute.
Defined.

Lemma url_info_iterator_unchecked_witness :
  w_sent (run (Legacy.url_info legacy_client "example.com" (Iterator ["Weather"]))
            example_world).2
  = [signed_request (as_pkg legacy_client)
       (url_info_query "Weather" "example.com") "20200101T120000Z" "20200101"].
Proof.
  apply (url_info_iterator_unchecked legacy_client "example.com" ["Weather"] example_world
           (DateTime (Date 2020 1 1) 12 0 0) (DateTime (Date 2020 1 1) 12 0 0));
    by vm_compute.
Defined.

Lemma traffic_history_legacy_correct_witness :
  let planned := run (Legacy.traffic_history_requests legacy_client "example.com" 45
                        (Some "20191101") false) example_world in
  let reqs := match planned.1 with Ok l => l | Raise _ => [] end in
  ∃ w' output,
    run (Legacy.traffic_history (xml := example_parser) legacy_client "example.com" 45
           (Some "20191101") false) example_world = (Ok output, w')
    ∧ dict_wf output
    ∧ ∀ date, dict_get date output
              = entry_of <$> last (filter (λ r, Parser.Pkg.date r = date)
                                     (records_of reqs (λ _, example_rows)
                                        (λ _, [three_and_a_half]))).
Proof.
  apply (traffic_history_legacy_correct (xml := example_parser) legacy_client "example.com"
           45 (Some "20191101") false example_world
           (run (Legacy.traffic_history_requests legacy_client "example.com" 45
                   (Some "20191101") false) example_world).2 _ (λ _, [])).
  - by vm_compute.
  - split; [by intros; subst | by intros; eexists _, _ |].
    intros. constructor; [by vm_compute | constructor].
Defined.


Lemma traffic_history_request_error_witness :
  ∃ e w', run (Pkg.traffic_history (xml := example_parser) example_client "example.com" 45
                 (Some "20191101") false) offline_world = (Raise e, w')
          ∧ ∃ q', q' ∈ render "example.com" <$> plan 45 (toordinal (Date 2019 11 1))
                  ∧ fails (tick offline_world) example_client q' e.
Proof.
  apply (traffic_history_request_error (xml := example_parser) example_client "example.com"
           45 (Some "20191101") false offline_world (tick offline_world) (Date 2019 11 1)
           (render "example.com" (31, toordinal (Date 2019 11 1)))).
  - by vm_compute.
  - apply (list_elem_of_lookup_2 _ 0%nat). by vm_compute.
  - done.
Defined.
